(** * sqlite_object: list, dict and set containers stored in SQLite tables

    A shallow embedding of [SqliteList], [SqliteDict] and [SqliteSet]
    (src/sqlite_object/_sqlite_list.py, _sqlite_dict.py, _sqlite_set.py).

    A method of the Python classes becomes a function in a state-and-exception
    monad over the connection: the tables of the database file, the open
    transaction, the commit-batching counter and the trace of the statements
    and engine calls the method issues.  A SQL statement of the source becomes
    one function on the table it names. *)

From Stdlib Require Import ZArith Ascii String List Lia.
From stdpp Require Import gmap strings list fin_maps sorting.

Set Default Proof Using "Type".

(** ** Python results: a value or a raised exception *)

Inductive exn : Type :=
| IndexError (msg : string)
| KeyError (msg : string)
| TypeError (msg : string)
| NameError (msg : string)
| ValueError (msg : string)
| OperationalError (msg : string)   (* sqlite3.OperationalError *)
| IntegrityError (msg : string).    (* sqlite3.IntegrityError *)

Inductive result (A : Type) : Type :=
| Ok (a : A)
| Raise (e : exn).
Arguments Ok {A} a.
Arguments Raise {A} e.

(** ** The connection shared by the three adapters *)

Section Engine.
Context {DB Q : Type}.

(** What a method does to the engine, in program order. *)
Inductive event : Type :=
| Exec (q : Q)      (* cursor.execute(q) *)
| DoWrite           (* self._do_write() *)
| Commit.           (* self._db.commit() *)

Record conn : Type := Conn {
  db : DB;                  (* the tables of the backing file *)
  in_txn : bool;            (* a BEGIN TRANSACTION without its commit *)
  commit_every : nat;       (* batching threshold *)
  pending : nat;            (* writes since the last batched commit *)
  commits : nat;            (* commits issued so far *)
  trace : list event        (* newest event last *)
}.

Definition M (A : Type) : Type := conn → result A * conn.

Definition ret {A} (a : A) : M A := λ s, (Ok a, s).

Definition raise {A} (e : exn) : M A := λ s, (Raise e, s).

Definition bind {A B} (m : M A) (k : A → M B) : M B :=
  λ s, match m s with
       | (Ok a, s') => k a s'
       | (Raise e, s') => (Raise e, s')
       end.

(** The connection after one more event, and with other tables. *)
Definition record (e : event) (s : conn) : conn :=
  Conn (db s) (in_txn s) (commit_every s) (pending s) (commits s) (trace s ++ [e]).

Definition with_db (d : DB) (s : conn) : conn :=
  Conn d (in_txn s) (commit_every s) (pending s) (commits s) (trace s).

Definition log (e : event) : M () := λ s, (Ok tt, record e s).

Definition get_txn : M bool := λ s, (Ok (in_txn s), s).

Definition set_txn (b : bool) : M () :=
  λ s, (Ok tt, Conn (db s) b (commit_every s) (pending s) (commits s) (trace s)).

(** [cursor.execute(q)] for a statement whose effect on the tables is [f]:
    the statement is recorded, then it either fails, leaving the tables as
    they are, or yields its rows and the new tables. *)
Definition execute {A} (q : Q) (f : DB → result (A * DB)) : M A :=
  λ s, match f (db s) with
       | Ok (a, d) => (Ok a, with_db d (record (Exec q) s))
       | Raise e => (Raise e, record (Exec q) s)
       end.

(** [try: body except KeyError: handler] *)
Definition try_except_KeyError {A} (body handler : M A) : M A :=
  λ s, match body s with
       | (Raise (KeyError _), s') => handler s'
       | r => r
       end.

(** [self._db.commit()]: ends the open transaction. *)
Definition _db_commit : M () :=
  λ s, (Ok tt, Conn (db s) false (commit_every s) (pending s) (S (commits s))
                    (trace s ++ [Commit])).

(** Modelled from the spec: [_do_write] of the base class [SqliteObject]
    (_sqlite_object.py, not among the sources), the record_write hook of
    section 4.1: it increments the counter and, once the counter reaches
    [commit_every] (0 meaning a commit after every mutation), commits and
    resets the counter. *)
Definition _do_write : M () :=
  λ s, let counter := S (pending s) in
       let s1 := Conn (db s) (in_txn s) (commit_every s) counter (commits s)
                      (trace s ++ [DoWrite]) in
       if decide (commit_every s ≤ counter)
       then match _db_commit s1 with
            | (r, s2) => (r, Conn (db s2) (in_txn s2) (commit_every s2) 0
                                  (commits s2) (trace s2))
            end
       else (Ok tt, s1).

(** How often a method called [_do_write]. *)
Definition is_DoWrite (e : event) : bool :=
  match e with DoWrite => true | _ => false end.

Definition do_writes (s : conn) : nat := length (List.filter is_DoWrite (trace s)).

Definition fresh (d : DB) (every : nat) : conn := Conn d false every 0 0 [].
End Engine.

Arguments event : clear implicits.
Arguments conn : clear implicits.
Arguments M : clear implicits.

Global Instance M_ret {DB Q} : MRet (M DB Q) := λ A, ret.
Global Instance M_bind {DB Q} : MBind (M DB Q) := λ A B k m, bind m k.

Abbreviation method := M.

(** A method written for the statements [Q], run on a connection whose trace
    records statements of a larger type [Q']: a method reads nothing of the
    trace, it only appends to it, so it is run on the same connection with
    a trace of its own, which is then appended with its statements
    relabelled by [f]. *)
Section Relabel.
Context {DB Q Q' : Type} (f : Q → Q').

Definition relabel_event (e : event Q) : event Q' :=
  match e with
  | Exec q => Exec (f q)
  | DoWrite => DoWrite
  | Commit => Commit
  end.

Definition relabel {A} (m : M DB Q A) : M DB Q' A :=
  λ s, match m (Conn (db s) (in_txn s) (commit_every s) (pending s) (commits s) []) with
       | (r, s1) => (r, Conn (db s1) (in_txn s1) (commit_every s1) (pending s1)
                             (commits s1) (trace s ++ (relabel_event <$> trace s1)))
       end.
End Relabel.


(** ** Python values used as subscripts *)

(** [self[key]]: an [int], a [slice(start, stop, step)], or an object of
    another type, of which only [str(type(key))] matters. *)
Inductive index : Type :=
| Int (i : Z)
| Slice (start stop step : option Z)
| Other (type_name : string).

(** [slice(start, stop, step).indices(length)] *)
Definition slice_indices (length : Z) (start stop step : option Z) : result (Z * Z * Z) :=
  let step := default 1%Z step in
  if decide (step = 0)%Z then Raise (ValueError "slice step cannot be zero") else
  let lower := if decide (step < 0)%Z then (-1)%Z else 0%Z in
  let upper := if decide (step < 0)%Z then (length - 1)%Z else length in
  let clamp (bound : option Z) (dflt : Z) :=
    match bound with
    | None => dflt
    | Some b => if decide (b < 0)%Z then Z.max (b + length) lower else Z.min b upper
    end in
  Ok (clamp start (if decide (step < 0)%Z then upper else lower),
      clamp stop (if decide (step < 0)%Z then lower else upper),
      step).

(** [len(range(start, stop, step))] *)
Definition range_len (start stop step : Z) : Z :=
  if decide (0 < step)%Z
  then (if decide (start < stop)%Z then (stop - start - 1) / step + 1 else 0)%Z
  else (if decide (stop < start)%Z then (start - stop - 1) / (- step) + 1 else 0)%Z.

(** [list(range(start, stop, step))] *)
Definition py_range (start stop step : Z) : list Z :=
  map (λ k : nat, (start + Z.of_nat k * step)%Z)
      (seq 0 (Z.to_nat (range_len start stop step))).

(** [range(length)[start:stop:step]] *)
Definition range_getslice (length : Z) (start stop step : option Z) : result (list Z) :=
  match slice_indices (Z.max length 0) start stop step with
  | Ok (start, stop, step) => Ok (py_range start stop step)
  | Raise e => Raise e
  end.

(** ** Writing to a file object *)

(** The file object [outfile] of [write] and [write_lines] is the text
    written to it so far: [outfile.write(text)] appends [text], and
    [unicode] leaves a text as it is.  The two loops below are those of
    [SqliteList] and of [SqliteSet], which have the same text. *)
Section Output.
Context {V : Type}.

Local Open Scope string_scope.

(** [json.dumps] on an item. *)
Variable json_dumps : V → string.

(** The [while True] loop of [write], entered with the item [this] and with
    the items [rest] left in the iterator. *)
Fixpoint write_loop (this : V) (rest : list V) (outfile : string) : string :=
  let outfile := outfile ++ json_dumps this in
  match rest with
  | [] => outfile ++ "]"
  | this :: rest => write_loop this rest (outfile ++ ",")
  end.

(** The [while True] loop of [write_lines]. *)
Fixpoint write_lines_loop (coder : V → string) (separator : string)
    (this : V) (rest : list V) (outfile : string) : string :=
  let outfile := outfile ++ coder this in
  let outfile := outfile ++ separator in
  match rest with
  | [] => outfile
  | this :: rest => write_lines_loop coder separator this rest outfile
  end.
End Output.

(** ** SqliteList (_sqlite_list.py) *)

Module SqliteList.

(** A list table: [list_index INTEGER PRIMARY KEY] to [value TEXT].  The
    database file maps table names to tables. *)
Abbreviation table := (gmap Z string).
Abbreviation database := (gmap string (gmap Z string)).

(** The statements the class issues, as the trace records them. *)
Inductive stmt : Type :=
| CreateTable (tn : string)
| SelectCount (tn : string)
| SelectValueAtMinPlus (tn : string) (k : Z)
| ReplaceAtMinPlus (into from : string) (k : Z) (text : string)
| InsertAtMaxPlus1 (tn : string) (text : string)
| InsertAtMinMinus1 (tn : string) (text : string)
| SelectValueAtMax (tn : string)
| DeleteAtMax (tn : string)
| SelectValueAtMin (tn : string)
| DeleteAtMin (tn : string)
| SelectValuesAsc (tn : string)
| DeleteAll (tn : string)
| BeginTransaction
| EndTransaction.   (* written in the two pops, on a path that never issues it *)

(** *** SQLite on a list table *)

(** A rowid is a signed 64-bit integer. *)
Definition MAX_ROWID : Z := 9223372036854775807.
Definition MIN_ROWID : Z := -9223372036854775808.

Definition positions (t : table) : list Z := (map_to_list t).*1.

(** [MIN(list_index)] and [MAX(list_index)]: NULL ([None]) on no rows. *)
Definition sql_min (t : table) : option Z :=
  foldr (λ p acc, Some (from_option (Z.min p) p acc)) None (positions t).

Definition sql_max (t : table) : option Z :=
  foldr (λ p acc, Some (from_option (Z.max p) p acc)) None (positions t).

(** The value of [(SELECT MIN/MAX ...) + k]: NULL stays NULL, and a sum
    outside the 64-bit range becomes a floating-point number. *)
Inductive sqlnum : Type :=
| Null
| Integer (z : Z)
| Real.

Definition sql_add (a : option Z) (k : Z) : sqlnum :=
  match a with
  | None => Null
  | Some m => if decide (MIN_ROWID ≤ m + k ≤ MAX_ROWID)%Z then Integer (m + k) else Real
  end.

(** The rowid a row stored with a NULL [list_index] receives: 1 in an empty
    table, else one more than the largest.  (When the largest is
    [MAX_ROWID] SQLite probes random rowids; the class never stores a NULL
    index into a table that has rows, and that search is left as the error
    it ends in when it finds none.) *)
Definition new_rowid (t : table) : result Z :=
  match sql_max t with
  | None => Ok 1%Z
  | Some m => if decide (m < MAX_ROWID)%Z then Ok (m + 1)%Z
              else Raise (OperationalError "database or disk is full")
  end.

(** [INSERT] ([replace = false]) or [REPLACE] ([replace = true]) of the row
    [(p, text)]. *)
Definition put_row (replace : bool) (p : sqlnum) (text : string) (t : table)
  : result table :=
  match p with
  | Real => Raise (IntegrityError "datatype mismatch")
  | Null => match new_rowid t with
            | Ok p => Ok (<[p := text]> t)
            | Raise e => Raise e
            end
  | Integer p => match t !! p with
                 | Some _ => if replace then Ok (<[p := text]> t)
                             else Raise (IntegrityError "UNIQUE constraint failed")
                 | None => Ok (<[p := text]> t)
                 end
  end.

Definition with_table {A} (tn : string) (d : database) (f : table → result A)
  : result A :=
  match d !! tn with
  | Some t => f t
  | None => Raise (OperationalError ("no such table: " ++ tn))
  end.

(** [CREATE TABLE IF NOT EXISTS tn (list_index INTEGER PRIMARY KEY, value TEXT)] *)
Definition sql_create_table (tn : string) (d : database) : result (() * database) :=
  match d !! tn with
  | Some _ => Ok (tt, d)
  | None => Ok (tt, <[tn := ∅]> d)
  end.

(** [SELECT COUNT( * ) FROM tn] *)
Definition sql_count (tn : string) (d : database) : result (Z * database) :=
  with_table tn d (λ t, Ok (Z.of_nat (size t), d)).

(** [SELECT value FROM tn WHERE list_index = (SELECT MIN(list_index) FROM tn) + k],
    then [fetchone()].  No row answers when the table is empty (the sum is
    NULL); a sum beyond the 64-bit range equals no rowid, and no row is
    stored there. *)
Definition sql_value_at_min_plus (tn : string) (k : Z) (d : database)
  : result (option string * database) :=
  with_table tn d (λ t, Ok (m ← sql_min t; t !! (m + k)%Z, d)).

(** [REPLACE INTO into (list_index, value)
     VALUES ((SELECT MIN(list_index) FROM from) + k, text)] *)
Definition sql_replace_at_min_plus (into from : string) (k : Z) (text : string)
    (d : database) : result (() * database) :=
  with_table into d (λ t_into,
    with_table from d (λ t_from,
      match put_row true (sql_add (sql_min t_from) k) text t_into with
      | Ok t' => Ok (tt, <[into := t']> d)
      | Raise e => Raise e
      end)).

(** [INSERT INTO tn (list_index, value)
     VALUES ((SELECT MAX(list_index) FROM tn) + 1, text)] *)
Definition sql_insert_at_max_plus_1 (tn text : string) (d : database)
  : result (() * database) :=
  with_table tn d (λ t,
    match put_row false (sql_add (sql_max t) 1) text t with
    | Ok t' => Ok (tt, <[tn := t']> d)
    | Raise e => Raise e
    end).

(** [INSERT INTO tn (list_index, value)
     VALUES ((SELECT MIN(list_index) FROM tn) - 1, text)] *)
Definition sql_insert_at_min_minus_1 (tn text : string) (d : database)
  : result (() * database) :=
  with_table tn d (λ t,
    match put_row false (sql_add (sql_min t) (-1)) text t with
    | Ok t' => Ok (tt, <[tn := t']> d)
    | Raise e => Raise e
    end).

(** [SELECT value FROM tn WHERE list_index = (SELECT MAX/MIN(list_index) FROM tn)],
    then [fetchone()] *)
Definition sql_value_at (pick : table → option Z) (tn : string) (d : database)
  : result (option string * database) :=
  with_table tn d (λ t, Ok (p ← pick t; t !! p, d)).

(** [DELETE FROM tn WHERE list_index = (SELECT MAX/MIN(list_index) FROM tn)] *)
Definition sql_delete_at (pick : table → option Z) (tn : string) (d : database)
  : result (() * database) :=
  with_table tn d (λ t,
    match pick t with
    | Some p => Ok (tt, <[tn := delete p t]> d)
    | None => Ok (tt, d)
    end).

(** [SELECT value FROM tn ORDER BY list_index ASC] *)
Definition row_le (r1 r2 : Z * string) : Prop := (r1.1 ≤ r2.1)%Z.

Global Instance row_le_dec : RelDecision row_le := λ r1 r2, decide (r1.1 ≤ r2.1)%Z.

Definition sql_values_asc (tn : string) (d : database)
  : result (list string * database) :=
  with_table tn d (λ t,
    Ok ((merge_sort row_le (map_to_list t)).*2, d)).

(** [DELETE FROM tn] *)
Definition sql_delete_all (tn : string) (d : database) : result (() * database) :=
  with_table tn d (λ _, Ok (tt, <[tn := ∅]> d)).

Abbreviation M := (M database stmt).

(** [cursor.execute('BEGIN TRANSACTION')]: SQLite refuses a transaction
    inside a transaction. *)
Definition begin_transaction : M () :=
  log (Exec BeginTransaction);;
  open ← get_txn;
  if open : bool
  then raise (OperationalError "cannot start a transaction within a transaction")
  else set_txn true.

(** *** The class *)

(** What [__getitem__] returns for a slice: the generator [_iterate(length,
    irange)], suspended before the indices of [irange] it has yet to visit. *)
Record generator : Type := Generator {
  gen_length : Z;
  gen_irange : list Z
}.

Section Methods.
Context {V : Type}.

(** The attributes of [self] the methods read. *)
Record self_t : Type := Self {
  table_name : string;
  _coder : V → string;
  _decoder : string → V
}.

Inductive item : Type :=
| Value (v : V)
| Sliced (g : generator).

Variable self : self_t.

Definition _getlen : M Z :=
  execute (SelectCount (table_name self)) (sql_count (table_name self)).

Definition __len__ : M Z := _getlen.

Definition __getitem__ (key : index) : M item :=
  length ← _getlen;
  match key with
  | Slice start stop step =>
      match range_getslice length start stop step with
      | Ok irange => mret (Sliced (Generator length irange))
      | Raise e => raise e
      end
  | Other type_name => raise (TypeError ("Key should be int, got " ++ type_name))
  | Int key =>
      if decide (key >= length)%Z
      then raise (IndexError "Sequence index out of range.")
      else
        key ← (if decide (key < 0)%Z
               then let key := (length + key)%Z in
                    if decide (key >= length)%Z
                    then raise (IndexError "Sequence index out of range.")
                    else if decide (key < 0)%Z
                    then raise (IndexError "Sequence index out of range.")
                    else mret key
               else mret key);
        row ← execute (SelectValueAtMinPlus (table_name self) key)
                      (sql_value_at_min_plus (table_name self) key);
        match row with
        | Some text => mret (Value (_decoder self text))
        | None => raise (TypeError "'NoneType' object is not subscriptable")
        end
  end.

(** [next(g)] on the generator of [_iterate]: the indices outside
    [0 <= i < length] are skipped, the first one inside is fetched with
    [self[i]]; [None] is [StopIteration]. *)
Fixpoint _iterate_next (length : Z) (irange : list Z) : M (option item * generator) :=
  match irange with
  | [] => mret (None, Generator length [])
  | i :: rest =>
      if decide (i >= 0 ∧ i < length)%Z
      then x ← __getitem__ (Int i); mret (Some x, Generator length rest)
      else _iterate_next length rest
  end.

Definition next (g : generator) : M (option item * generator) :=
  _iterate_next (gen_length g) (gen_irange g).

(** [list(g)]: the generator run to its end. *)
Fixpoint _iterate (length : Z) (irange : list Z) : M (list item) :=
  match irange with
  | [] => mret []
  | i :: rest =>
      if decide (i >= 0 ∧ i < length)%Z
      then x ← __getitem__ (Int i); xs ← _iterate length rest; mret (x :: xs)
      else _iterate length rest
  end.

Definition list_of (g : generator) : M (list item) :=
  _iterate (gen_length g) (gen_irange g).

Definition __setitem__ (key : index) (value : V) : M () :=
  match key with
  | Int key =>
      key ← (if decide (key < 0)%Z
             then n ← __len__;
                  let key := (n + key)%Z in
                  if decide (key < 0)%Z
                  then raise (IndexError "Sequence index out of range.")
                  else mret key
             else mret key);
      n ← __len__;
      if decide (key >= n)%Z
      then raise (IndexError "Sequence index out of range.")
      else
        execute (ReplaceAtMinPlus "list" (table_name self) key (_coder self value))
                (sql_replace_at_min_plus "list" (table_name self) key
                                         (_coder self value));;
        _do_write
  | Slice _ _ _ => raise (TypeError "Key should be int, got <class 'slice'>")
  | Other type_name => raise (TypeError ("Key should be int, got " ++ type_name))
  end.

Definition __iter__ : M (list V) :=
  texts ← execute (SelectValuesAsc (table_name self)) (sql_values_asc (table_name self));
  mret (_decoder self <$> texts).

Definition append (item : V) : M () :=
  execute (InsertAtMaxPlus1 (table_name self) (_coder self item))
          (sql_insert_at_max_plus_1 (table_name self) (_coder self item));;
  _do_write.

Definition prepend (item : V) : M () :=
  execute (InsertAtMinMinus1 (table_name self) (_coder self item))
          (sql_insert_at_min_minus_1 (table_name self) (_coder self item));;
  _do_write.

(** In the empty case the source names [cusror], which is bound nowhere:
    evaluating it raises [NameError] before [END TRANSACTION] is issued
    and before [IndexError("pop from empty list")] is raised. *)
Definition pop_last : M V :=
  begin_transaction;;
  n ← _getlen;
  if decide (n < 1)%Z
  then raise (NameError "name 'cusror' is not defined")
  else
    row ← execute (SelectValueAtMax (table_name self))
                  (sql_value_at sql_max (table_name self));
    match row with
    | None => raise (TypeError "'NoneType' object is not subscriptable")
    | Some text =>
        let output := _decoder self text in
        execute (DeleteAtMax (table_name self))
                (sql_delete_at sql_max (table_name self));;
        _db_commit;;
        _do_write;;
        mret output
    end.

Definition pop_first : M V :=
  begin_transaction;;
  n ← _getlen;
  if decide (n < 1)%Z
  then raise (NameError "name 'cusror' is not defined")
  else
    row ← execute (SelectValueAtMin (table_name self))
                  (sql_value_at sql_min (table_name self));
    match row with
    | None => raise (TypeError "'NoneType' object is not subscriptable")
    | Some text =>
        let output := _decoder self text in
        execute (DeleteAtMin (table_name self))
                (sql_delete_at sql_min (table_name self));;
        _db_commit;;
        _do_write;;
        mret output
    end.

Fixpoint extend (iterable : list V) : M () :=
  match iterable with
  | [] => mret tt
  | item :: rest => append item;; extend rest
  end.

Definition clear : M () :=
  execute (DeleteAll (table_name self)) (sql_delete_all (table_name self)).
End Methods.

Arguments self_t : clear implicits.
Arguments item : clear implicits.

(** Modelled from the spec: the constructor of the base class [SqliteObject]
    (_sqlite_object.py, not among the sources), to which [SqliteList] hands
    its schema statement.  Section 6 has every adapter backed by the table
    of its name, so the statement is taken to be run here: the table is
    created if the file does not have it. *)
Definition SqliteObject__init__ (table_name : string) : M () :=
  execute (CreateTable table_name) (sql_create_table table_name).

(** [SqliteList(init_list, coder=, decoder=, name=, table_name_fmt=)]: the
    table is ["list"] when no name is given, [table_name_fmt.format(name=name)]
    otherwise. *)
Definition __init__ {V} (init_list : list V) (coder : V → string)
    (decoder : string → V) (name : option string)
    (table_name_fmt : string → string) : M (self_t V) :=
  let tn := match name with
            | None | Some EmptyString => "list"
            | Some name => table_name_fmt name
            end in
  let self := Self tn coder decoder in
  SqliteObject__init__ tn;;
  extend self init_list;;
  mret self.

(** The default [table_name_fmt], ['{name}_list_table']. *)
Definition default_table_name_fmt (name : string) : string := name ++ "_list_table".

(** *** The methods with statements of their own *)

(** The statements of [__reversed__] and [__contains__], beside those
    above. *)
Inductive query : Type :=
| Stmt (q : stmt)
| SelectValuesDesc (tn : string)
| SelectIndexByValue (tn : string) (text : string).

Abbreviation Mq := (method database query).

(** [SELECT value FROM tn ORDER BY list_index DESC] *)
Definition row_ge (r1 r2 : Z * string) : Prop := (r2.1 ≤ r1.1)%Z.

Global Instance row_ge_dec : RelDecision row_ge := λ r1 r2, decide (r2.1 ≤ r1.1)%Z.

Definition sql_values_desc (tn : string) (d : database)
  : result (list string * database) :=
  with_table tn d (λ t,
    Ok ((merge_sort row_ge (map_to_list t)).*2, d)).

(** [SELECT list_index FROM tn WHERE value = text], then
    [fetchone() is not None]: whether some row has the value. *)
Definition sql_has_value (tn text : string) (d : database)
  : result (bool * database) :=
  with_table tn d (λ t, Ok (bool_decide (text ∈ (map_to_list t).*2), d)).

Section MoreMethods.
Context {V : Type}.
Variable self : self_t V.

(** [list(reversed(self))]: the generator of [__reversed__] run to its end. *)
Definition __reversed__ : Mq (list V) :=
  texts ← execute (SelectValuesDesc (table_name self)) (sql_values_desc (table_name self));
  mret (_decoder self <$> texts).

Definition __contains__ (item : V) : Mq bool :=
  execute (SelectIndexByValue (table_name self) (_coder self item))
          (sql_has_value (table_name self) (_coder self item)).
End MoreMethods.

(** *** Writing the list out *)

Section Output.
Context {V : Type}.
Variable self : self_t V.
Variable json_dumps : V → string.

Local Open Scope string_scope.

(** [write(outfile)]: the result, the text of [outfile] and the connection
    afterwards. *)
Definition write (outfile : string) (s : conn database stmt)
    : result () * string * conn database stmt :=
  let outfile := outfile ++ "[" in
  match __iter__ self s with
  | (Raise e, s') => (Raise e, outfile, s')
  | (Ok [], s') => (Ok tt, outfile ++ "]", s')
  | (Ok (this :: rest), s') => (Ok tt, write_loop json_dumps this rest outfile, s')
  end.

Definition write_lines (outfile : string) (coder : V → string) (separator : string)
    (s : conn database stmt) : result () * string * conn database stmt :=
  match __iter__ self s with
  | (Raise e, s') => (Raise e, outfile, s')
  | (Ok [], s') => (Ok tt, outfile, s')
  | (Ok (this :: rest), s') =>
      (Ok tt, write_lines_loop coder separator this rest outfile, s')
  end.
End Output.
End SqliteList.

(** ** SqliteDict (_sqlite_dict.py) *)

Module SqliteDict.

(** The dict table: [key TEXT PRIMARY KEY] to [value TEXT].  Every
    statement of the class names [self.table_name], the table its
    constructor created, so the table alone stands for the database. *)
Abbreviation table := (gmap string string).

Inductive stmt : Type :=
| SelectCount
| SelectValueByKey (key : string)
| ReplaceInto (key value : string)
| DeleteByKey (key : string)
| SelectKeyValueLimit1
| DeleteAll.

Abbreviation M := (M table stmt).

(** A subscript of the dict: a slice, or a value the coder takes. *)
Inductive subscript (V : Type) : Type :=
| ASlice
| Key (k : V).
Arguments ASlice {V}.
Arguments Key {V} k.

Section Methods.
Context {V : Type}.

(** The order in which SQLite scans the rows of a table, which the class
    leaves to the engine. *)
Variable scan : table → list (string * string).

Record self_t : Type := Self {
  _coder : V → string;
  _decoder : string → V
}.

Variable self : self_t.

Definition __len__ : M Z :=
  execute SelectCount (λ t, Ok (Z.of_nat (size t), t)).

Definition __getitem__ (key : subscript V) : M V :=
  match key with
  | ASlice => raise (KeyError "Slices not allowed in SqliteDict")
  | Key key =>
      row ← execute (SelectValueByKey (_coder self key))
                    (λ t, Ok (t !! _coder self key, t));
      match row with
      | Some text => mret (_decoder self text)
      | None => raise (KeyError "Mapping key not found in dict")
      end
  end.

Definition __setitem__ (key : subscript V) (value : V) : M () :=
  match key with
  | ASlice => raise (KeyError "Slices not allowed in SqliteDict")
  | Key key =>
      execute (ReplaceInto (_coder self key) (_coder self value))
              (λ t, Ok (tt, <[_coder self key := _coder self value]> t));;
      _do_write
  end.

Definition __delitem__ (key : subscript V) : M () :=
  match key with
  | ASlice => raise (KeyError "Slices not allowed in SqliteDict")
  | Key key =>
      execute (DeleteByKey (_coder self key))
              (λ t, Ok (tt, delete (_coder self key) t));;
      _do_write
  end.

Definition __contains__ (key : subscript V) : M bool :=
  try_except_KeyError (__getitem__ key;; mret true) (mret false).

Definition clear : M () :=
  execute DeleteAll (λ _, Ok (tt, ∅)).

Definition get (key : subscript V) (default : V) : M V :=
  try_except_KeyError (__getitem__ key) (mret default).

(** The parameter [default] is accepted and not used. *)
Definition pop (key : subscript V) (default : V) : M V :=
  val ← __getitem__ key;
  __delitem__ key;;
  mret val.

(** The [self._do_write()] that ends the source of [popitem] follows a
    [return] and a [raise] and is never reached. *)
Definition popitem : M (V * V) :=
  row ← execute SelectKeyValueLimit1 (λ t, Ok (head (scan t), t));
  match row with
  | None => raise (KeyError "Dict has no more items to pop")
  | Some (k, v) =>
      let key := _decoder self k in
      let value := _decoder self v in
      __delitem__ (Key key);;
      mret (key, value)
  end.

Definition setdefault (key : subscript V) (default : V) : M V :=
  try_except_KeyError (__getitem__ key)
                      (__setitem__ key default;; mret default).

End Methods.

Arguments self_t : clear implicits.

(** *** The methods left: [update], iteration and the views *)

(** The statements of [__iter__] and of the three views, beside those
    above. *)
Inductive query : Type :=
| Stmt (q : stmt)
| SelectKeys
| SelectItems
| SelectValues
| SelectRowByKey (key : string)
| SelectRowByKeyValue (key value : string)
| SelectRowByValue (value : string).

Abbreviation Mq := (method table query).

Section MoreMethods.
Context {V : Type}.

(** The order in which SQLite lists the rows for [SELECT key], for
    [SELECT key, value] and for [SELECT value]; a plan of the engine for
    each statement. *)
Variable scan_keys : table → list string.
Variable scan_items : table → list (string * string).
Variable scan_values : table → list string.

Variable self : self_t V.

(** [update(other)] without keyword arguments, for a mapping [other] or a
    list of pairs, given as its pairs in the order of iteration. *)
Fixpoint update (other : list (subscript V * V)) : M () :=
  match other with
  | [] => mret tt
  | (key, value) :: rest => __setitem__ self key value;; update rest
  end.

(** [list(self)]: the generator of [__iter__] run to its end. *)
Definition __iter__ : Mq (list V) :=
  keys ← execute SelectKeys (λ t, Ok (scan_keys t, t));
  mret (_decoder self <$> keys).

(** [item in self.items()] *)
Definition ItemView__contains__ (item : V * V) : Mq bool :=
  let '(key, value) := item in
  execute (SelectRowByKeyValue (_coder self key) (_coder self value))
          (λ t, Ok (bool_decide (t !! _coder self key = Some (_coder self value)), t)).

(** [list(self.items())] *)
Definition ItemView__iter__ : Mq (list (V * V)) :=
  rows ← execute SelectItems (λ t, Ok (scan_items t, t));
  mret ((λ row, (_decoder self row.1, _decoder self row.2)) <$> rows).

(** [key in self.keys()] *)
Definition KeyView__contains__ (key : V) : Mq bool :=
  execute (SelectRowByKey (_coder self key))
          (λ t, Ok (bool_decide (is_Some (t !! _coder self key)), t)).

(** [list(self.keys())] *)
Definition KeyView__iter__ : Mq (list V) :=
  keys ← execute SelectKeys (λ t, Ok (scan_keys t, t));
  mret (_decoder self <$> keys).

(** [value in self.values()] *)
Definition ValueView__contains__ (value : V) : Mq bool :=
  execute (SelectRowByValue (_coder self value))
          (λ t, Ok (bool_decide (_coder self value ∈ (map_to_list t).*2), t)).

(** [list(self.values())] *)
Definition ValueView__iter__ : Mq (list V) :=
  values ← execute SelectValues (λ t, Ok (scan_values t, t));
  mret (_decoder self <$> values).
End MoreMethods.

(** *** Writing the dict out *)

Section Output.
Context {V : Type}.
Variable scan_items : table → list (string * string).
Variable self : self_t V.

(** [str] on a key, [json.dumps] on the text it gives, and [json.dumps] on
    a value. *)
Variable str : V → string.
Variable json_dumps_str : string → string.
Variable json_dumps : V → string.

Local Open Scope string_scope.

Fixpoint write_loop (this : V * V) (rest : list (V * V)) (outfile : string) : string :=
  let outfile := outfile ++ json_dumps_str (str this.1) in
  let outfile := outfile ++ ":" in
  let outfile := outfile ++ json_dumps this.2 in
  match rest with
  | [] => outfile ++ "}"
  | this :: rest => write_loop this rest (outfile ++ ",")
  end.

Definition write (outfile : string) (s : conn table query)
    : result () * string * conn table query :=
  let outfile := outfile ++ "{" in
  match ItemView__iter__ scan_items self s with
  | (Raise e, s') => (Raise e, outfile, s')
  | (Ok [], s') => (Ok tt, outfile ++ "}", s')
  | (Ok (this :: rest), s') => (Ok tt, write_loop this rest outfile, s')
  end.

Fixpoint write_lines_loop (key_coder value_coder : V → string)
    (separator key_val_separator : string)
    (this : V * V) (rest : list (V * V)) (outfile : string) : string :=
  let outfile := outfile ++ key_coder this.1 in
  let outfile := outfile ++ key_val_separator in
  let outfile := outfile ++ value_coder this.2 in
  let outfile := outfile ++ separator in
  match rest with
  | [] => outfile
  | this :: rest =>
      write_lines_loop key_coder value_coder separator key_val_separator this rest outfile
  end.

Definition write_lines (outfile : string) (key_coder value_coder : V → string)
    (separator key_val_separator : string) (s : conn table query)
    : result () * string * conn table query :=
  match ItemView__iter__ scan_items self s with
  | (Raise e, s') => (Raise e, outfile, s')
  | (Ok [], s') => (Ok tt, outfile, s')
  | (Ok (this :: rest), s') =>
      (Ok tt,
       write_lines_loop key_coder value_coder separator key_val_separator
                        this rest outfile,
       s')
  end.
End Output.
End SqliteDict.

(** ** SqliteSet (_sqlite_set.py) *)

Module SqliteSet.

(** The set table: the single column [key TEXT PRIMARY KEY].  As for the
    dict, the one table the class names stands for the database. *)
Abbreviation table := (gset string).

Inductive stmt : Type :=
| SelectCount
| SelectKeyByKey (key : string)
| DeleteByKey (key : string)
| InsertOrIgnore (key : string)
| SelectKeyLimit1
| DeleteAll.

Abbreviation M := (M table stmt).

Section Methods.
Context {V : Type}.

(** The order in which SQLite scans the rows of a table. *)
Variable scan : table → list string.

Record self_t : Type := Self {
  _coder : V → string;
  _decoder : string → V
}.

Variable self : self_t.

Definition _getlen : M Z :=
  execute SelectCount (λ t, Ok (Z.of_nat (size t), t)).

Definition _has (item : V) : M bool :=
  execute (SelectKeyByKey (_coder self item))
          (λ t, Ok (bool_decide (_coder self item ∈ t), t)).

Definition _discard (item : V) : M () :=
  execute (DeleteByKey (_coder self item))
          (λ t, Ok (tt, t ∖ {[_coder self item]})).

(** The message of the source is built with [str.format] and a
    positional argument for the field [{table_name}], which itself
    raises [KeyError('table_name')]. *)
Definition _remove (item : V) : M () :=
  present ← _has item;
  if present : bool then _discard item else raise (KeyError "table_name").

Definition _add (item : V) : M () :=
  execute (InsertOrIgnore (_coder self item))
          (λ t, Ok (tt, {[_coder self item]} ∪ t)).

Definition __len__ : M Z := _getlen.

Definition __contains__ (item : V) : M bool := _has item.

Definition add (item : V) : M () := _add item;; _do_write.

Definition remove (item : V) : M () := _remove item;; _do_write.

Definition discard (item : V) : M () := _discard item;; _do_write.

Definition pop : M V :=
  row ← execute SelectKeyLimit1 (λ t, Ok (head (scan t), t));
  match row with
  | None => raise (KeyError "Tried to pop empty set_table")
  | Some text =>
      _discard (_decoder self text);;
      let out := _decoder self text in
      _do_write;;
      mret out
  end.

Fixpoint update (other : list V) : M () :=
  match other with
  | [] => mret tt
  | item :: rest => add item;; update rest
  end.

Definition clear : M () :=
  execute DeleteAll (λ _, Ok (tt, ∅)).
End Methods.

Arguments self_t : clear implicits.

(** *** The methods left: iteration and the comparisons *)

(** The statement of [__iter__], beside those above. *)
Inductive query : Type :=
| Stmt (q : stmt)
| SelectKeys.

Abbreviation Mq := (method table query).

(** [all(test for item in items)]: the tests are evaluated in turn, up to
    the first one that is false. *)
Fixpoint all_ (tests : list (Mq bool)) : Mq bool :=
  match tests with
  | [] => mret true
  | test :: rest =>
      b ← test;
      if b : bool then all_ rest else mret false
  end.

Section MoreMethods.
Context {V : Type}.

(** The order in which SQLite lists the rows for [SELECT key]. *)
Variable scan_keys : table → list string.

Variable self : self_t V.

(** The other operand of a comparison, a Python collection, by the three
    protocols the methods use: [len(other)], [item in other] and
    [for item in other]. *)
Record operand : Type := Operand {
  len_of : Z;
  contains_of : V → bool;
  iter_of : list V
}.

(** A Python list as the other operand. *)
Definition py_list `{EqDecision V} (items : list V) : operand :=
  Operand (Z.of_nat (length items)) (λ item, bool_decide (item ∈ items)) items.

(** [list(self)]: the generator of [__iter__] run to its end. *)
Definition __iter__ : Mq (list V) :=
  keys ← execute SelectKeys (λ t, Ok (scan_keys t, t));
  mret (_decoder self <$> keys).

Definition isdisjoint (other : operand) : Mq bool :=
  items ← __iter__;
  all_ ((λ item, mret (negb (contains_of other item))) <$> items).

Definition issubset (other : operand) : Mq bool :=
  items ← __iter__;
  all_ ((λ item, mret (contains_of other item)) <$> items).

Definition __le__ (other : operand) : Mq bool := issubset other.

Definition __lt__ (other : operand) : Mq bool :=
  sub ← issubset other;
  if sub : bool then
    n ← relabel Stmt __len__;
    mret (bool_decide (n < len_of other)%Z)
  else mret false.

Definition issuperset (other : operand) : Mq bool :=
  all_ ((λ item, relabel Stmt (__contains__ self item)) <$> iter_of other).

Definition __ge__ (other : operand) : Mq bool := issuperset other.

Definition __gt__ (other : operand) : Mq bool :=
  sup ← issuperset other;
  if sup : bool then
    n ← relabel Stmt __len__;
    mret (bool_decide (n > len_of other)%Z)
  else mret false.

Definition __eq__ (other : operand) : Mq bool :=
  n ← relabel Stmt __len__;
  if decide (n ≠ len_of other) then mret false
  else
    items ← __iter__;
    all_ ((λ item, mret (contains_of other item)) <$> items).
End MoreMethods.

(** *** Writing the set out *)

Section Output.
Context {V : Type}.
Variable scan_keys : table → list string.
Variable self : self_t V.
Variable json_dumps : V → string.

Local Open Scope string_scope.

Definition write (outfile : string) (s : conn table query)
    : result () * string * conn table query :=
  let outfile := outfile ++ "[" in
  match __iter__ scan_keys self s with
  | (Raise e, s') => (Raise e, outfile, s')
  | (Ok [], s') => (Ok tt, outfile ++ "]", s')
  | (Ok (this :: rest), s') => (Ok tt, write_loop json_dumps this rest outfile, s')
  end.

Definition write_lines (outfile : string) (coder : V → string) (separator : string)
    (s : conn table query) : result () * string * conn table query :=
  match __iter__ scan_keys self s with
  | (Raise e, s') => (Raise e, outfile, s')
  | (Ok [], s') => (Ok tt, outfile, s')
  | (Ok (this :: rest), s') =>
      (Ok tt, write_lines_loop coder separator this rest outfile, s')
  end.
End Output.

Arguments operand : clear implicits.
End SqliteSet.

(** ** The error kinds of the specification *)

Inductive error_kind : Type :=
| KeyNotFound
| IndexOutOfRange
| EmptyContainer
| InvalidKeyType.

(** The exception each raise site of the three classes stands for. *)
Definition kind_of (e : exn) : option error_kind :=
  match e with
  | IndexError msg =>
      if decide (msg = "Sequence index out of range.") then Some IndexOutOfRange
      else if decide (msg = "pop from empty list") then Some EmptyContainer
      else None
  | KeyError msg =>
      if decide (msg = "Mapping key not found in dict") then Some KeyNotFound
      else if decide (msg = "table_name") then Some KeyNotFound
      else if decide (msg = "Dict has no more items to pop") then Some EmptyContainer
      else if decide (msg = "Tried to pop empty set_table") then Some EmptyContainer
      else if decide (msg = "Slices not allowed in SqliteDict") then Some InvalidKeyType
      else None
  | TypeError msg =>
      if decide (msg = "'NoneType' object is not subscriptable") then None
      else Some InvalidKeyType
  | _ => None
  end.

Definition fails_with {A} (r : result A) (k : error_kind) : Prop :=
  ∃ e, r = Raise e ∧ kind_of e = Some k.

(** ** Well-formed list tables *)

(** The positions of a table the class has built are consecutive: they are
    [MIN, MIN + 1, ..., MIN + COUNT - 1]. *)
Definition dense (t : gmap Z string) : Prop :=
  match SqliteList.sql_min t with
  | None => True
  | Some lo => dom t = list_to_set (seqZ lo (Z.of_nat (size t)))
  end.

Global Instance dense_dec t : Decision (dense t).
Proof. unfold dense. destruct (SqliteList.sql_min t); apply _. Defined.

(** A sequence holds the logical contents [vs] when its table is dense, has
    as many rows as [vs] has elements, and the row at [MIN + k] is the
    encoding of [vs[k]]. *)
Definition holds {V} (self : SqliteList.self_t V)
    (s : conn (gmap string (gmap Z string)) SqliteList.stmt) (vs : list V) : Prop :=
  ∃ t, db s !! SqliteList.table_name self = Some t ∧
       dense t ∧
       size t = length vs ∧
       ∀ lo k v, SqliteList.sql_min t = Some lo → vs !! k = Some v →
                 t !! (lo + Z.of_nat k)%Z = Some (SqliteList._coder self v).

(** A method keeps the table of its container dense, whatever it returns. *)
Definition keeps_dense {V A} (self : SqliteList.self_t V) (m : SqliteList.M A) : Prop :=
  ∀ s t, db s !! SqliteList.table_name self = Some t → dense t →
         ∃ t', db (m s).2 !! SqliteList.table_name self = Some t' ∧ dense t'.

(** [pop_first] and [pop_last] are one text with [MIN] or [MAX] in its two
    statements: [pick] is [sql_min] or [sql_max]. *)
Definition pop_with {V} (self : SqliteList.self_t V)
    (pick : gmap Z string → option Z) (sel del : string → SqliteList.stmt)
  : SqliteList.M V :=
  SqliteList.begin_transaction;;
  n ← SqliteList._getlen self;
  if decide (n < 1)%Z
  then raise (NameError "name 'cusror' is not defined")
  else
    row ← execute (sel (SqliteList.table_name self))
                  (SqliteList.sql_value_at pick (SqliteList.table_name self));
    match row with
    | None => raise (TypeError "'NoneType' object is not subscriptable")
    | Some text =>
        let output := SqliteList._decoder self text in
        execute (del (SqliteList.table_name self))
                (SqliteList.sql_delete_at pick (SqliteList.table_name self));;
        _db_commit;;
        _do_write;;
        mret output
    end.

(** [holds] read off the tables alone, for connections whose trace records
    the statements of [SqliteList.query]. *)
Definition contents {V} (self : SqliteList.self_t V)
    (d : gmap string (gmap Z string)) (vs : list V) : Prop :=
  ∃ t, d !! SqliteList.table_name self = Some t ∧
       dense t ∧
       size t = length vs ∧
       ∀ lo k v, SqliteList.sql_min t = Some lo → vs !! k = Some v →
                 t !! (lo + Z.of_nat k)%Z = Some (SqliteList._coder self v).

(** The rows of a dense table from position [lo] on, given their values. *)
Fixpoint rows_from (lo : Z) (texts : list string) : list (Z * string) :=
  match texts with
  | [] => []
  | text :: rest => (lo, text) :: rows_from (lo + 1) rest
  end.

(** ** Example containers *)

(** [SqliteList(["w", "x", "y"])] with text values stored as they are, on a
    new database file: the table ["list"] with rows 1, 2 and 3. *)
Definition text_list : SqliteList.self_t string := SqliteList.Self "list" id id.

Definition wxy : conn (gmap string (gmap Z string)) SqliteList.stmt :=
  (SqliteList.__init__ ["w"; "x"; "y"] id id None
     SqliteList.default_table_name_fmt (fresh ∅ 0)).2.

Definition wxy_table : gmap Z string :=
  <[1%Z := "w"]> (<[2%Z := "x"]> (<[3%Z := "y"]> ∅)).

(** [SqliteList(["w", "x", "y"], name="a")] on a new database file: the table
    ["a_list_table"], and no table ["list"]. *)
Definition named_list : SqliteList.self_t string := SqliteList.Self "a_list_table" id id.

Definition named_wxy : conn (gmap string (gmap Z string)) SqliteList.stmt :=
  (SqliteList.__init__ ["w"; "x"; "y"] id id (Some "a")
     SqliteList.default_table_name_fmt (fresh ∅ 0)).2.

(** [SqliteList([])] and [SqliteDict({})] on new database files, and the
    [SqliteSet(["a", "b"])], all with text values stored as they are. *)
Definition empty_list : conn (gmap string (gmap Z string)) SqliteList.stmt :=
  (SqliteList.__init__ (V := string) [] id id None
     SqliteList.default_table_name_fmt (fresh ∅ 0)).2.

Definition text_dict : SqliteDict.self_t string := SqliteDict.Self id id.

Definition empty_dict : conn (gmap string string) SqliteDict.stmt := fresh ∅ 0.

Definition text_set : SqliteSet.self_t string := SqliteSet.Self id id.

Definition ab_set : conn (gset string) SqliteSet.stmt :=
  (SqliteSet.update text_set ["a"; "b"] (fresh ∅ 0)).2.

(** [SqliteList([10, 20, 30, 40, 50])] with the numbers stored as the texts
    ["10"] to ["50"]; [decimal] reads the two digits back. *)
Definition decimal (text : string) : Z :=
  match text with
  | String a (String b EmptyString) =>
      (Z.of_nat (nat_of_ascii a) - 48) * 10 + (Z.of_nat (nat_of_ascii b) - 48)
  | _ => 0
  end%Z.

Definition two_digits (v : Z) : string :=
  String (ascii_of_nat (Z.to_nat (v / 10 + 48)))
    (String (ascii_of_nat (Z.to_nat (v mod 10 + 48))) EmptyString).

Definition number_list : SqliteList.self_t Z := SqliteList.Self "list" two_digits decimal.

Definition tens : conn (gmap string (gmap Z string)) SqliteList.stmt :=
  (SqliteList.__init__ [10; 20; 30; 40; 50]%Z two_digits decimal None
     SqliteList.default_table_name_fmt (fresh ∅ 0)).2.

Definition tens_table : gmap Z string :=
  <[1%Z := "10"]> (<[2%Z := "20"]> (<[3%Z := "30"]> (<[4%Z := "40"]> (<[5%Z := "50"]> ∅)))).

(** * Properties *)

(** ** MIN and MAX *)

Section MinMax.
Import SqliteList.

Lemma positions_elem (t : gmap Z string) p : p ∈ positions t ↔ is_Some (t !! p).
Proof.
  unfold positions. rewrite list_elem_of_fmap. split.
  - intros [[q x] [-> H]]. apply elem_of_map_to_list in H. by exists x.
  - intros [x H]. exists (p, x). split; [done|]. by apply elem_of_map_to_list.
Qed.

Lemma foldr_min_spec (l : list Z) :
  match foldr (λ p acc, Some (from_option (Z.min p) p acc)) None l with
  | None => l = []
  | Some m => m ∈ l ∧ ∀ p, p ∈ l → (m ≤ p)%Z
  end.
Proof.
  induction l as [|a l IH]; [done|]. cbn.
  destruct (foldr _ None l) as [m|]; cbn.
  - destruct IH as [Hm Hle]. split.
    + destruct (Z.min_spec a m) as [[_ ->]|[_ ->]]; set_solver.
    + intros p [->|Hp]%elem_of_cons; [lia|]. specialize (Hle p Hp). lia.
  - subst l. split; [set_solver|]. intros p ->%list_elem_of_singleton. lia.
Qed.

Lemma foldr_max_spec (l : list Z) :
  match foldr (λ p acc, Some (from_option (Z.max p) p acc)) None l with
  | None => l = []
  | Some m => m ∈ l ∧ ∀ p, p ∈ l → (p ≤ m)%Z
  end.
Proof.
  induction l as [|a l IH]; [done|]. cbn.
  destruct (foldr _ None l) as [m|]; cbn.
  - destruct IH as [Hm Hle]. split.
    + destruct (Z.max_spec a m) as [[_ ->]|[_ ->]]; set_solver.
    + intros p [->|Hp]%elem_of_cons; [lia|]. specialize (Hle p Hp). lia.
  - subst l. split; [set_solver|]. intros p ->%list_elem_of_singleton. lia.
Qed.

Lemma positions_nil (t : gmap Z string) : positions t = [] → t = ∅.
Proof.
  unfold positions. intros H. apply fmap_nil_inv in H.
  by apply map_to_list_empty_iff.
Qed.

Lemma sql_min_None (t : gmap Z string) : sql_min t = None ↔ t = ∅.
Proof.
  split.
  - intros H. pose proof (foldr_min_spec (positions t)) as S.
    unfold sql_min in H. rewrite H in S. by apply positions_nil.
  - intros ->. reflexivity.
Qed.

Lemma sql_max_None (t : gmap Z string) : sql_max t = None ↔ t = ∅.
Proof.
  split.
  - intros H. pose proof (foldr_max_spec (positions t)) as S.
    unfold sql_max in H. rewrite H in S. by apply positions_nil.
  - intros ->. reflexivity.
Qed.

Lemma sql_min_Some (t : gmap Z string) m :
  sql_min t = Some m ↔ is_Some (t !! m) ∧ ∀ p, is_Some (t !! p) → (m ≤ p)%Z.
Proof.
  pose proof (foldr_min_spec (positions t)) as S. fold (sql_min t) in S.
  split.
  - intros H. rewrite H in S. destruct S as [Hm Hle]. split.
    + by apply positions_elem.
    + intros p Hp. apply Hle. by apply positions_elem.
  - intros [Hm Hle]. destruct (sql_min t) as [m'|].
    + destruct S as [Hm' Hle']. f_equal.
      apply positions_elem in Hm'. apply positions_elem in Hm.
      specialize (Hle m' Hm'). specialize (Hle' m Hm). lia.
    + apply positions_nil in S. subst t. rewrite lookup_empty in Hm.
      by destruct Hm.
Qed.

Lemma sql_max_Some (t : gmap Z string) m :
  sql_max t = Some m ↔ is_Some (t !! m) ∧ ∀ p, is_Some (t !! p) → (p ≤ m)%Z.
Proof.
  pose proof (foldr_max_spec (positions t)) as S. fold (sql_max t) in S.
  split.
  - intros H. rewrite H in S. destruct S as [Hm Hle]. split.
    + by apply positions_elem.
    + intros p Hp. apply Hle. by apply positions_elem.
  - intros [Hm Hle]. destruct (sql_max t) as [m'|].
    + destruct S as [Hm' Hle']. f_equal.
      apply positions_elem in Hm'. apply positions_elem in Hm.
      specialize (Hle m' Hm'). specialize (Hle' m Hm). lia.
    + apply positions_nil in S. subst t. rewrite lookup_empty in Hm.
      by destruct Hm.
Qed.
End MinMax.

(** ** Dense tables *)

Section Dense.
Import SqliteList.

Lemma sql_min_insert (t : gmap Z string) p x :
  sql_min (<[p := x]> t) = Some (from_option (Z.min p) p (sql_min t)).
Proof.
  apply sql_min_Some. destruct (sql_min t) as [m|] eqn:E; cbn.
  - apply sql_min_Some in E as [Hm Hle]. split.
    + destruct (Z.min_spec p m) as [[_ ->]|[_ ->]].
      * rewrite lookup_insert_eq. by eexists.
      * destruct (decide (p = m)) as [->|]; [rewrite lookup_insert_eq; by eexists|].
        by rewrite lookup_insert_ne.
    + intros q. destruct (decide (p = q)) as [->|Hne]; [lia|].
      rewrite lookup_insert_ne by done. intros Hq. specialize (Hle q Hq). lia.
  - apply sql_min_None in E. subst t. split.
    + rewrite lookup_insert_eq. by eexists.
    + intros q. destruct (decide (p = q)) as [->|Hne]; [lia|].
      rewrite lookup_insert_ne, lookup_empty by done. by intros [? ?].
Qed.


Lemma dense_alt (t : gmap Z string) :
  dense t ↔
  ∀ lo, sql_min t = Some lo →
        ∀ p, is_Some (t !! p) ↔ (lo ≤ p < lo + Z.of_nat (size t))%Z.
Proof.
  unfold dense. split.
  - intros H lo E p. rewrite E in H. rewrite <- elem_of_dom, H.
    rewrite elem_of_list_to_set, elem_of_seqZ. lia.
  - intros H. destruct (sql_min t) as [lo|]; [|done].
    apply set_eq. intros p. rewrite elem_of_dom, (H lo eq_refl).
    rewrite elem_of_list_to_set, elem_of_seqZ. lia.
Qed.

Lemma dense_empty : dense (∅ : gmap Z string).
Proof. done. Qed.

Lemma size_pos_of_min (t : gmap Z string) lo : sql_min t = Some lo → size t ≠ 0.
Proof.
  intros E Hs. apply map_size_empty_inv in Hs. subst t. discriminate.
Qed.

(** In a dense table [MAX = MIN + COUNT - 1]. *)
Lemma dense_max (t : gmap Z string) lo :
  dense t → sql_min t = Some lo →
  sql_max t = Some (lo + Z.of_nat (size t) - 1)%Z.
Proof.
  intros D E. pose proof (size_pos_of_min _ _ E) as Hs.
  rewrite dense_alt in D. specialize (D lo E).
  apply sql_max_Some. split.
  - apply D. lia.
  - intros p Hp. apply D in Hp. lia.
Qed.

Lemma min_max_None (t : gmap Z string) : sql_min t = None ↔ sql_max t = None.
Proof. by rewrite sql_min_None, sql_max_None. Qed.

(** The row [append] stores goes to [MIN + COUNT]. *)
Lemma append_row (t t' : gmap Z string) text :
  dense t → put_row false (sql_add (sql_max t) 1) text t = Ok t' →
  size t' = S (size t) ∧ dense t' ∧
  ∃ lo, sql_min t' = Some lo ∧ t' !! (lo + Z.of_nat (size t))%Z = Some text.
Proof.
  intros D. destruct (sql_min t) as [lo|] eqn:E.
  - rewrite (dense_max t lo D E). pose proof (size_pos_of_min _ _ E) as Hs.
    pose proof D as D'. rewrite dense_alt in D'. specialize (D' lo E).
    unfold put_row, sql_add.
    set (q := (lo + Z.of_nat (size t) - 1 + 1)%Z).
    assert (q = lo + Z.of_nat (size t))%Z as Hq by (unfold q; lia).
    case_decide; [|done].
    assert (t !! q = None) as Hnone.
    { apply eq_None_not_Some. rewrite D'. lia. }
    rewrite Hnone. intros [= <-].
    assert (size (<[q := text]> t) = S (size t)) as Hsz
      by by apply map_size_insert_None.
    assert (sql_min (<[q := text]> t) = Some lo) as Hmin.
    { rewrite sql_min_insert, E. cbn. f_equal. lia. }
    split; [done|]. split.
    + apply dense_alt. intros lo' E' p. rewrite Hmin in E'. injection E' as <-.
      rewrite Hsz. destruct (decide (q = p)) as [<-|Hne].
      * rewrite lookup_insert_eq. split; [lia|by eexists].
      * rewrite lookup_insert_ne by done. rewrite D'. lia.
    + exists lo. split; [done|]. rewrite <- Hq. apply lookup_insert_eq.
  - pose proof E as E2. apply min_max_None in E2. rewrite E2.
    apply sql_min_None in E. subst t. cbn. intros [= <-].
    split; [done|]. split; [by vm_compute|].
    exists 1%Z. split; [done|]. done.
Qed.

(** The row [prepend] stores becomes the first one. *)
Lemma prepend_row (t t' : gmap Z string) text :
  dense t → put_row false (sql_add (sql_min t) (-1)) text t = Ok t' →
  size t' = S (size t) ∧ dense t' ∧
  ∃ lo, sql_min t' = Some lo ∧ t' !! lo = Some text.
Proof.
  intros D. destruct (sql_min t) as [lo|] eqn:E.
  - pose proof (size_pos_of_min _ _ E) as Hs.
    pose proof D as D'. rewrite dense_alt in D'. specialize (D' lo E).
    unfold put_row, sql_add. case_decide; [|done].
    assert (t !! (lo + -1)%Z = None) as Hnone.
    { apply eq_None_not_Some. rewrite D'. lia. }
    rewrite Hnone. intros [= <-].
    assert (size (<[(lo + -1)%Z := text]> t) = S (size t))
      as Hsz by by apply map_size_insert_None.
    assert (sql_min (<[(lo + -1)%Z := text]> t) = Some (lo + -1)%Z) as Hmin.
    { rewrite sql_min_insert, E. cbn. f_equal. lia. }
    split; [done|]. split.
    + apply dense_alt. intros lo' E' p. rewrite Hmin in E'. injection E' as <-.
      rewrite Hsz. destruct (decide ((lo + -1)%Z = p)) as [<-|Hne].
      * rewrite lookup_insert_eq. split; [lia|by eexists].
      * rewrite lookup_insert_ne by done. rewrite D'. lia.
    + exists (lo + -1)%Z. split; [done|]. apply lookup_insert_eq.
  - apply sql_min_None in E. subst t. cbn. intros [= <-].
    split; [done|]. split; [by vm_compute|].
    exists 1%Z. split; [done|]. done.
Qed.
End Dense.

(** ** Running the list methods *)

Ltac unfold_m :=
  unfold mbind, M_bind, bind, mret, M_ret, ret, raise, log, get_txn, set_txn.

(** Counting the [DoWrite] events of a trace that was extended by known
    events. *)
Ltac count_writes :=
  unfold do_writes, with_db, record; cbn;
  rewrite ?List.filter_app; cbn; rewrite ?app_nil_r; try done.

Section ListRun.
Import SqliteList.
Context {V : Type} (self : self_t V).

Implicit Types (s : conn database stmt) (t : gmap Z string).

Lemma getlen_run s t :
  db s !! table_name self = Some t →
  _getlen self s = (Ok (Z.of_nat (size t)), record (Exec (SelectCount (table_name self))) s).
Proof.
  intros H. unfold _getlen, execute, sql_count, with_table. rewrite H.
  by destruct s.
Qed.

Lemma getlen_result s t n :
  db s !! table_name self = Some t →
  (__len__ self s).1 = Ok n → n = Z.of_nat (size t).
Proof.
  intros H. unfold __len__. rewrite (getlen_run s t H). cbn. congruence.
Qed.

(** A subscript inside the bounds reads the row at [MIN + k]. *)
Lemma getitem_run s t k :
  db s !! table_name self = Some t → (0 ≤ k < Z.of_nat (size t))%Z →
  __getitem__ self (Int k) s =
    (match lo ← sql_min t; t !! (lo + k)%Z with
     | Some text => Ok (Value (_decoder self text))
     | None => Raise (TypeError "'NoneType' object is not subscriptable")
     end,
     record (Exec (SelectValueAtMinPlus (table_name self) k))
            (record (Exec (SelectCount (table_name self))) s)).
Proof.
  intros H Hk. unfold __getitem__. unfold_m. rewrite (getlen_run s t H).
  rewrite decide_False by lia. rewrite decide_False by lia.
  unfold execute, sql_value_at_min_plus, with_table. cbn. rewrite H.
  destruct (sql_min t) as [lo|]; cbn; [destruct (t !! _)|]; by destruct s.
Qed.

(** [_do_write] returns, leaves the tables alone and counts once. *)
Lemma do_write_run {DB Q} (s : conn DB Q) :
  (_do_write s).1 = Ok tt ∧ db (_do_write s).2 = db s ∧
  do_writes (_do_write s).2 = S (do_writes s) ∧
  ∃ tail, trace (_do_write s).2 = trace s ++ DoWrite :: tail ∧
          List.filter is_DoWrite tail = [].
Proof.
  unfold _do_write, do_writes. case_decide; cbn.
  - repeat split; try done.
    + rewrite <- app_assoc. rewrite List.filter_app, length_app. cbn. lia.
    + exists [Commit]. by rewrite <- app_assoc.
  - repeat split; try done.
    + rewrite List.filter_app, length_app. cbn. lia.
    + exists []. done.
Qed.

Lemma do_write_eq {DB Q} (s s' : conn DB Q) (r : result ()) :
  _do_write s = (r, s') → r = Ok tt ∧ db s' = db s ∧ do_writes s' = S (do_writes s).
Proof.
  intros H. destruct (do_write_run s) as (H1 & H2 & H3 & _).
  rewrite H in *. done.
Qed.

Lemma append_run s t v :
  db s !! table_name self = Some t →
  append self v s =
    match put_row false (sql_add (sql_max t) 1) (_coder self v) t with
    | Ok t' => _do_write
                 (with_db (<[table_name self := t']> (db s))
                    (record (Exec (InsertAtMaxPlus1 (table_name self) (_coder self v))) s))
    | Raise e =>
        (Raise e, record (Exec (InsertAtMaxPlus1 (table_name self) (_coder self v))) s)
    end.
Proof.
  intros H. unfold append, execute, sql_insert_at_max_plus_1, with_table. unfold_m.
  rewrite H. by destruct (put_row _ _ _ _).
Qed.

Lemma prepend_run s t v :
  db s !! table_name self = Some t →
  prepend self v s =
    match put_row false (sql_add (sql_min t) (-1)) (_coder self v) t with
    | Ok t' => _do_write
                 (with_db (<[table_name self := t']> (db s))
                    (record (Exec (InsertAtMinMinus1 (table_name self) (_coder self v))) s))
    | Raise e =>
        (Raise e, record (Exec (InsertAtMinMinus1 (table_name self) (_coder self v))) s)
    end.
Proof.
  intros H. unfold prepend, execute, sql_insert_at_min_minus_1, with_table. unfold_m.
  rewrite H. by destruct (put_row _ _ _ _).
Qed.

(** What a successful [append] or [prepend] leaves in the database. *)
Lemma append_db s s' t v :
  db s !! table_name self = Some t → append self v s = (Ok tt, s') →
  ∃ t', put_row false (sql_add (sql_max t) 1) (_coder self v) t = Ok t' ∧
        db s' = <[table_name self := t']> (db s).
Proof.
  intros H. rewrite (append_run s t v H).
  destruct (put_row _ _ _ _) as [t'|e]; [|done].
  intros [_ [Hdb _]]%do_write_eq. by exists t'.
Qed.

Lemma prepend_db s s' t v :
  db s !! table_name self = Some t → prepend self v s = (Ok tt, s') →
  ∃ t', put_row false (sql_add (sql_min t) (-1)) (_coder self v) t = Ok t' ∧
        db s' = <[table_name self := t']> (db s).
Proof.
  intros H. rewrite (prepend_run s t v H).
  destruct (put_row _ _ _ _) as [t'|e]; [|done].
  intros [_ [Hdb _]]%do_write_eq. by exists t'.
Qed.

Lemma pop_first_with : pop_first self = pop_with self sql_min SelectValueAtMin DeleteAtMin.
Proof. reflexivity. Qed.

Lemma pop_last_with : pop_last self = pop_with self sql_max SelectValueAtMax DeleteAtMax.
Proof. reflexivity. Qed.



(** On a table without rows the pops stop at the unbound name, with the
    transaction they began still open. *)
Lemma pop_with_empty pick sel del s :
  db s !! table_name self = Some ∅ → in_txn s = false →
  pop_with self pick sel del s =
    (Raise (NameError "name 'cusror' is not defined"),
     record (Exec (SelectCount (table_name self)))
       (Conn (db s) true (commit_every s) (pending s) (commits s)
             (trace s ++ [Exec BeginTransaction]))).
Proof.
  intros H Htx. destruct s as [d tx ce pe co tr]. cbn in H, Htx. subst tx.
  unfold pop_with, begin_transaction, _getlen, execute, sql_count, with_table.
  unfold_m. cbn. rewrite H. cbn. done.
Qed.
End ListRun.

(** ** The sequence adapter: append, prepend and the pops *)

Section ListEnds.
Import SqliteList.
Context {V : Type} (self : self_t V).

Implicit Types (s : conn database stmt) (t : gmap Z string).








End ListEnds.



(** ** The sequence adapter: subscripts *)

Section ListIndex.
Import SqliteList.
Context {V : Type} (self : self_t V).

Implicit Types (s : conn database stmt) (t : gmap Z string).

(** [__getitem__] begins with [_getlen]: whatever it answers fixes the
    table the rest reads. *)
Lemma len_table s n :
  (__len__ self s).1 = Ok n →
  ∃ t, db s !! table_name self = Some t ∧ n = Z.of_nat (size t).
Proof.
  unfold __len__, _getlen, execute, sql_count, with_table.
  destruct (db s !! table_name self) as [t|] eqn:E; cbn; [|done].
  intros [= <-]. by exists t.
Qed.

(** A negative subscript is resolved against the length. *)
Lemma getitem_negative s n i :
  (__len__ self s).1 = Ok n → (i < 0)%Z → (0 ≤ n + i)%Z →
  __getitem__ self (Int i) s = __getitem__ self (Int (n + i)) s.
Proof.
  intros Hn Hi Hr. destruct (len_table s n Hn) as (t & H & ->).
  unfold __getitem__. unfold_m. rewrite (getlen_run self s t H).
  rewrite !decide_False by lia.
  rewrite (decide_True (P := (i < 0)%Z)) by lia.
  rewrite !decide_False by lia. done.
Qed.

Lemma getitem_too_negative s n i :
  (__len__ self s).1 = Ok n → (i < 0)%Z → (n + i < 0)%Z →
  (__getitem__ self (Int i) s).1 = Raise (IndexError "Sequence index out of range.").
Proof.
  intros Hn Hi Hr. destruct (len_table s n Hn) as (t & H & ->).
  unfold __getitem__. unfold_m. rewrite (getlen_run self s t H).
  rewrite decide_False by lia.
  rewrite (decide_True (P := (i < 0)%Z)) by lia.
  rewrite decide_False by lia. rewrite decide_True by lia. done.
Qed.

Lemma getitem_too_large s n i :
  (__len__ self s).1 = Ok n → (n ≤ i)%Z →
  (__getitem__ self (Int i) s).1 = Raise (IndexError "Sequence index out of range.").
Proof.
  intros Hn Hi. destruct (len_table s n Hn) as (t & H & ->).
  unfold __getitem__. unfold_m. rewrite (getlen_run self s t H).
  rewrite decide_True by lia. done.
Qed.
End ListIndex.

Section ListDenseRead.
Import SqliteList.
Context {V : Type} (self : self_t V).

(** In a dense table every subscript inside the bounds finds its row. *)
Lemma dense_row (t : gmap Z string) k :
  dense t → (0 ≤ k < Z.of_nat (size t))%Z →
  ∃ lo text, sql_min t = Some lo ∧ t !! (lo + k)%Z = Some text.
Proof.
  intros D Hk. destruct (sql_min t) as [lo|] eqn:E.
  - rewrite dense_alt in D. specialize (D lo E (lo + k)%Z).
    destruct (proj2 D) as [text Ht]; [lia|]. by exists lo, text.
  - apply sql_min_None in E. subst t. rewrite map_size_empty in Hk. lia.
Qed.

Lemma getitem_dense (s : conn database stmt) (t : gmap Z string) k :
  db s !! table_name self = Some t → dense t → (0 ≤ k < Z.of_nat (size t))%Z →
  ∃ lo text, sql_min t = Some lo ∧ t !! (lo + k)%Z = Some text ∧
             (__getitem__ self (Int k) s).1 = Ok (Value (_decoder self text)).
Proof.
  intros H D Hk. destruct (dense_row t k D Hk) as (lo & text & E & Ht).
  exists lo, text. repeat split; try done.
  rewrite (getitem_run self s t k H Hk). cbn. rewrite E. cbn. by rewrite Ht.
Qed.
End ListDenseRead.

(** C6.  With [n] the length: for [0 <= i < n], [get(-1 - i)] does what
    [get(n - 1 - i)] does, and on a dense table both return an element; a
    negative [i] is resolved to [n + i], and [get(i)] fails with
    IndexOutOfRange when [n + i] is negative or not below [n]. *)
Theorem negative_indexing {V} (self : SqliteList.self_t V)
    (s : conn (gmap string (gmap Z string)) SqliteList.stmt) (n : Z) :
  (SqliteList.__len__ self s).1 = Ok n →
  (∀ i, (0 ≤ i < n)%Z →
     SqliteList.__getitem__ self (Int (-1 - i)) s
       = SqliteList.__getitem__ self (Int (n - 1 - i)) s) ∧
  (∀ t i, db s !! SqliteList.table_name self = Some t → dense t → (0 ≤ i < n)%Z →
     ∃ v, (SqliteList.__getitem__ self (Int (-1 - i)) s).1 = Ok (SqliteList.Value v)) ∧
  (∀ i, (i < 0)%Z → (0 ≤ n + i < n)%Z →
     SqliteList.__getitem__ self (Int i) s
       = SqliteList.__getitem__ self (Int (n + i)) s) ∧
  (∀ i, (i < 0)%Z → (n + i < 0 ∨ n + i >= n)%Z →
     fails_with (SqliteList.__getitem__ self (Int i) s).1 IndexOutOfRange).
Proof.
  intros Hn. repeat split.
  - intros i Hi. rewrite (getitem_negative self s n (-1 - i)) by (done || lia).
    f_equal. f_equal. lia.
  - intros t i H D Hi.
    rewrite (getitem_negative self s n (-1 - i)) by (done || lia).
    pose proof (getlen_result self s t n H Hn) as ->.
    destruct (getitem_dense self s t (Z.of_nat (size t) + (-1 - i))%Z H D) as
      (lo & text & _ & _ & Hg); [lia|]. eauto.
  - intros i Hi Hr. apply getitem_negative; (done || lia).
  - intros i Hi Hr. exists (IndexError "Sequence index out of range."). split; [|done].
    apply (getitem_too_negative self s n); (done || lia).
Qed.

Lemma negative_indexing_witness :
  (SqliteList.__len__ text_list wxy).1 = Ok 3%Z ∧
  SqliteList.__getitem__ text_list (Int (-1 - 0)) wxy
    = SqliteList.__getitem__ text_list (Int (3 - 1 - 0)) wxy ∧
  (SqliteList.__getitem__ text_list (Int (-1)) wxy).1 = Ok (SqliteList.Value "y") ∧
  fails_with (SqliteList.__getitem__ text_list (Int (-4)) wxy).1 IndexOutOfRange.
Proof.
  assert ((SqliteList.__len__ text_list wxy).1 = Ok 3%Z) as H
    by (vm_compute; reflexivity).
  pose proof (negative_indexing text_list wxy 3 H) as (H1 & _ & _ & H4).
  split; [exact H|]. split; [apply H1; lia|]. split; [vm_compute; reflexivity|].
  apply H4; lia.
Defined.

(** ** The sequence adapter: overwriting an element *)

Section ListSet.
Import SqliteList.
Context {V : Type} (self : self_t V).

Implicit Types (s : conn database stmt) (t : gmap Z string).

Lemma setitem_run s t k v :
  db s !! table_name self = Some t → (0 ≤ k < Z.of_nat (size t))%Z →
  __setitem__ self (Int k) v s =
    let s1 := record (Exec (SelectCount (table_name self))) s in
    let q := ReplaceAtMinPlus "list" (table_name self) k (_coder self v) in
    match sql_replace_at_min_plus "list" (table_name self) k (_coder self v) (db s) with
    | Ok (_, d) => _do_write (with_db d (record (Exec q) s1))
    | Raise e => (Raise e, record (Exec q) s1)
    end.
Proof.
  intros H Hk. unfold __setitem__, __len__. unfold_m.
  rewrite decide_False by lia. rewrite (getlen_run self s t H).
  rewrite decide_False by lia. unfold execute. cbn.
  destruct (sql_replace_at_min_plus _ _ _ _ _) as [[[] d]|e]; done.
Qed.

(** A container with a name of its own: the statement still names the
    table ["list"].  Where the file has no such table the statement fails
    and nothing is stored. *)
Lemma setitem_named_no_list s t k v :
  db s !! table_name self = Some t → (0 ≤ k < Z.of_nat (size t))%Z →
  db s !! "list" = None →
  (__setitem__ self (Int k) v s).1 = Raise (OperationalError "no such table: list") ∧
  db (__setitem__ self (Int k) v s).2 = db s.
Proof.
  intros H Hk Hl. rewrite (setitem_run s t k v H Hk).
  unfold sql_replace_at_min_plus, with_table. rewrite Hl. done.
Qed.

(** Where the file has a table ["list"], of another container, the row goes
    there and the container's own table keeps its rows. *)
Lemma setitem_named_foreign s t t_list k v :
  table_name self ≠ "list" →
  db s !! table_name self = Some t → (0 ≤ k < Z.of_nat (size t))%Z →
  db s !! "list" = Some t_list →
  db (__setitem__ self (Int k) v s).2 !! table_name self = Some t.
Proof.
  intros Hne H Hk Hl. rewrite (setitem_run s t k v H Hk).
  unfold sql_replace_at_min_plus, with_table. rewrite Hl, H. cbn.
  destruct (put_row _ _ _ _) as [t'|e]; [|done].
  match goal with |- context [_do_write ?s0] =>
    destruct (do_write_run s0) as (_ & -> & _) end.
  cbn. by rewrite lookup_insert_ne.
Qed.

(** The container without a name, whose table is ["list"]: the row at
    [MIN + i] is overwritten, nothing else changes. *)
Lemma setitem_unnamed s t i v :
  table_name self = "list" →
  db s !! "list" = Some t → dense t → (0 ≤ i < Z.of_nat (size t))%Z →
  (∀ p, is_Some (t !! p) → (MIN_ROWID ≤ p ≤ MAX_ROWID)%Z) →
  ∃ s' lo,
    __setitem__ self (Int i) v s = (Ok tt, s') ∧
    sql_min t = Some lo ∧
    db s' = <["list" := <[(lo + i)%Z := _coder self v]> t]> (db s) ∧
    (__len__ self s').1 = (__len__ self s).1 ∧
    (__getitem__ self (Int i) s').1 = Ok (Value (_decoder self (_coder self v))) ∧
    (∀ j, (0 ≤ j < Z.of_nat (size t))%Z → j ≠ i →
          (__getitem__ self (Int j) s').1 = (__getitem__ self (Int j) s).1).
Proof.
  intros Hname H D Hi Hrange.
  assert (db s !! table_name self = Some t) as H0 by by rewrite Hname.
  destruct (dense_row t i D Hi) as (lo & old & E & Hold).
  rewrite (setitem_run s t i v H0 Hi).
  unfold sql_replace_at_min_plus, with_table. rewrite Hname, H, E. cbn.
  rewrite decide_True by (apply Hrange; by eexists).
  unfold put_row. rewrite Hold. cbn.
  set (t' := <[(lo + i)%Z := _coder self v]> t).
  match goal with |- context [_do_write ?s0] =>
    destruct (do_write_run s0) as (Hr & Hdb & _);
    destruct (_do_write s0) as [r s'] end.
  cbn in Hr, Hdb. subst r. exists s', lo.
  assert (db s' !! table_name self = Some t') as H'.
  { rewrite Hdb, Hname. apply lookup_insert_eq. }
  assert (size t' = size t) as Hsz by (apply map_size_insert_Some; by eexists).
  assert (sql_min t' = Some lo) as E'.
  { unfold t'. rewrite sql_min_insert, E. cbn. f_equal. lia. }
  repeat split; try done.
  - unfold __len__. rewrite (getlen_run self s' t' H'), (getlen_run self s t H0).
    cbn. by rewrite Hsz.
  - rewrite (getitem_run self s' t' i H') by (rewrite Hsz; lia). cbn.
    rewrite E'. cbn. unfold t'. by rewrite lookup_insert_eq.
  - intros j Hj Hne.
    rewrite (getitem_run self s' t' j H') by (rewrite Hsz; lia).
    rewrite (getitem_run self s t j H0) by lia. cbn. rewrite E', E. cbn.
    unfold t'. rewrite lookup_insert_ne by lia. done.
Qed.
End ListSet.

(** C1, at the container [SqliteList(["w", "x", "y"], name="a")]: [set(1, "z")]
    raises sqlite3.OperationalError for the missing table ["list"], and
    afterwards [get(1)] still returns ["x"]: the statement of [__setitem__]
    names the table ["list"] where every other statement of the class names
    [self.table_name]. *)
Theorem setitem_named_container :
  db named_wxy !! "a_list_table" = Some wxy_table ∧
  (SqliteList.__setitem__ named_list (Int 1) "z" named_wxy).1
    = Raise (OperationalError "no such table: list") ∧
  (SqliteList.__getitem__ named_list (Int 1)
     (SqliteList.__setitem__ named_list (Int 1) "z" named_wxy).2).1
    = Ok (SqliteList.Value "x").
Proof. repeat split; vm_compute; reflexivity. Qed.

(** With a transaction already open the pops stop one step earlier, at
    [BEGIN TRANSACTION]: on a sequence without elements they never reach
    [IndexError("pop from empty list")]. *)
Lemma pop_with_empty_never_EmptyContainer {V} (self : SqliteList.self_t V)
    pick sel del (s : conn (gmap string (gmap Z string)) SqliteList.stmt) :
  db s !! SqliteList.table_name self = Some ∅ →
  ¬ fails_with (pop_with self pick sel del s).1 EmptyContainer.
Proof.
  intros H. destruct (in_txn s) eqn:Htx.
  - destruct s as [d tx ce pe co tr]. cbn in H, Htx. subst tx.
    unfold pop_with, SqliteList.begin_transaction. unfold_m. cbn.
    by intros (e & [= <-] & He).
  - rewrite pop_with_empty by done. cbn. by intros (e & [= <-] & He).
Qed.

(** C2, the code: on a sequence without elements and with no transaction
    open, [pop_first] and [pop_last] raise NameError, which is not
    EmptyContainer, after [BEGIN TRANSACTION] and the count, and they leave
    the transaction they began open. *)
Theorem pop_empty_raises_NameError {V} (self : SqliteList.self_t V)
    (s : conn (gmap string (gmap Z string)) SqliteList.stmt) :
  db s !! SqliteList.table_name self = Some ∅ →
  in_txn s = false →
  let stopped :=
    (Raise (NameError "name 'cusror' is not defined"),
     Conn (db s) true (commit_every s) (pending s) (commits s)
          (trace s ++ [Exec SqliteList.BeginTransaction;
                       Exec (SqliteList.SelectCount (SqliteList.table_name self))])) in
  SqliteList.pop_first self s = stopped ∧
  SqliteList.pop_last self s = stopped ∧
  ¬ fails_with (SqliteList.pop_first self s).1 EmptyContainer ∧
  ¬ fails_with (SqliteList.pop_last self s).1 EmptyContainer ∧
  (SqliteList.pop_first self s).2 ≠ s ∧
  (SqliteList.pop_last self s).2 ≠ s.
Proof.
  intros H Htx stopped.
  assert (∀ pick sel del, pop_with self pick sel del s = stopped) as Hp.
  { intros. rewrite pop_with_empty by done. unfold stopped, record. cbn.
    by rewrite <- app_assoc. }
  rewrite pop_first_with, pop_last_with, !Hp. unfold stopped. cbn.
  repeat split; try done.
  - by intros (e & [= <-] & He).
  - by intros (e & [= <-] & He).
  - intros Hs. rewrite <- Hs in Htx. done.
  - intros Hs. rewrite <- Hs in Htx. done.
Qed.

Lemma pop_empty_raises_NameError_witness :
  db empty_list !! SqliteList.table_name text_list = Some ∅ ∧
  in_txn empty_list = false ∧
  (SqliteList.pop_last text_list empty_list).1
    = Raise (NameError "name 'cusror' is not defined") ∧
  in_txn (SqliteList.pop_last text_list empty_list).2 = true ∧
  ¬ fails_with (SqliteList.pop_last text_list empty_list).1 EmptyContainer.
Proof.
  assert (db empty_list !! SqliteList.table_name text_list = Some ∅) as H1
    by (vm_compute; reflexivity).
  assert (in_txn empty_list = false) as H2 by reflexivity.
  pose proof (pop_empty_raises_NameError text_list empty_list H1 H2)
    as (_ & Hl & _ & Hn & _).
  split; [exact H1|]. split; [exact H2|].
  split; [by rewrite Hl|]. split; [by rewrite Hl|]. exact Hn.
Defined.

(** ** The key/value adapter *)

Section DictRun.
Import SqliteDict.
Context {V : Type} (self : self_t V).

Implicit Types (s : conn (gmap string string) stmt).

Lemma dict_getitem_run s k :
  __getitem__ self (Key k) s =
    (match db s !! _coder self k with
     | Some text => Ok (_decoder self text)
     | None => Raise (KeyError "Mapping key not found in dict")
     end,
     record (Exec (SelectValueByKey (_coder self k))) s).
Proof.
  unfold __getitem__, execute. unfold_m.
  destruct (db s !! _coder self k); by destruct s.
Qed.

Lemma dict_setitem_run s k v :
  __setitem__ self (Key k) v s =
    _do_write (with_db (<[_coder self k := _coder self v]> (db s))
                 (record (Exec (ReplaceInto (_coder self k) (_coder self v))) s)).
Proof. reflexivity. Qed.

Lemma dict_delitem_run s k :
  __delitem__ self (Key k) s =
    _do_write (with_db (delete (_coder self k) (db s))
                 (record (Exec (DeleteByKey (_coder self k))) s)).
Proof. reflexivity. Qed.

Lemma dict_delitem_result s k :
  (__delitem__ self (Key k) s).1 = Ok tt ∧
  db (__delitem__ self (Key k) s).2 = delete (_coder self k) (db s) ∧
  do_writes (__delitem__ self (Key k) s).2 = S (do_writes s).
Proof.
  rewrite dict_delitem_run.
  match goal with |- context [_do_write ?s0] =>
    destruct (do_write_run s0) as (Hr & Hdb & Hn & _) end.
  repeat split; try done. rewrite Hn. unfold do_writes. cbn.
  rewrite List.filter_app. cbn. by rewrite app_nil_r.
Qed.
End DictRun.

(** C3, as the code has it: [delete(k)] succeeds for every key [k], present
    or not; the rows afterwards are the rows before without the one of [k]:
    an absent [k] leaves the map as it is, a present [k] loses exactly its
    entry. *)
Theorem delete_never_fails {V} (self : SqliteDict.self_t V)
    (s : conn (gmap string string) SqliteDict.stmt) (k : V) :
  let s' := (SqliteDict.__delitem__ self (SqliteDict.Key k) s).2 in
  (SqliteDict.__delitem__ self (SqliteDict.Key k) s).1 = Ok tt ∧
  (SqliteDict.__contains__ self (SqliteDict.Key k) s').1 = Ok false ∧
  (∀ k', SqliteDict._coder self k' ≠ SqliteDict._coder self k →
         (SqliteDict.__getitem__ self (SqliteDict.Key k') s').1
           = (SqliteDict.__getitem__ self (SqliteDict.Key k') s).1) ∧
  (db s !! SqliteDict._coder self k = None → db s' = db s) ∧
  (is_Some (db s !! SqliteDict._coder self k) →
   (SqliteDict.__len__ s').1 = Ok (Z.of_nat (size (db s)) - 1)%Z).
Proof.
  intros s'. destruct (dict_delitem_result self s k) as (Hr & Hdb & _).
  fold s' in Hdb. repeat split.
  - done.
  - unfold SqliteDict.__contains__, try_except_KeyError. unfold_m.
    rewrite dict_getitem_run, Hdb, lookup_delete_eq. done.
  - intros k' Hne. rewrite !dict_getitem_run, Hdb. cbn.
    by rewrite lookup_delete_ne.
  - intros Hn. rewrite Hdb. by apply delete_id.
  - intros Hs. unfold SqliteDict.__len__, execute. cbn. rewrite Hdb.
    rewrite map_size_delete_Some by done. f_equal.
    assert (size (db s) ≠ 0); [|lia].
    intros H0. apply map_size_empty_inv in H0. rewrite H0, lookup_empty in Hs.
    by destruct Hs.
Qed.

(** C3, the claim at the empty map and the key ["a"]: the key is absent and
    [delete("a")] does not fail with KeyNotFound, it returns. *)
Lemma delete_absent_returns :
  db empty_dict !! SqliteDict._coder text_dict "a" = None ∧
  (SqliteDict.__delitem__ text_dict (SqliteDict.Key "a") empty_dict).1 = Ok tt ∧
  ¬ fails_with (SqliteDict.__delitem__ text_dict (SqliteDict.Key "a") empty_dict).1
      KeyNotFound.
Proof.
  split; [reflexivity|]. split; [reflexivity|].
  intros (e & He & _). vm_compute in He. discriminate.
Qed.

(** C9.  For a key [k] absent from the map and any default [d], [pop(k, d)]
    raises the KeyError of the failed lookup, that is KeyNotFound; it does
    not return [d], it issues no statement after the lookup and does not
    call [_do_write], and the rows of the map are as before. *)
Theorem pop_absent_raises {V} (self : SqliteDict.self_t V)
    (s : conn (gmap string string) SqliteDict.stmt) (k d : V) :
  db s !! SqliteDict._coder self k = None →
  SqliteDict.pop self (SqliteDict.Key k) d s =
    (Raise (KeyError "Mapping key not found in dict"),
     record (Exec (SqliteDict.SelectValueByKey (SqliteDict._coder self k))) s) ∧
  fails_with (SqliteDict.pop self (SqliteDict.Key k) d s).1 KeyNotFound ∧
  (SqliteDict.pop self (SqliteDict.Key k) d s).1 ≠ Ok d ∧
  db (SqliteDict.pop self (SqliteDict.Key k) d s).2 = db s.
Proof.
  intros H.
  assert (SqliteDict.pop self (SqliteDict.Key k) d s =
    (Raise (KeyError "Mapping key not found in dict"),
     record (Exec (SqliteDict.SelectValueByKey (SqliteDict._coder self k))) s)) as E.
  { unfold SqliteDict.pop. unfold_m. rewrite dict_getitem_run, H. done. }
  rewrite E. cbn. repeat split; try done.
  by eexists.
Qed.

Lemma pop_absent_raises_witness :
  db empty_dict !! SqliteDict._coder text_dict "a" = None ∧
  fails_with (SqliteDict.pop text_dict (SqliteDict.Key "a") "d" empty_dict).1 KeyNotFound ∧
  db (SqliteDict.pop text_dict (SqliteDict.Key "a") "d" empty_dict).2 = db empty_dict.
Proof.
  assert (db empty_dict !! SqliteDict._coder text_dict "a" = None) as H by reflexivity.
  pose proof (pop_absent_raises text_dict empty_dict "a" "d" H) as (_ & Hf & _ & Hdb).
  split; [exact H|]. split; [exact Hf|exact Hdb].
Defined.

(** ** The set adapter *)

Section SetRun.
Import SqliteSet.
Context {V : Type} (self : self_t V).

Implicit Types (s : conn (gset string) stmt).

Lemma set_has_run s x :
  _has self x s =
    (Ok (bool_decide (_coder self x ∈ db s)),
     record (Exec (SelectKeyByKey (_coder self x))) s).
Proof. unfold _has, execute. by destruct s. Qed.

Lemma set_discard_run s x :
  discard self x s =
    _do_write (with_db (db s ∖ {[_coder self x]})
                 (record (Exec (DeleteByKey (_coder self x))) s)).
Proof. reflexivity. Qed.

Lemma set_discard_result s x :
  (discard self x s).1 = Ok tt ∧
  db (discard self x s).2 = db s ∖ {[_coder self x]} ∧
  do_writes (discard self x s).2 = S (do_writes s).
Proof.
  rewrite set_discard_run.
  match goal with |- context [_do_write ?s0] =>
    destruct (do_write_run s0) as (Hr & Hdb & Hn & _) end.
  repeat split; try done. rewrite Hn. unfold do_writes. cbn.
  rewrite List.filter_app. cbn. by rewrite app_nil_r.
Qed.

Lemma set_len_run s :
  __len__ s = (Ok (Z.of_nat (size (db s))), record (Exec SelectCount) s).
Proof. unfold __len__, _getlen, execute. by destruct s. Qed.
End SetRun.

(** C8.  [discard(x)] returns for every set and every [x], member or not;
    a second [discard(x)] returns too and leaves the rows the first one
    left; after it [x] is not a member, and the membership of every element
    with another encoding is as before. *)
Theorem discard_idempotent {V} (self : SqliteSet.self_t V)
    (s : conn (gset string) SqliteSet.stmt) (x : V) :
  let once := (SqliteSet.discard self x s).2 in
  let twice := (SqliteSet.discard self x once).2 in
  (SqliteSet.discard self x s).1 = Ok tt ∧
  (SqliteSet.discard self x once).1 = Ok tt ∧
  db twice = db once ∧
  (SqliteSet.__contains__ self x once).1 = Ok false ∧
  (∀ y, SqliteSet._coder self y ≠ SqliteSet._coder self x →
        (SqliteSet.__contains__ self y once).1 = (SqliteSet.__contains__ self y s).1).
Proof.
  intros once twice.
  destruct (set_discard_result self s x) as (Hr & Hdb & _). fold once in Hdb.
  destruct (set_discard_result self once x) as (Hr2 & Hdb2 & _). fold twice in Hdb2.
  repeat split; try done.
  - rewrite Hdb2, Hdb. apply set_eq. intros y.
    rewrite !elem_of_difference. tauto.
  - unfold SqliteSet.__contains__. rewrite set_has_run, Hdb. cbn. f_equal.
    apply bool_decide_eq_false. rewrite elem_of_difference, elem_of_singleton. tauto.
  - intros y Hne. unfold SqliteSet.__contains__. rewrite !set_has_run, Hdb. cbn.
    f_equal. apply bool_decide_ext.
    rewrite elem_of_difference, elem_of_singleton. tauto.
Qed.

(** C10.  Whatever row the engine's scan yields first (the scan lists the
    rows of the table), and provided [coder(decoder(text)) = text] for every
    stored text: on a set with rows [pop] returns a member, which is no
    member afterwards, and the length is one less; on a set without rows it
    raises the KeyError that stands for EmptyContainer and the rows, the
    counter and the transaction are as before. *)
Theorem set_pop {V} (scan : gset string → list string) (self : SqliteSet.self_t V)
    (s : conn (gset string) SqliteSet.stmt) (n : Z) :
  (∀ t text, text ∈ scan t ↔ text ∈ t) →
  (∀ text, text ∈ db s → SqliteSet._coder self (SqliteSet._decoder self text) = text) →
  (SqliteSet.__len__ s).1 = Ok n →
  ((0 < n)%Z →
   ∃ v s', SqliteSet.pop scan self s = (Ok v, s') ∧
           (SqliteSet.__contains__ self v s).1 = Ok true ∧
           (SqliteSet.__contains__ self v s').1 = Ok false ∧
           (SqliteSet.__len__ s').1 = Ok (n - 1)%Z) ∧
  (n = 0%Z →
   fails_with (SqliteSet.pop scan self s).1 EmptyContainer ∧
   db (SqliteSet.pop scan self s).2 = db s ∧
   pending (SqliteSet.pop scan self s).2 = pending s ∧
   in_txn (SqliteSet.pop scan self s).2 = in_txn s).
Proof.
  intros Hscan Hrt Hn. rewrite set_len_run in Hn. cbn in Hn. injection Hn as <-.
  split.
  - intros Hpos. destruct (scan (db s)) as [|text rest] eqn:Es.
    { assert (db s = ∅) as H0.
      { apply set_eq. intros y. rewrite <- Hscan, Es.
        split; [by intros ?%elem_of_nil|by intros ?%not_elem_of_empty]. }
      rewrite H0, size_empty in Hpos. lia. }
    assert (text ∈ db s) as Hin by (apply Hscan; rewrite Es; apply list_elem_of_here).
    unfold SqliteSet.pop, execute. unfold_m. rewrite Es. cbn.
    unfold SqliteSet._discard, execute. cbn.
    match goal with |- context [_do_write ?s0] =>
      destruct (do_write_run s0) as (Hr & Hdb & _);
      destruct (_do_write s0) as [r s'] end.
    cbn in Hr, Hdb. subst r.
    exists (SqliteSet._decoder self text), s'. rewrite (Hrt text Hin) in Hdb |- *.
    split; [done|]. split; [|split].
    + f_equal. by apply bool_decide_eq_true.
    + f_equal. apply bool_decide_eq_false. rewrite Hdb.
      apply not_elem_of_difference. right. by apply elem_of_singleton.
    + f_equal. rewrite Hdb.
      rewrite size_difference by (by apply singleton_subseteq_l).
      rewrite size_singleton.
      assert (size (db s) ≠ 0); [|lia].
      intros H0. apply size_empty_inv in H0. apply (not_elem_of_empty (C := gset string) text).
      by rewrite <- H0.
  - intros H0. assert (db s = ∅) as He.
    { apply leibniz_equiv. apply size_empty_inv. lia. }
    assert (scan (db s) = []) as Es.
    { destruct (scan (db s)) as [|text rest] eqn:Es; [done|].
      assert (text ∈ db s) as Hin by (apply Hscan; rewrite Es; apply list_elem_of_here).
      rewrite He in Hin. by apply not_elem_of_empty in Hin. }
    unfold SqliteSet.pop, execute. unfold_m. rewrite Es. cbn.
    repeat split; try done. by eexists.
Qed.

Lemma set_pop_witness :
  (∀ (t : gset string) text, text ∈ elements t ↔ text ∈ t) ∧
  (∀ text, text ∈ db ab_set →
           SqliteSet._coder text_set (SqliteSet._decoder text_set text) = text) ∧
  (SqliteSet.__len__ ab_set).1 = Ok 2%Z ∧
  ∃ v s', SqliteSet.pop elements text_set ab_set = (Ok v, s') ∧
          (SqliteSet.__contains__ text_set v s').1 = Ok false ∧
          (SqliteSet.__len__ s').1 = Ok (2 - 1)%Z.
Proof.
  assert (∀ (t : gset string) text, text ∈ elements t ↔ text ∈ t) as H1
    by (intros; apply elem_of_elements).
  assert (∀ text, text ∈ db ab_set →
          SqliteSet._coder text_set (SqliteSet._decoder text_set text) = text) as H2
    by reflexivity.
  assert ((SqliteSet.__len__ ab_set).1 = Ok 2%Z) as H3 by (vm_compute; reflexivity).
  pose proof (set_pop elements text_set ab_set 2 H1 H2 H3) as [Hp _].
  split; [exact H1|]. split; [exact H2|]. split; [exact H3|].
  destruct Hp as (v & s' & Hpop & _ & Hc & Hl); [lia|].
  exists v, s'. repeat split; assumption.
Defined.

(** ** The calls of [_do_write] *)

Section DoWrites.
Context {DB Q : Type}.

Implicit Types (s : conn DB Q).

Lemma do_writes_record_exec s q : do_writes (record (Exec q) s) = do_writes s.
Proof.
  unfold do_writes, record. cbn. rewrite List.filter_app. cbn. by rewrite app_nil_r.
Qed.

Lemma do_writes_with_db s d : do_writes (with_db d s) = do_writes s.
Proof. reflexivity. Qed.

Lemma do_writes_execute {A} q (f : DB → result (A * DB)) s :
  do_writes (execute q f s).2 = do_writes s.
Proof.
  unfold execute. destruct (f (db s)) as [[a d]|e]; cbn.
  - count_writes.
  - count_writes.
Qed.

(** A statement followed by [_do_write], the shape of most mutators. *)
Lemma do_writes_execute_then_write {A} q (f : DB → result (A * DB)) s r s' :
  (execute q f;; _do_write) s = (r, s') →
  match r with
  | Ok _ => do_writes s' = S (do_writes s)
  | Raise _ => do_writes s' = do_writes s
  end.
Proof.
  unfold_m. pose proof (do_writes_execute q f s) as He.
  destruct (execute q f s) as [[a|e] s1]; cbn in He.
  - intros Hw. apply do_write_eq in Hw as (-> & _ & ->). by rewrite He.
  - intros [= <- <-]. done.
Qed.
End DoWrites.

Section MutatorsWriteOnce.
Context {V : Type}.

Lemma list_append_writes_once (self : SqliteList.self_t V) v s s' :
  SqliteList.append self v s = (Ok tt, s') → do_writes s' = S (do_writes s).
Proof. intros H. by apply do_writes_execute_then_write in H. Qed.

Lemma list_prepend_writes_once (self : SqliteList.self_t V) v s s' :
  SqliteList.prepend self v s = (Ok tt, s') → do_writes s' = S (do_writes s).
Proof. intros H. by apply do_writes_execute_then_write in H. Qed.

Lemma list_setitem_writes_once (self : SqliteList.self_t V) (t : gmap Z string) k v s s' :
  db s !! SqliteList.table_name self = Some t → (0 ≤ k < Z.of_nat (size t))%Z →
  SqliteList.__setitem__ self (Int k) v s = (Ok tt, s') →
  do_writes s' = S (do_writes s).
Proof.
  intros H Hk. rewrite (setitem_run self s t k v H Hk). cbn.
  destruct (SqliteList.sql_replace_at_min_plus _ _ _ _ _) as [[[] d]|e]; [|done].
  intros (_ & _ & ->)%do_write_eq.
  count_writes.
Qed.


Lemma dict_setitem_writes_once (self : SqliteDict.self_t V) k v s :
  (SqliteDict.__setitem__ self (SqliteDict.Key k) v s).1 = Ok tt ∧
  do_writes (SqliteDict.__setitem__ self (SqliteDict.Key k) v s).2 = S (do_writes s).
Proof.
  rewrite dict_setitem_run.
  match goal with |- context [_do_write ?s0] =>
    destruct (do_write_run s0) as (Hr & _ & Hn & _) end.
  split; [done|]. rewrite Hn. count_writes.
Qed.

Lemma dict_pop_writes_once (self : SqliteDict.self_t V) k d s x s' :
  SqliteDict.pop self (SqliteDict.Key k) d s = (Ok x, s') →
  do_writes s' = S (do_writes s).
Proof.
  unfold SqliteDict.pop. unfold_m. rewrite dict_getitem_run.
  destruct (db s !! SqliteDict._coder self k); [|done].
  destruct (dict_delitem_result self
              (record (Exec (SqliteDict.SelectValueByKey (SqliteDict._coder self k))) s) k)
    as (Hr & _ & Hn).
  destruct (SqliteDict.__delitem__ _ _ _) as [r s1]. cbn in Hr, Hn. subst r.
  intros [= <- <-]. rewrite Hn. count_writes.
Qed.

Lemma dict_popitem_writes_once scan (self : SqliteDict.self_t V) s x s' :
  SqliteDict.popitem scan self s = (Ok x, s') →
  do_writes s' = S (do_writes s).
Proof.
  unfold SqliteDict.popitem, execute. unfold_m.
  destruct (head (scan (db s))) as [[k v]|]; cbn -[SqliteDict.__delitem__]; [|done].
  match goal with |- context [SqliteDict.__delitem__ self (SqliteDict.Key ?k0) ?s0] =>
    destruct (dict_delitem_result self s0 k0) as (Hr & _ & Hn);
    destruct (SqliteDict.__delitem__ self (SqliteDict.Key k0) s0) as [r s1] end.
  cbn in Hr, Hn. subst r. intros [= <- <-].
  rewrite Hn. count_writes.
Qed.

Lemma set_add_writes_once (self : SqliteSet.self_t V) x s :
  (SqliteSet.add self x s).1 = Ok tt ∧
  do_writes (SqliteSet.add self x s).2 = S (do_writes s).
Proof.
  unfold SqliteSet.add, SqliteSet._add, execute. unfold_m. cbn.
  match goal with |- context [_do_write ?s0] =>
    destruct (do_write_run s0) as (Hr & _ & Hn & _) end.
  split; [done|]. rewrite Hn. count_writes.
Qed.

Lemma set_remove_writes_once (self : SqliteSet.self_t V) x s s' :
  SqliteSet.remove self x s = (Ok tt, s') → do_writes s' = S (do_writes s).
Proof.
  unfold SqliteSet.remove, SqliteSet._remove. unfold_m. rewrite set_has_run.
  destruct (bool_decide _); [|done].
  unfold SqliteSet._discard, execute. cbn.
  intros (_ & _ & ->)%do_write_eq.
  count_writes.
Qed.

Lemma set_pop_writes_once scan (self : SqliteSet.self_t V) s x s' :
  SqliteSet.pop scan self s = (Ok x, s') → do_writes s' = S (do_writes s).
Proof.
  unfold SqliteSet.pop, SqliteSet._discard, execute. unfold_m.
  destruct (head (scan (db s))) as [text|]; cbn; [|done].
  match goal with |- context [_do_write ?s0] =>
    destruct (do_write_run s0) as (Hr & _ & Hn & _);
    destruct (_do_write s0) as [r s1] end.
  cbn in Hr, Hn. subst r. intros [= <- <-].
  rewrite Hn. count_writes.
Qed.
End MutatorsWriteOnce.

(** C4, the code: [clear] of each of the three classes deletes the rows and
    returns without a call of [_do_write], and so without a commit: a
    sequence, a map and a set with rows are emptied by the one [DELETE]
    statement the trace gains, and the count of [_do_write] calls is as
    before. *)
Theorem clear_skips_do_write {V} (l : SqliteList.self_t V)
    (sl : conn (gmap string (gmap Z string)) SqliteList.stmt) (t : gmap Z string)
    (sd : conn (gmap string string) SqliteDict.stmt)
    (ss : conn (gset string) SqliteSet.stmt) :
  db sl !! SqliteList.table_name l = Some t →
  (SqliteList.clear l sl =
     (Ok tt, with_db (<[SqliteList.table_name l := ∅]> (db sl))
               (record (Exec (SqliteList.DeleteAll (SqliteList.table_name l))) sl)) ∧
   do_writes (SqliteList.clear l sl).2 = do_writes sl ∧
   commits (SqliteList.clear l sl).2 = commits sl) ∧
  (SqliteDict.clear sd = (Ok tt, with_db ∅ (record (Exec SqliteDict.DeleteAll) sd)) ∧
   do_writes (SqliteDict.clear sd).2 = do_writes sd ∧
   commits (SqliteDict.clear sd).2 = commits sd) ∧
  (SqliteSet.clear ss = (Ok tt, with_db ∅ (record (Exec SqliteSet.DeleteAll) ss)) ∧
   do_writes (SqliteSet.clear ss).2 = do_writes ss ∧
   commits (SqliteSet.clear ss).2 = commits ss).
Proof.
  intros H. repeat split.
  - unfold SqliteList.clear, execute, SqliteList.sql_delete_all, SqliteList.with_table.
    by rewrite H.
  - apply do_writes_execute.
  - unfold SqliteList.clear, execute, SqliteList.sql_delete_all, SqliteList.with_table.
    by rewrite H.
  - apply do_writes_execute.
  - apply do_writes_execute.
Qed.

Lemma clear_skips_do_write_witness :
  db wxy !! SqliteList.table_name text_list = Some wxy_table ∧
  (SqliteList.clear text_list wxy).1 = Ok tt ∧
  (SqliteList.__len__ text_list (SqliteList.clear text_list wxy).2).1 = Ok 0%Z ∧
  do_writes (SqliteList.clear text_list wxy).2 = do_writes wxy.
Proof.
  assert (db wxy !! SqliteList.table_name text_list = Some wxy_table) as H
    by (vm_compute; reflexivity).
  pose proof (clear_skips_do_write text_list wxy wxy_table empty_dict ab_set H)
    as ((Hc & Hn & _) & _).
  split; [exact H|]. split; [by rewrite Hc|].
  split; [vm_compute; reflexivity|exact Hn].
Defined.

(** ** The sequence adapter: slices *)

Section ListSlice.
Import SqliteList.
Context {V : Type} (self : self_t V).

Implicit Types (s : conn database stmt) (vs : list V).

Lemma holds_record s vs e : holds self s vs → holds self (record e s) vs.
Proof. intros (t & H & R). by exists t. Qed.

Lemma holds_len s vs :
  holds self s vs →
  _getlen self s
    = (Ok (Z.of_nat (length vs)), record (Exec (SelectCount (table_name self))) s).
Proof. intros (t & H & _ & Hs & _). by rewrite (getlen_run self s t H), Hs. Qed.

(** In a sequence that holds [vs], [get(k)] is the count, then the point
    lookup of row [MIN + k], and returns [decoder(coder(vs[k]))]. *)
Lemma holds_getitem s vs (k : nat) v :
  holds self s vs → vs !! k = Some v →
  __getitem__ self (Int (Z.of_nat k)) s =
    (Ok (Value (_decoder self (_coder self v))),
     record (Exec (SelectValueAtMinPlus (table_name self) (Z.of_nat k)))
            (record (Exec (SelectCount (table_name self))) s)).
Proof.
  intros (t & H & D & Hs & Hrow) Hk.
  pose proof (lookup_lt_Some _ _ _ Hk) as Hlt.
  rewrite (getitem_run self s t _ H) by lia.
  destruct (dense_row t (Z.of_nat k) D) as (lo & text & E & Ht); [lia|].
  rewrite E. cbn. by rewrite (Hrow lo k v E Hk).
Qed.
End ListSlice.

(** C7.  In a sequence that holds [10, 20, 30, 40, 50], the slice
    [(1, 4, 1)] returns a generator after the count alone; each [next] is one
    [get]: the count and the point lookup of one row, for the subscripts 1,
    2 and 3 in turn, yielding [decoder(coder(20))], [decoder(coder(30))] and
    [decoder(coder(40))]; the fourth [next] ends the generator without a
    statement; run to its end the generator lists these three values. *)
Theorem slice_1_4_1 (self : SqliteList.self_t Z)
    (s : conn (gmap string (gmap Z string)) SqliteList.stmt) :
  holds self s [10; 20; 30; 40; 50]%Z →
  let tn := SqliteList.table_name self in
  let decoded (v : Z) :=
    SqliteList.Value (SqliteList._decoder self (SqliteList._coder self v)) in
  let get (k : Z) (s : conn (gmap string (gmap Z string)) SqliteList.stmt) :=
    record (Exec (SqliteList.SelectValueAtMinPlus tn k))
           (record (Exec (SqliteList.SelectCount tn)) s) in
  let g := SqliteList.Generator 5 [1; 2; 3]%Z in
  let s0 := record (Exec (SqliteList.SelectCount tn)) s in
  SqliteList.__getitem__ self (Slice (Some 1%Z) (Some 4%Z) (Some 1%Z)) s
    = (Ok (SqliteList.Sliced g), s0) ∧
  SqliteList.next self g s0
    = (Ok (Some (decoded 20%Z), SqliteList.Generator 5 [2; 3]%Z), get 1%Z s0) ∧
  SqliteList.__getitem__ self (Int 1) s0 = (Ok (decoded 20%Z), get 1%Z s0) ∧
  SqliteList.next self (SqliteList.Generator 5 [2; 3]%Z) (get 1%Z s0)
    = (Ok (Some (decoded 30%Z), SqliteList.Generator 5 [3%Z]), get 2%Z (get 1%Z s0)) ∧
  SqliteList.__getitem__ self (Int 2) (get 1%Z s0)
    = (Ok (decoded 30%Z), get 2%Z (get 1%Z s0)) ∧
  SqliteList.next self (SqliteList.Generator 5 [3%Z]) (get 2%Z (get 1%Z s0))
    = (Ok (Some (decoded 40%Z), SqliteList.Generator 5 []),
       get 3%Z (get 2%Z (get 1%Z s0))) ∧
  SqliteList.__getitem__ self (Int 3) (get 2%Z (get 1%Z s0))
    = (Ok (decoded 40%Z), get 3%Z (get 2%Z (get 1%Z s0))) ∧
  SqliteList.next self (SqliteList.Generator 5 []) (get 3%Z (get 2%Z (get 1%Z s0)))
    = (Ok (None, SqliteList.Generator 5 []), get 3%Z (get 2%Z (get 1%Z s0))) ∧
  SqliteList.list_of self g s0
    = (Ok [decoded 20%Z; decoded 30%Z; decoded 40%Z], get 3%Z (get 2%Z (get 1%Z s0))).
Proof.
  intros Hh tn decoded get g s0.
  assert (holds self s0 [10; 20; 30; 40; 50]%Z) as H0 by by apply holds_record.
  assert (holds self (get 1%Z s0) [10; 20; 30; 40; 50]%Z) as H1
    by by do 2 apply holds_record.
  assert (holds self (get 2%Z (get 1%Z s0)) [10; 20; 30; 40; 50]%Z) as H2
    by by do 2 apply holds_record.
  subst tn decoded get g s0. cbn beta in *.
  pose proof (holds_getitem self _ _ 1 20%Z H0 eq_refl) as G1.
  pose proof (holds_getitem self _ _ 2 30%Z H1 eq_refl) as G2.
  pose proof (holds_getitem self _ _ 3 40%Z H2 eq_refl) as G3.
  change (Z.of_nat 1) with 1%Z in G1. change (Z.of_nat 2) with 2%Z in G2.
  change (Z.of_nat 3) with 3%Z in G3.
  repeat split.
  - unfold SqliteList.__getitem__. unfold_m. by rewrite (holds_len self s _ Hh).
  - unfold SqliteList.next. cbn [SqliteList.gen_length SqliteList.gen_irange
      SqliteList._iterate_next]. rewrite decide_True by lia. unfold_m. by rewrite G1.
  - exact G1.
  - unfold SqliteList.next. cbn [SqliteList.gen_length SqliteList.gen_irange
      SqliteList._iterate_next]. rewrite decide_True by lia. unfold_m. by rewrite G2.
  - exact G2.
  - unfold SqliteList.next. cbn [SqliteList.gen_length SqliteList.gen_irange
      SqliteList._iterate_next]. rewrite decide_True by lia. unfold_m. by rewrite G3.
  - exact G3.
  - unfold SqliteList.list_of. cbn [SqliteList.gen_length SqliteList.gen_irange
      SqliteList._iterate]. rewrite !decide_True by lia. unfold_m.
    by rewrite G1, G2, G3.
Qed.

Lemma tens_holds : holds number_list tens [10; 20; 30; 40; 50]%Z.
Proof.
  exists tens_table. split; [vm_compute; reflexivity|].
  split; [vm_compute; reflexivity|]. split; [vm_compute; reflexivity|].
  intros lo k v E Hk.
  assert (SqliteList.sql_min tens_table = Some 1%Z) as E1 by (vm_compute; reflexivity).
  rewrite E1 in E. injection E as <-.
  do 5 (destruct k as [|k]; [injection Hk as <-; vm_compute; reflexivity|]).
  by destruct k.
Defined.

Lemma slice_1_4_1_witness :
  holds number_list tens [10; 20; 30; 40; 50]%Z ∧
  ∃ s1 s2,
    SqliteList.__getitem__ number_list (Slice (Some 1%Z) (Some 4%Z) (Some 1%Z)) tens
      = (Ok (SqliteList.Sliced (SqliteList.Generator 5 [1; 2; 3]%Z)), s1) ∧
    SqliteList.list_of number_list (SqliteList.Generator 5 [1; 2; 3]%Z) s1
      = (Ok [SqliteList.Value 20%Z; SqliteList.Value 30%Z; SqliteList.Value 40%Z], s2).
Proof.
  split; [exact tens_holds|].
  pose proof (slice_1_4_1 number_list tens tens_holds) as (Hg & _ & _ & _ & _ & _ & _ & _ & Hl).
  eexists _, _. split; [exact Hg|exact Hl].
Defined.

(** ** Density is an invariant of the class *)

Section DenseInvariant.
Import SqliteList.
Context {V : Type} (self : self_t V).

Implicit Types (s : conn database stmt) (t : gmap Z string).

Lemma dense_delete_min t lo : dense t → sql_min t = Some lo → dense (delete lo t).
Proof.
  intros D E. pose proof D as D'. rewrite dense_alt in D'. specialize (D' lo E).
  pose proof E as E0. apply sql_min_Some in E0 as [Hlo Hle].
  apply dense_alt. intros lo' E' p.
  rewrite map_size_delete_Some by done.
  pose proof (size_pos_of_min _ _ E) as Hs.
  apply sql_min_Some in E' as [Hlo' Hle'].
  assert (lo' ≠ lo) as Hne by (intros ->; rewrite lookup_delete_eq in Hlo'; by destruct Hlo').
  rewrite lookup_delete_ne in Hlo' by done.
  assert (lo' = lo + 1)%Z as ->.
  { pose proof (proj1 (D' lo') Hlo') as Hr.
    assert (is_Some (delete lo t !! (lo + 1)%Z)) as H1.
    { rewrite lookup_delete_ne by lia. apply D'. lia. }
    specialize (Hle' _ H1). lia. }
  destruct (decide (lo = p)) as [<-|Hp].
  - rewrite lookup_delete_eq. split; [by intros [? ?]|lia].
  - rewrite lookup_delete_ne by done. rewrite D'. lia.
Qed.

Lemma dense_delete_max t hi : dense t → sql_max t = Some hi → dense (delete hi t).
Proof.
  intros D E. destruct (sql_min t) as [lo|] eqn:Emin;
    [|apply min_max_None in Emin; congruence].
  rewrite (dense_max t lo D Emin) in E. injection E as <-.
  pose proof D as D'. rewrite dense_alt in D'. specialize (D' lo Emin).
  pose proof (size_pos_of_min _ _ Emin) as Hs.
  set (hi := (lo + Z.of_nat (size t) - 1)%Z).
  assert (is_Some (t !! hi)) as Hhi by (apply D'; unfold hi; lia).
  apply dense_alt. intros lo' E' p.
  rewrite map_size_delete_Some by done.
  apply sql_min_Some in E' as [Hlo' Hle'].
  assert (lo' ≠ hi) as Hne by (intros ->; rewrite lookup_delete_eq in Hlo'; by destruct Hlo').
  rewrite lookup_delete_ne in Hlo' by done.
  assert (lo' = lo) as ->.
  { pose proof (proj1 (D' lo') Hlo') as Hr.
    assert (is_Some (delete hi t !! lo)) as H1.
    { rewrite lookup_delete_ne by (unfold hi in *; lia). apply D'. lia. }
    specialize (Hle' _ H1). lia. }
  destruct (decide (hi = p)) as [<-|Hp].
  - rewrite lookup_delete_eq. split; [by intros [? ?]|unfold hi; lia].
  - rewrite lookup_delete_ne by done. rewrite D'. unfold hi in *. lia.
Qed.

Lemma dense_overwrite t p text : dense t → is_Some (t !! p) → dense (<[p := text]> t).
Proof.
  intros D Hp. unfold dense in *. rewrite sql_min_insert.
  pose proof (map_size_insert_Some p text t Hp) as Hs.
  destruct (sql_min t) as [lo|] eqn:E; cbn.
  - apply sql_min_Some in E as [_ Hle]. specialize (Hle p Hp).
    rewrite Z.min_r by lia. rewrite Hs, dom_insert_L, D.
    apply set_eq. intros q. rewrite elem_of_union, elem_of_singleton.
    split; [|tauto]. intros [->|?]; [|done]. by rewrite <- D, elem_of_dom.
  - apply sql_min_None in E. subst t. rewrite lookup_empty in Hp. by destruct Hp.
Qed.

Lemma append_keeps_dense v : keeps_dense self (append self v).
Proof.
  intros s t H D. rewrite (append_run self s t v H).
  destruct (put_row _ _ _ _) as [t'|e] eqn:Ep.
  - match goal with |- context [_do_write ?s0] =>
      destruct (do_write_run s0) as (_ & -> & _) end.
    exists t'. cbn. rewrite lookup_insert_eq. split; [done|].
    by destruct (append_row t t' _ D Ep) as (_ & ? & _).
  - by exists t.
Qed.

Lemma prepend_keeps_dense v : keeps_dense self (prepend self v).
Proof.
  intros s t H D. rewrite (prepend_run self s t v H).
  destruct (put_row _ _ _ _) as [t'|e] eqn:Ep.
  - match goal with |- context [_do_write ?s0] =>
      destruct (do_write_run s0) as (_ & -> & _) end.
    exists t'. cbn. rewrite lookup_insert_eq. split; [done|].
    by destruct (prepend_row t t' _ D Ep) as (_ & ? & _).
  - by exists t.
Qed.

Lemma clear_keeps_dense : keeps_dense self (clear self).
Proof.
  intros s t H D. unfold clear, execute, sql_delete_all, with_table. rewrite H.
  exists ∅. cbn. by rewrite lookup_insert_eq.
Qed.

Lemma getitem_keeps_dense key : keeps_dense self (__getitem__ self key).
Proof.
  intros s t H D. exists t. split; [|done].
  unfold __getitem__. unfold_m. rewrite (getlen_run self s t H).
  destruct key as [k|start stop step|ty]; cbn.
  - repeat case_decide; cbn; try done.
    all: unfold execute, sql_value_at_min_plus, with_table; cbn; rewrite H;
      by destruct (sql_min t ≫= _).
  - by destruct (range_getslice _ _ _ _).
  - done.
Qed.

Lemma pop_with_keeps_dense pick sel del :
  (∀ t p, dense t → pick t = Some p → dense (delete p t)) →
  keeps_dense self (pop_with self pick sel del).
Proof.
  intros Hpick s t H D. destruct s as [d tx ce pe co tr]. cbn in H.
  unfold pop_with, begin_transaction, _getlen, execute, sql_count, sql_value_at,
    sql_delete_at, with_table.
  unfold_m. cbn. destruct tx; cbn; [by exists t|]. rewrite H. cbn.
  case_decide; cbn; [by exists t|]. rewrite H. cbn.
  destruct (pick t) as [p|] eqn:Ep; cbn; [|by exists t].
  destruct (t !! p) as [text|] eqn:Et; cbn; [|by exists t].
  rewrite H, Ep. cbn.
  match goal with |- context [_do_write ?s0] =>
    destruct (do_write_run s0) as (Hr & Hdb & _);
    destruct (_do_write s0) as [r s1] end.
  cbn in Hr, Hdb. subst r. cbn. rewrite Hdb, lookup_insert_eq.
  exists (delete p t). split; [done|]. by eapply Hpick.
Qed.

Lemma pop_first_keeps_dense : keeps_dense self (pop_first self).
Proof.
  rewrite pop_first_with. apply pop_with_keeps_dense.
  intros t p D E. by apply dense_delete_min.
Qed.

Lemma pop_last_keeps_dense : keeps_dense self (pop_last self).
Proof.
  rewrite pop_last_with. apply pop_with_keeps_dense.
  intros t p D E. by apply dense_delete_max.
Qed.

Lemma store_keeps_dense s t k v :
  db s !! table_name self = Some t → dense t → (0 ≤ k < Z.of_nat (size t))%Z →
  ∃ t', db ((execute (ReplaceAtMinPlus "list" (table_name self) k (_coder self v))
               (sql_replace_at_min_plus "list" (table_name self) k (_coder self v));;
             _do_write) s).2 !! table_name self = Some t' ∧ dense t'.
Proof.
  intros H D Hk. unfold execute, sql_replace_at_min_plus, with_table. unfold_m.
  destruct (db s !! "list") as [tl|] eqn:El; cbn; [|by exists t].
  rewrite H. destruct (dense_row t k D Hk) as (lo & old & E & Hold).
  destruct (put_row _ _ _ _) as [t'|e] eqn:Ep; cbn; [|by exists t].
  match goal with |- context [_do_write ?s0] =>
    destruct (do_write_run s0) as (_ & -> & _) end.
  cbn. destruct (decide (table_name self = "list")) as [Hn|Hn].
  - rewrite Hn in *. rewrite lookup_insert_eq. exists t'. split; [done|].
    assert (tl = t) as -> by congruence.
    rewrite E in Ep. unfold put_row, sql_add in Ep.
    case_decide; [|done]. rewrite Hold in Ep. injection Ep as <-.
    apply dense_overwrite; [done|by eexists].
  - rewrite lookup_insert_ne by done. by exists t.
Qed.

Lemma setitem_keeps_dense key v : keeps_dense self (__setitem__ self key v).
Proof.
  intros s t H D. destruct key as [k|start stop step|ty]; [|by exists t..].
  unfold __setitem__, __len__. unfold_m.
  destruct (decide (k < 0)%Z) as [Hneg|Hpos].
  - rewrite (getlen_run self s t H). case_decide; cbn; [by exists t|].
    rewrite (getlen_run self _ t) by done. case_decide; cbn; [by exists t|].
    refine (store_keeps_dense _ t _ v _ D _); [done|lia].
  - cbn. rewrite (getlen_run self s t H). case_decide; cbn; [by exists t|].
    refine (store_keeps_dense _ t _ v _ D _); [done|lia].
Qed.

Lemma bind_keeps_dense {A B} (m : M A) (k : A → M B) :
  keeps_dense self m → (∀ a, keeps_dense self (k a)) → keeps_dense self (m ≫= k).
Proof.
  intros Hm Hk s t H D. destruct (Hm s t H D) as (t1 & H1 & D1).
  unfold_m. destruct (m s) as [[a|e] s1]; cbn in *.
  - by apply (Hk a s1 t1).
  - by exists t1.
Qed.

Lemma extend_keeps_dense iterable : keeps_dense self (extend self iterable).
Proof.
  induction iterable as [|item rest IH]; cbn [extend].
  - intros s t H D. by exists t.
  - apply bind_keeps_dense; [apply append_keeps_dense|done].
Qed.
End DenseInvariant.

(** The constructor leaves a dense table: the empty one it creates, or the
    dense one it finds, with the initial elements appended. *)
Lemma init_dense {V} (init_list : list V) coder decoder name fmt
    (s : conn (gmap string (gmap Z string)) SqliteList.stmt) :
  (∀ tn t, db s !! tn = Some t → dense t) →
  ∀ self s', SqliteList.__init__ init_list coder decoder name fmt s = (Ok self, s') →
    ∃ t', db s' !! SqliteList.table_name self = Some t' ∧ dense t'.
Proof.
  intros Hd self s'. unfold SqliteList.__init__.
  set (tn := match name with
             | Some (String _ _ as n) => fmt n
             | _ => "list"
             end).
  replace (match name with
           | Some "" | None => "list"
           | Some (String _ _ as n) => fmt n
           end) with tn by (by destruct name as [[|]|]).
  unfold_m. unfold SqliteList.SqliteObject__init__, execute at 1, SqliteList.sql_create_table.
  pose proof (extend_keeps_dense (SqliteList.Self tn coder decoder) init_list) as He.
  destruct (db s !! tn) as [t|] eqn:E.
  - destruct (He (with_db (db s) (record (Exec (SqliteList.CreateTable tn)) s)) t)
      as (t' & H' & D'); [done|by eapply Hd|].
    destruct (SqliteList.extend _ _ _) as [[[]|e] s1]; [|done].
    intros [= <- <-]. by exists t'.
  - destruct (He (with_db (<[tn := ∅]> (db s))
                    (record (Exec (SqliteList.CreateTable tn)) s)) ∅)
      as (t' & H' & D'); [apply lookup_insert_eq|apply dense_empty|].
    destruct (SqliteList.extend _ _ _) as [[[]|e] s1]; [|done].
    intros [= <- <-]. by exists t'.
Qed.

(** ** The scenarios of the specification, run on the model *)

(** Scenario B: from the empty sequence, [append("x")], [append("y")],
    [prepend("w")] give the contents [w, x, y]; [get(1)] is ["x"];
    [pop_first()] is ["w"] and leaves [x, y]. *)
Example scenario_B :
  ((SqliteList.append text_list "x";;
    SqliteList.append text_list "y";;
    SqliteList.prepend text_list "w";;
    contents ← SqliteList.__iter__ text_list;
    second ← SqliteList.__getitem__ text_list (Int 1);
    first ← SqliteList.pop_first text_list;
    remaining ← SqliteList.__iter__ text_list;
    mret (contents, second, first, remaining)) empty_list).1
  = Ok (["w"; "x"; "y"], SqliteList.Value "x", "w", ["x"; "y"]).
Proof. vm_compute. reflexivity. Qed.

(** Scenario A: from the empty map, [set("a", 1)], [set("b", 2)] give length
    2 and [get("a")] is 1; after [delete("a")] the key is no member;
    [pop("b")] is 2 and leaves length 0. *)
Example scenario_A :
  ((SqliteDict.__setitem__ text_dict (SqliteDict.Key "a") "1";;
    SqliteDict.__setitem__ text_dict (SqliteDict.Key "b") "2";;
    n ← SqliteDict.__len__;
    a ← SqliteDict.__getitem__ text_dict (SqliteDict.Key "a");
    SqliteDict.__delitem__ text_dict (SqliteDict.Key "a");;
    member ← SqliteDict.__contains__ text_dict (SqliteDict.Key "a");
    b ← SqliteDict.pop text_dict (SqliteDict.Key "b") "";
    m ← SqliteDict.__len__;
    mret (n, a, member, b, m)) empty_dict).1
  = Ok (2%Z, "1", false, "2", 0%Z).
Proof. vm_compute. reflexivity. Qed.

(** Scenario C: from the empty set, [add(1)] twice gives length 1;
    [remove(2)] raises KeyError; [discard(2)] returns. *)
Example scenario_C :
  ((SqliteSet.add text_set "1";; SqliteSet.add text_set "1";;
    SqliteSet.__len__) (fresh ∅ 0)).1 = Ok 1%Z ∧
  fails_with (SqliteSet.remove text_set "2" ab_set).1 KeyNotFound ∧
  (SqliteSet.discard text_set "2" ab_set).1 = Ok tt.
Proof.
  split; [vm_compute; reflexivity|]. split; [|vm_compute; reflexivity].
  exists (KeyError "table_name"). split; vm_compute; reflexivity.
Qed.

(** Scenario D: with a threshold of 3, three [set] calls commit once, and
    the fourth opens the next batch. *)
Example scenario_D :
  let set k := SqliteDict.__setitem__ text_dict (SqliteDict.Key k) "v" in
  let three := ((set "a";; set "b";; set "c") (fresh ∅ 3)).2 in
  commits three = 1 ∧ pending three = 0 ∧
  commits (set "d" three).2 = 1 ∧ pending (set "d" three).2 = 1.
Proof. vm_compute. done. Qed.

(** Scenario E, second half: on [10, 20, 30, 40, 50] the slice
    [(None, None, -1)] lists the values from the last to the first. *)
Example scenario_E_reversed :
  ((g ← SqliteList.__getitem__ number_list (Slice None None (Some (-1)%Z));
    match g with
    | SqliteList.Sliced g => SqliteList.list_of number_list g
    | SqliteList.Value _ => mret []
    end) tens).1
  = Ok (SqliteList.Value <$> [50; 40; 30; 20; 10]%Z).
Proof. vm_compute. reflexivity. Qed.

(** ** The sequence adapter as a Python list *)

Section ListRefinement.
Import SqliteList.
Context {V : Type} (self : self_t V).

Implicit Types (s : conn database stmt) (t : gmap Z string) (vs : list V).

Lemma holds_table s vs :
  holds self s vs →
  ∃ t, db s !! table_name self = Some t ∧ dense t ∧ size t = length vs.
Proof. intros (t & H & D & Hs & _). by exists t. Qed.

Lemma append_shape t t' text :
  dense t → put_row false (sql_add (sql_max t) 1) text t = Ok t' →
  match sql_min t with
  | None => t' = <[1%Z := text]> ∅
  | Some lo => t' = <[(lo + Z.of_nat (size t))%Z := text]> t
  end.
Proof.
  intros D. destruct (sql_min t) as [lo|] eqn:E.
  - rewrite (dense_max t lo D E). pose proof (size_pos_of_min _ _ E) as Hs.
    pose proof D as D'. rewrite dense_alt in D'. specialize (D' lo E).
    unfold put_row, sql_add.
    replace (lo + Z.of_nat (size t) - 1 + 1)%Z with (lo + Z.of_nat (size t))%Z by lia.
    case_decide; [|done].
    assert (t !! (lo + Z.of_nat (size t))%Z = None) as ->.
    { apply eq_None_not_Some. rewrite D'. lia. }
    by intros [= <-].
  - pose proof E as E2. apply min_max_None in E2. rewrite E2.
    apply sql_min_None in E. subst t. cbn. by intros [= <-].
Qed.

Lemma prepend_shape t t' text :
  dense t → put_row false (sql_add (sql_min t) (-1)) text t = Ok t' →
  match sql_min t with
  | None => t' = <[1%Z := text]> ∅
  | Some lo => t' = <[(lo + -1)%Z := text]> t
  end.
Proof.
  intros D. destruct (sql_min t) as [lo|] eqn:E.
  - pose proof D as D'. rewrite dense_alt in D'. specialize (D' lo E).
    unfold put_row, sql_add. case_decide; [|done].
    assert (t !! (lo + -1)%Z = None) as ->.
    { apply eq_None_not_Some. rewrite D'. lia. }
    by intros [= <-].
  - apply sql_min_None in E. subst t. cbn. by intros [= <-].
Qed.

Lemma holds_nil_table s t vs :
  holds self s vs → db s !! table_name self = Some t → sql_min t = None → vs = [].
Proof.
  intros (t0 & H & _ & Hs & _) Ht E. assert (t0 = t) as -> by congruence.
  apply sql_min_None in E. subst t. rewrite map_size_empty in Hs.
  by destruct vs.
Qed.

Lemma append_holds s s' vs v :
  holds self s vs → append self v s = (Ok tt, s') → holds self s' (vs ++ [v]).
Proof.
  intros Hh Ha. pose proof Hh as (t & H & D & Hs & Hrow).
  destruct (append_db self s s' t v H Ha) as (t' & Hput & Hdb).
  destruct (append_row t t' _ D Hput) as (Hsz & D' & _).
  pose proof (append_shape t t' _ D Hput) as Hshape.
  exists t'. split; [rewrite Hdb; apply lookup_insert_eq|].
  split; [done|]. split; [rewrite Hsz, length_app; cbn; lia|].
  intros lo' k w E' Hk. destruct (sql_min t) as [lo|] eqn:E.
  - subst t'. rewrite sql_min_insert, E in E'. cbn in E'.
    assert (lo' = lo) as -> by (injection E' as <-; lia).
    destruct (decide (k < length vs)) as [Hlt|Hge].
    + rewrite lookup_app_l in Hk by done.
      rewrite lookup_insert_ne by lia. by apply Hrow.
    + assert (k = length vs) as ->.
      { apply lookup_lt_Some in Hk. rewrite length_app in Hk. cbn in Hk. lia. }
      rewrite list_lookup_middle in Hk by done. injection Hk as <-.
      rewrite <- Hs. apply lookup_insert_eq.
  - subst t'. assert (vs = []) as -> by by eapply holds_nil_table.
    assert (lo' = 1%Z) as -> by (by vm_compute in E'; injection E' as <-).
    destruct k as [|k]; [|by destruct k]. injection Hk as <-.
    apply lookup_insert_eq.
Qed.

Lemma prepend_holds s s' vs v :
  holds self s vs → prepend self v s = (Ok tt, s') → holds self s' (v :: vs).
Proof.
  intros Hh Ha. pose proof Hh as (t & H & D & Hs & Hrow).
  destruct (prepend_db self s s' t v H Ha) as (t' & Hput & Hdb).
  destruct (prepend_row t t' _ D Hput) as (Hsz & D' & _).
  pose proof (prepend_shape t t' _ D Hput) as Hshape.
  exists t'. split; [rewrite Hdb; apply lookup_insert_eq|].
  split; [done|]. split; [rewrite Hsz; cbn; lia|].
  intros lo' k w E' Hk. destruct (sql_min t) as [lo|] eqn:E.
  - subst t'. rewrite sql_min_insert, E in E'. cbn in E'.
    assert (lo' = lo + -1)%Z as -> by (injection E' as <-; lia).
    destruct k as [|k].
    + injection Hk as <-. rewrite Z.add_0_r. apply lookup_insert_eq.
    + cbn in Hk. rewrite lookup_insert_ne by lia.
      replace (lo + -1 + Z.of_nat (S k))%Z with (lo + Z.of_nat k)%Z by lia.
      by apply Hrow.
  - subst t'. assert (vs = []) as -> by by eapply holds_nil_table.
    assert (lo' = 1%Z) as -> by (by vm_compute in E'; injection E' as <-).
    destruct k as [|k]; [|by destruct k]. injection Hk as <-.
    apply lookup_insert_eq.
Qed.
End ListRefinement.

Section ListRefinementPops.
Import SqliteList.
Context {V : Type} (self : self_t V).

Implicit Types (s : conn database stmt) (t : gmap Z string) (vs : list V).




End ListRefinementPops.

Section ListRefinementExtend.
Import SqliteList.
Context {V : Type} (self : self_t V).

Implicit Types (s : conn database stmt) (t : gmap Z string) (vs : list V).

Lemma extend_cons_inv s s' v rest :
  extend self (v :: rest) s = (Ok tt, s') →
  ∃ s1, append self v s = (Ok tt, s1) ∧ extend self rest s1 = (Ok tt, s').
Proof.
  cbn [extend]. unfold_m. destruct (append self v s) as [[[]|e] s1]; [|done].
  intros Hr. by exists s1.
Qed.

Lemma extend_holds vs : ∀ s s' ws,
  holds self s ws → extend self vs s = (Ok tt, s') → holds self s' (ws ++ vs).
Proof.
  induction vs as [|v rest IH]; intros s s' ws Hh He.
  - cbn in He. injection He as <-. by rewrite app_nil_r.
  - apply extend_cons_inv in He as (s1 & Ha & He).
    replace (ws ++ v :: rest) with ((ws ++ [v]) ++ rest) by by rewrite <- app_assoc.
    apply (IH s1); [|done]. by apply (append_holds self s).
Qed.

Lemma extend_writes vs : ∀ s s',
  extend self vs s = (Ok tt, s') → do_writes s' = do_writes s + length vs.
Proof.
  induction vs as [|v rest IH]; intros s s' He.
  - cbn in He. injection He as <-. cbn. lia.
  - apply extend_cons_inv in He as (s1 & Ha & He).
    pose proof (list_append_writes_once self v _ _ Ha) as Hw.
    rewrite (IH s1 s' He), Hw. cbn. lia.
Qed.

End ListRefinementExtend.

(** ** The sequence adapter: iteration in both directions *)

Section SortedRows.
Import SqliteList.

Global Instance row_le_trans : Transitive row_le.
Proof. intros x y z. unfold row_le. lia. Qed.

Global Instance row_le_total : Total row_le.
Proof. intros x y. unfold row_le. lia. Qed.

Global Instance row_ge_trans : Transitive row_ge.
Proof. intros x y z. unfold row_ge. lia. Qed.

Global Instance row_ge_total : Total row_ge.
Proof. intros x y. unfold row_ge. lia. Qed.

Lemma rows_from_snd lo texts : (rows_from lo texts).*2 = texts.
Proof. revert lo. induction texts as [|x l IH]; intros lo; cbn; [done|]. by rewrite IH. Qed.

Lemma elem_of_rows_from lo texts p x :
  (p, x) ∈ rows_from lo texts ↔ ∃ k : nat, p = (lo + Z.of_nat k)%Z ∧ texts !! k = Some x.
Proof.
  revert lo. induction texts as [|y l IH]; intros lo; cbn.
  - split; [by intros ?%elem_of_nil|by intros (k & _ & ?)].
  - rewrite elem_of_cons, IH. split.
    + intros [[= -> ->]|(k & -> & Hk)].
      * exists 0. split; [lia|done].
      * exists (S k). split; [lia|done].
    + intros ([|k] & -> & Hk).
      * left. injection Hk as <-. f_equal. lia.
      * right. exists k. split; [lia|done].
Qed.

Lemma rows_from_sorted lo texts : StronglySorted row_le (rows_from lo texts).
Proof.
  revert lo. induction texts as [|y l IH]; intros lo; cbn; constructor; [done|].
  apply Forall_forall. intros [p x] (k & -> & _)%elem_of_rows_from.
  unfold row_le. cbn. lia.
Qed.

Lemma rows_from_NoDup lo texts : NoDup (rows_from lo texts).
Proof.
  revert lo. induction texts as [|y l IH]; intros lo; cbn; constructor; [|done].
  intros (k & Hk & _)%elem_of_rows_from. lia.
Qed.

(** Rows of one table with the same position are the same row. *)
Lemma map_to_list_key_inj (t : gmap Z string) r1 r2 :
  r1 ∈ map_to_list t → r2 ∈ map_to_list t → r1.1 = r2.1 → r1 = r2.
Proof.
  destruct r1 as [p1 x1], r2 as [p2 x2]. cbn.
  intros H1%elem_of_map_to_list H2%elem_of_map_to_list ->. congruence.
Qed.

(** [ORDER BY list_index ASC] on a table whose rows are [texts], stored from
    position [lo] on. *)
Lemma sorted_rows (t : gmap Z string) lo texts :
  (∀ p x, t !! p = Some x ↔ ∃ k : nat, p = (lo + Z.of_nat k)%Z ∧ texts !! k = Some x) →
  merge_sort row_le (map_to_list t) = rows_from lo texts.
Proof.
  intros Hrows.
  assert (map_to_list t ≡ₚ rows_from lo texts) as Hperm.
  { apply NoDup_Permutation; [apply NoDup_map_to_list|apply rows_from_NoDup|].
    intros [p x]. by rewrite elem_of_map_to_list, elem_of_rows_from. }
  apply (Sorted_unique_strong row_le).
  - intros r1 r2 H1 H2 H12 H21. apply (map_to_list_key_inj t).
    + by rewrite merge_sort_Permutation in H1.
    + by rewrite Hperm.
    + unfold row_le in *. lia.
  - apply Sorted_merge_sort, _.
  - apply StronglySorted_Sorted, rows_from_sorted.
  - by rewrite merge_sort_Permutation.
Qed.

(** [ORDER BY list_index DESC] lists the rows of [ORDER BY list_index ASC]
    from the last to the first. *)
Lemma sorted_rows_desc (t : gmap Z string) :
  merge_sort row_ge (map_to_list t) = reverse (merge_sort row_le (map_to_list t)).
Proof.
  apply (Sorted_unique_strong row_ge).
  - intros r1 r2 H1 H2 H12 H21. apply (map_to_list_key_inj t).
    + by rewrite merge_sort_Permutation in H1.
    + by rewrite reverse_Permutation, merge_sort_Permutation in H2.
    + unfold row_ge in *. lia.
  - apply Sorted_merge_sort, _.
  - apply (Sorted_reverse row_le), Sorted_merge_sort, _.
  - by rewrite reverse_Permutation, !merge_sort_Permutation.
Qed.
End SortedRows.

Section ListIteration.
Import SqliteList.
Context {V : Type} (self : self_t V).

Implicit Types (vs : list V).

Lemma holds_contents (s : conn database stmt) vs :
  holds self s vs ↔ contents self (db s) vs.
Proof. reflexivity. Qed.

(** The rows of a table with the contents [vs], in the order of their
    positions. *)
Lemma contents_rows (d : database) vs :
  contents self d vs →
  ∃ t, d !! table_name self = Some t ∧
       (merge_sort row_le (map_to_list t)).*2 = _coder self <$> vs.
Proof.
  intros (t & H & D & Hs & Hrow). exists t. split; [done|].
  destruct (sql_min t) as [lo|] eqn:E.
  - rewrite (sorted_rows t lo (_coder self <$> vs)); [apply rows_from_snd|].
    rewrite dense_alt in D. specialize (D lo E).
    intros p x. split.
    + intros Hp. assert (is_Some (t !! p)) as Hin by by eexists.
      apply D in Hin. exists (Z.to_nat (p - lo)). split; [lia|].
      destruct (lookup_lt_is_Some_2 vs (Z.to_nat (p - lo))) as [v Hv]; [lia|].
      rewrite list_lookup_fmap, Hv. cbn. f_equal.
      pose proof (Hrow lo _ v eq_refl Hv) as Hr.
      replace (lo + Z.of_nat (Z.to_nat (p - lo)))%Z with p in Hr by lia. congruence.
    + intros (k & -> & Hk). rewrite list_lookup_fmap in Hk.
      destruct (vs !! k) as [v|] eqn:Hv; [|done]. injection Hk as <-.
      by apply Hrow.
  - apply sql_min_None in E. subst t. rewrite map_size_empty in Hs.
    destruct vs; [done|discriminate].
Qed.

Lemma iter_holds (s : conn database stmt) vs :
  holds self s vs →
  __iter__ self s =
    (Ok ((λ v, _decoder self (_coder self v)) <$> vs),
     record (Exec (SelectValuesAsc (table_name self))) s).
Proof.
  intros (t & H & Hsorted)%contents_rows.
  unfold __iter__, execute, sql_values_asc, with_table. unfold_m. rewrite H, Hsorted.
  rewrite <- list_fmap_compose. by destruct s.
Qed.

Lemma reversed_run (s : conn database query) :
  (__reversed__ self s).1 =
    match (relabel Stmt (__iter__ self) s).1 with
    | Ok items => Ok (reverse items)
    | Raise e => Raise e
    end.
Proof.
  unfold __reversed__, __iter__, relabel, execute, sql_values_desc, sql_values_asc,
    with_table. unfold_m. cbn.
  destruct (db s !! table_name self) as [t|]; cbn; [|done].
  by rewrite sorted_rows_desc, !fmap_reverse.
Qed.

Lemma contains_run (s : conn database query) vs x :
  contents self (db s) vs →
  __contains__ self x s =
    (Ok (bool_decide (_coder self x ∈ _coder self <$> vs)),
     record (Exec (SelectIndexByValue (table_name self) (_coder self x))) s).
Proof.
  intros (t & H & Hsorted)%contents_rows.
  unfold __contains__, execute, sql_has_value, with_table. rewrite H.
  assert (bool_decide (_coder self x ∈ (map_to_list t).*2)
          = bool_decide (_coder self x ∈ _coder self <$> vs)) as ->.
  { apply bool_decide_ext. rewrite <- Hsorted.
    by rewrite (merge_sort_Permutation row_le (map_to_list t)). }
  by destruct s.
Qed.
End ListIteration.

(** ** Slices of any shape *)

Section SliceBounds.

Lemma slice_indices_bounds (n : Z) start stop step a b st :
  (0 ≤ n)%Z → slice_indices n start stop step = Ok (a, b, st) →
  st ≠ 0%Z ∧
  ((0 < st)%Z → (0 ≤ a ≤ n ∧ 0 ≤ b ≤ n)%Z) ∧
  ((st < 0)%Z → (-1 ≤ a ≤ n - 1 ∧ -1 ≤ b ≤ n - 1)%Z).
Proof.
  intros Hn. unfold slice_indices.
  destruct (decide (default 1%Z step = 0%Z)) as [|Hst]; [done|].
  intros [= <- <- <-]. split; [done|].
  destruct start as [x|], stop as [y|]; repeat case_decide; lia.
Qed.

Lemma py_range_bounds (n a b st : Z) :
  ((0 < st)%Z → (0 ≤ a ≤ n ∧ 0 ≤ b ≤ n)%Z) →
  ((st < 0)%Z → (-1 ≤ a ≤ n - 1 ∧ -1 ≤ b ≤ n - 1)%Z) →
  st ≠ 0%Z →
  Forall (λ i, 0 ≤ i < n)%Z (py_range a b st).
Proof.
  intros Hpos Hneg Hst. unfold py_range. apply Forall_fmap, Forall_forall.
  intros k Hk%elem_of_seq. cbn. unfold range_len in Hk.
  destruct (decide (0 < st)%Z) as [Hp|Hn].
  - specialize (Hpos Hp). destruct (decide (a < b)%Z); [|cbn in Hk; lia].
    assert (Z.of_nat k ≤ (b - a - 1) / st)%Z as Hle by lia.
    pose proof (Z.mul_div_le (b - a - 1) st Hp). nia.
  - specialize (Hneg ltac:(lia)). destruct (decide (b < a)%Z); [|cbn in Hk; lia].
    assert (Z.of_nat k ≤ (a - b - 1) / - st)%Z as Hle by lia.
    pose proof (Z.mul_div_le (a - b - 1) (- st) ltac:(lia)). nia.
Qed.

(** The subscripts of [range(n)[start:stop:step]] lie in [range(n)]. *)
Lemma range_getslice_bounds (n : Z) start stop step irange :
  (0 ≤ n)%Z → range_getslice n start stop step = Ok irange →
  Forall (λ i, 0 ≤ i < n)%Z irange.
Proof.
  intros Hn. unfold range_getslice. rewrite Z.max_l by lia.
  destruct (slice_indices n start stop step) as [[[a b] st]|e] eqn:E; [|done].
  intros [= <-]. destruct (slice_indices_bounds n _ _ _ a b st Hn E) as (? & ? & ?).
  by apply py_range_bounds.
Qed.
End SliceBounds.

Section SliceRefinement.
Import SqliteList.
Context {V : Type} (self : self_t V).

Implicit Types (s : conn database stmt) (vs : list V).

Lemma iterate_holds vs irange : ∀ s,
  holds self s vs → Forall (λ i, 0 ≤ i < Z.of_nat (length vs))%Z irange →
  ∃ xs s',
    _iterate self (Z.of_nat (length vs)) irange s = (Ok xs, s') ∧
    db s' = db s ∧ do_writes s' = do_writes s ∧
    Forall2 (λ i x, ∃ v, vs !! Z.to_nat i = Some v ∧
                         x = Value (_decoder self (_coder self v))) irange xs.
Proof.
  induction irange as [|i rest IH]; intros s Hh Hall.
  - exists [], s. repeat split; done.
  - apply Forall_cons in Hall as [Hi Hall]. cbn [_iterate].
    rewrite decide_True by lia. unfold_m.
    destruct (lookup_lt_is_Some_2 vs (Z.to_nat i)) as [v Hv]; [lia|].
    pose proof (holds_getitem self s vs _ v Hh Hv) as Hg.
    rewrite Z2Nat.id in Hg by lia. rewrite Hg.
    destruct (IH (record (Exec (SelectValueAtMinPlus (table_name self) i))
                    (record (Exec (SelectCount (table_name self))) s)))
      as (xs & s' & Hrest & Hdb & Hw & Hxs); [by do 2 apply holds_record|done|].
    rewrite Hrest. exists (Value (_decoder self (_coder self v)) :: xs), s'.
    split; [done|]. split; [by rewrite Hdb|]. split.
    + rewrite Hw. count_writes.
    + constructor; [by exists v|done].
Qed.
End SliceRefinement.

(** ** The sequence adapter: assignment to a subscript *)

Section ListAssign.
Import SqliteList.
Context {V : Type} (self : self_t V).

Implicit Types (s : conn database stmt) (t : gmap Z string) (vs : list V).

(** A negative subscript costs one more count and is then the subscript
    counted from the front. *)
Lemma setitem_negative s t i v :
  db s !! table_name self = Some t → (i < 0)%Z → (0 ≤ Z.of_nat (size t) + i)%Z →
  __setitem__ self (Int i) v s =
    __setitem__ self (Int (Z.of_nat (size t) + i)) v
      (record (Exec (SelectCount (table_name self))) s).
Proof.
  intros H Hi Hr. unfold __setitem__, __len__. unfold_m.
  rewrite decide_True by lia. rewrite (getlen_run self s t H).
  rewrite decide_False by lia. rewrite (decide_False (P := (_ + _ < 0)%Z)) by lia.
  done.
Qed.

Lemma setitem_out_of_range s t i v :
  db s !! table_name self = Some t →
  (i < - Z.of_nat (size t) ∨ Z.of_nat (size t) ≤ i)%Z →
  (__setitem__ self (Int i) v s).1 = Raise (IndexError "Sequence index out of range.") ∧
  db (__setitem__ self (Int i) v s).2 = db s ∧
  do_writes (__setitem__ self (Int i) v s).2 = do_writes s.
Proof.
  intros H Hi. unfold __setitem__, __len__. unfold_m.
  destruct (decide (i < 0)%Z).
  - rewrite (getlen_run self s t H). rewrite decide_True by lia. cbn.
    split; [done|]. split; [done|]. count_writes.
  - cbn. rewrite (getlen_run self s t H). rewrite decide_True by lia. cbn.
    split; [done|]. split; [done|]. count_writes.
Qed.

Lemma setitem_holds_nonneg s t vs i v :
  table_name self = "list" → holds self s vs →
  db s !! "list" = Some t →
  (∀ p, is_Some (t !! p) → (MIN_ROWID ≤ p ≤ MAX_ROWID)%Z) →
  (0 ≤ i < Z.of_nat (length vs))%Z →
  ∃ s', __setitem__ self (Int i) v s = (Ok tt, s') ∧
        holds self s' (<[Z.to_nat i := v]> vs).
Proof.
  intros Hname (t0 & H & D & Hs & Hrow) Ht Hrange Hi.
  assert (t0 = t) as -> by (rewrite Hname in H; congruence).
  destruct (setitem_unnamed self s t i v Hname Ht D) as
    (s' & lo & Hset & E & Hdb & _); [lia|done|].
  exists s'. split; [done|].
  exists (<[(lo + i)%Z := _coder self v]> t).
  split; [rewrite Hdb, Hname; apply lookup_insert_eq|].
  assert (is_Some (t !! (lo + i)%Z)) as Hin.
  { rewrite dense_alt in D. apply (D lo E). lia. }
  split; [by apply dense_overwrite|].
  split; [rewrite map_size_insert_Some by done; by rewrite length_insert|].
  intros lo' k w E' Hk. rewrite sql_min_insert, E in E'. cbn in E'.
  assert (lo' = lo) as ->.
  { apply sql_min_Some in E as [_ Hle]. specialize (Hle _ Hin).
    injection E' as <-. lia. }
  destruct (decide (k = Z.to_nat i)) as [->|Hne].
  - rewrite list_lookup_insert_eq in Hk by lia. injection Hk as <-.
    rewrite Z2Nat.id by lia. apply lookup_insert_eq.
  - rewrite list_lookup_insert_ne in Hk by done.
    rewrite lookup_insert_ne by lia. by apply Hrow.
Qed.
End ListAssign.

(** ** The sequence adapter behaves as the Python list of its contents *)

Lemma wxy_holds : holds text_list wxy ["w"; "x"; "y"].
Proof.
  exists wxy_table. split; [vm_compute; reflexivity|].
  split; [vm_compute; reflexivity|]. split; [vm_compute; reflexivity|].
  intros lo k v E Hk.
  assert (SqliteList.sql_min wxy_table = Some 1%Z) as E1 by (vm_compute; reflexivity).
  rewrite E1 in E. injection E as <-.
  do 3 (destruct k as [|k]; [injection Hk as <-; vm_compute; reflexivity|]).
  by destruct k.
Defined.


(** X1.  On a sequence with the contents [vs], a successful [append(v)]
    leaves the contents [vs + [v]] and a successful [prepend(v)] leaves
    [[v] + vs]: no element changes its value or its place relative to the
    others. *)
Theorem append_prepend_as_list {V} (self : SqliteList.self_t V)
    (s : conn (gmap string (gmap Z string)) SqliteList.stmt) (vs : list V) (v : V) :
  holds self s vs →
  (∀ s', SqliteList.append self v s = (Ok tt, s') → holds self s' (vs ++ [v])) ∧
  (∀ s', SqliteList.prepend self v s = (Ok tt, s') → holds self s' (v :: vs)).
Proof.
  intros Hh. split; intros s' Hs.
  - by apply (append_holds self s).
  - by apply (prepend_holds self s).
Qed.

Lemma append_prepend_as_list_witness :
  holds text_list wxy ["w"; "x"; "y"] ∧
  (∀ s', SqliteList.append text_list "z" wxy = (Ok tt, s') →
         holds text_list s' (["w"; "x"; "y"] ++ ["z"])) ∧
  (∀ s', SqliteList.prepend text_list "z" wxy = (Ok tt, s') →
         holds text_list s' ("z" :: ["w"; "x"; "y"])).
Proof.
  split; [exact wxy_holds|].
  exact (append_prepend_as_list text_list wxy ["w"; "x"; "y"] "z" wxy_holds).
Defined.





(** X4.  On a sequence with the contents [ws], an [extend(vs)] that returns
    leaves the contents [ws + vs] and has called [_do_write] once for each
    element of [vs]. *)
Theorem extend_as_list {V} (self : SqliteList.self_t V)
    (s s' : conn (gmap string (gmap Z string)) SqliteList.stmt) (ws vs : list V) :
  holds self s ws → SqliteList.extend self vs s = (Ok tt, s') →
  holds self s' (ws ++ vs) ∧ do_writes s' = do_writes s + length vs.
Proof.
  intros Hh He. split.
  - by apply (extend_holds self vs s).
  - by apply (extend_writes self).
Qed.

Lemma extend_as_list_witness :
  holds text_list wxy ["w"; "x"; "y"] ∧
  SqliteList.extend text_list ["a"; "b"] wxy
    = (Ok tt, (SqliteList.extend text_list ["a"; "b"] wxy).2) ∧
  holds text_list (SqliteList.extend text_list ["a"; "b"] wxy).2
    (["w"; "x"; "y"] ++ ["a"; "b"]).
Proof.
  assert (SqliteList.extend text_list ["a"; "b"] wxy
          = (Ok tt, (SqliteList.extend text_list ["a"; "b"] wxy).2)) as He
    by (vm_compute; reflexivity).
  split; [exact wxy_holds|]. split; [exact He|].
  exact (proj1 (extend_as_list text_list wxy _ ["w"; "x"; "y"] ["a"; "b"] wxy_holds He)).
Defined.



(** X6.  Iterating a sequence with the contents [vs] yields
    [decoder(coder(v))] for each [v] of [vs], in the order of [vs], with the
    one ordered [SELECT]; nothing is stored. *)
Theorem iter_yields_contents {V} (self : SqliteList.self_t V)
    (s : conn (gmap string (gmap Z string)) SqliteList.stmt) (vs : list V) :
  holds self s vs →
  SqliteList.__iter__ self s =
    (Ok ((λ v, SqliteList._decoder self (SqliteList._coder self v)) <$> vs),
     record (Exec (SqliteList.SelectValuesAsc (SqliteList.table_name self))) s).
Proof. apply iter_holds. Qed.

Lemma iter_yields_contents_witness :
  holds text_list wxy ["w"; "x"; "y"] ∧
  (SqliteList.__iter__ text_list wxy).1 = Ok ["w"; "x"; "y"].
Proof.
  split; [exact wxy_holds|].
  by rewrite (iter_yields_contents text_list wxy ["w"; "x"; "y"] wxy_holds).
Defined.

(** X7.  On every database, [reversed(self)] yields what iterating [self]
    yields, from the last element to the first, and fails as iterating does
    when the table is missing; on a sequence with the contents [vs] it
    yields [decoder(coder(v))] for the elements of [vs] from the last to the
    first.  Nothing is stored. *)
Theorem reversed_is_reverse_iter {V} (self : SqliteList.self_t V)
    (s : conn (gmap string (gmap Z string)) SqliteList.query) :
  (SqliteList.__reversed__ self s).1 =
    match (relabel SqliteList.Stmt (SqliteList.__iter__ self) s).1 with
    | Ok items => Ok (reverse items)
    | Raise e => Raise e
    end ∧
  (∀ vs, contents self (db s) vs →
         (SqliteList.__reversed__ self s).1 =
           Ok (reverse ((λ v, SqliteList._decoder self (SqliteList._coder self v)) <$> vs))) ∧
  db (SqliteList.__reversed__ self s).2 = db s.
Proof.
  split; [apply reversed_run|]. split.
  - intros vs Hc. rewrite reversed_run. unfold relabel.
    set (s0 := Conn (db s) (in_txn s) (commit_every s) (pending s) (commits s) []).
    assert (holds self s0 vs) as Hh by exact Hc.
    by rewrite (iter_holds self s0 vs Hh).
  - unfold SqliteList.__reversed__, execute, SqliteList.sql_values_desc,
      SqliteList.with_table. unfold_m.
    by destruct (db s !! SqliteList.table_name self).
Qed.

(** X8.  On a sequence with the contents [vs], [x in self] is true exactly
    when some element of [vs] has the encoding of [x]; so it is true for an
    element that was just appended. *)
Theorem contains_by_encoding {V} (self : SqliteList.self_t V)
    (s : conn (gmap string (gmap Z string)) SqliteList.query) (vs : list V) (x : V) :
  contents self (db s) vs →
  ((SqliteList.__contains__ self x s).1 = Ok true ↔
   ∃ v, v ∈ vs ∧ SqliteList._coder self v = SqliteList._coder self x) ∧
  ((SqliteList.__contains__ self x s).1 = Ok false ↔
   ∀ v, v ∈ vs → SqliteList._coder self v ≠ SqliteList._coder self x) ∧
  (∀ s0 s1, db s0 = db s → SqliteList.append self x s0 = (Ok tt, s1) →
            ∀ s2 : conn (gmap string (gmap Z string)) SqliteList.query,
              db s2 = db s1 → (SqliteList.__contains__ self x s2).1 = Ok true) ∧
  db (SqliteList.__contains__ self x s).2 = db s.
Proof.
  intros Hc. rewrite (contains_run self s vs x Hc). cbn.
  assert (SqliteList._coder self x ∈ SqliteList._coder self <$> vs ↔
          ∃ v, v ∈ vs ∧ SqliteList._coder self v = SqliteList._coder self x) as Hmem.
  { rewrite list_elem_of_fmap. split; intros (v & ? & ?); by exists v. }
  split; [|split; [|split; [|done]]].
  - rewrite <- Hmem. split; [intros [= ?%bool_decide_eq_true]; done|].
    intros ?. f_equal. by apply bool_decide_eq_true.
  - split.
    + intros [= Hf%bool_decide_eq_false] v Hv He. apply Hf, Hmem. by exists v.
    + intros Hall. f_equal. apply bool_decide_eq_false.
      intros (v & Hv & He)%Hmem. by apply (Hall v).
  - intros s0 s1 Hdb Ha s2 Hdb2.
    assert (holds self s0 vs) as Hh by (unfold holds; by rewrite Hdb).
    pose proof (append_holds self s0 s1 vs x Hh Ha) as Hh1.
    assert (contents self (db s2) (vs ++ [x])) as Hc2
      by (rewrite Hdb2; exact Hh1).
    rewrite (contains_run self s2 _ x Hc2). cbn. f_equal.
    apply bool_decide_eq_true. rewrite fmap_app, elem_of_app. right.
    apply list_elem_of_here.
Qed.

Lemma contains_by_encoding_witness :
  contents text_list (db (fresh (db wxy) 0 : conn _ SqliteList.query)) ["w"; "x"; "y"] ∧
  (SqliteList.__contains__ text_list "x" (fresh (db wxy) 0)).1 = Ok true ∧
  (SqliteList.__contains__ text_list "q" (fresh (db wxy) 0)).1 = Ok false.
Proof.
  assert (contents text_list (db (fresh (db wxy) 0 : conn _ SqliteList.query))
            ["w"; "x"; "y"]) as H by exact wxy_holds.
  split; [exact H|].
  pose proof (contains_by_encoding text_list (fresh (db wxy) 0) _ "x" H) as (Ht & _).
  pose proof (contains_by_encoding text_list (fresh (db wxy) 0) _ "q" H) as (_ & Hf & _).
  split.
  - apply Ht. exists "x". split; [|done]. apply list_elem_of_further, list_elem_of_here.
  - apply Hf. intros v Hv. cbn.
    apply elem_of_cons in Hv as [->|Hv]; [done|].
    apply elem_of_cons in Hv as [->|Hv]; [done|].
    apply list_elem_of_singleton in Hv as ->. done.
Defined.

(** X9.  On a sequence with the contents [vs], of length [n]: [get(i)] for
    [0 <= i < n] returns [decoder(coder(vs[i]))], and for [-n <= i < 0]
    what [get(n + i)] returns; for [i >= n] and for [i < -n] it raises
    IndexError, and for a subscript that is neither an int nor a slice
    TypeError; in every case the tables are as before and [_do_write] is
    not called. *)
Theorem getitem_as_list {V} (self : SqliteList.self_t V)
    (s : conn (gmap string (gmap Z string)) SqliteList.stmt) (vs : list V) :
  holds self s vs →
  let n := Z.of_nat (length vs) in
  (∀ i v, (0 ≤ i < n)%Z → vs !! Z.to_nat i = Some v →
     (SqliteList.__getitem__ self (Int i) s).1
       = Ok (SqliteList.Value (SqliteList._decoder self (SqliteList._coder self v)))) ∧
  (∀ i v, (- n ≤ i < 0)%Z → vs !! Z.to_nat (n + i) = Some v →
     (SqliteList.__getitem__ self (Int i) s).1
       = Ok (SqliteList.Value (SqliteList._decoder self (SqliteList._coder self v)))) ∧
  (∀ i, (i < - n ∨ n ≤ i)%Z →
     fails_with (SqliteList.__getitem__ self (Int i) s).1 IndexOutOfRange) ∧
  (∀ type_name,
     fails_with (SqliteList.__getitem__ self (Other type_name) s).1 InvalidKeyType) ∧
  (∀ key, db (SqliteList.__getitem__ self key s).2 = db s ∧
          do_writes (SqliteList.__getitem__ self key s).2 = do_writes s).
Proof.
  intros Hh n. pose proof Hh as (t & H & D & Hs & _).
  assert ((SqliteList.__len__ self s).1 = Ok n) as Hlen.
  { unfold SqliteList.__len__. rewrite (getlen_run self s t H). cbn. unfold n.
    by rewrite Hs. }
  split; [|split; [|split; [|split]]].
  - intros i v Hi Hv. pose proof (holds_getitem self s vs _ v Hh Hv) as Hg.
    rewrite Z2Nat.id in Hg by lia. by rewrite Hg.
  - intros i v Hi Hv. rewrite (getitem_negative self s n i Hlen) by lia.
    pose proof (holds_getitem self s vs _ v Hh Hv) as Hg.
    rewrite Z2Nat.id in Hg by lia. by rewrite Hg.
  - intros i [Hi|Hi]; exists (IndexError "Sequence index out of range.");
      (split; [|done]).
    + apply (getitem_too_negative self s n); (done || lia).
    + by apply (getitem_too_large self s n).
  - intros ty. unfold SqliteList.__getitem__. unfold_m.
    rewrite (getlen_run self s t H). cbn. eexists. split; [done|].
    unfold kind_of. by case_decide.
  - intros key. unfold SqliteList.__getitem__. unfold_m.
    rewrite (getlen_run self s t H).
    destruct key as [k|start stop step|ty]; cbn.
    + repeat case_decide; cbn; try (split; [done|count_writes]).
      all: unfold execute, SqliteList.sql_value_at_min_plus, SqliteList.with_table;
        cbn; rewrite H; destruct (SqliteList.sql_min t ≫= _); cbn;
        (split; [done|count_writes]).
    + destruct (range_getslice _ _ _ _); cbn; (split; [done|count_writes]).
    + split; [done|count_writes].
Qed.

Lemma getitem_as_list_witness :
  holds text_list wxy ["w"; "x"; "y"] ∧
  (SqliteList.__getitem__ text_list (Int 0) wxy).1 = Ok (SqliteList.Value "w") ∧
  (SqliteList.__getitem__ text_list (Int (-1)) wxy).1 = Ok (SqliteList.Value "y") ∧
  fails_with (SqliteList.__getitem__ text_list (Int 3) wxy).1 IndexOutOfRange.
Proof.
  split; [exact wxy_holds|].
  pose proof (getitem_as_list text_list wxy ["w"; "x"; "y"] wxy_holds) as (H1 & H2 & H3 & _).
  split; [apply (H1 0%Z "w"); [cbn; lia|reflexivity]|].
  split; [apply (H2 (-1)%Z "y"); [cbn; lia|reflexivity]|].
  apply H3. cbn. lia.
Defined.

(** X10.  On a sequence with the contents [vs], the slice
    [(start, stop, step)] with a step that is not 0 returns after the count
    alone a generator over the subscripts [range(len(vs))[start:stop:step]];
    all of them are subscripts of [vs], and run to its end the generator
    yields [decoder(coder(vs[i]))] for each of them in turn, as the Python
    list [vs] sliced the same way; a step of 0 raises ValueError. *)
Theorem slice_as_list_slice {V} (self : SqliteList.self_t V)
    (s : conn (gmap string (gmap Z string)) SqliteList.stmt) (vs : list V)
    (start stop step : option Z) :
  holds self s vs →
  let n := Z.of_nat (length vs) in
  let s0 := record (Exec (SqliteList.SelectCount (SqliteList.table_name self))) s in
  (step = Some 0%Z →
   SqliteList.__getitem__ self (Slice start stop step) s
     = (Raise (ValueError "slice step cannot be zero"), s0)) ∧
  (step ≠ Some 0%Z →
   ∃ irange xs s',
     range_getslice n start stop step = Ok irange ∧
     SqliteList.__getitem__ self (Slice start stop step) s
       = (Ok (SqliteList.Sliced (SqliteList.Generator n irange)), s0) ∧
     Forall (λ i, 0 ≤ i < n)%Z irange ∧
     SqliteList.list_of self (SqliteList.Generator n irange) s0 = (Ok xs, s') ∧
     db s' = db s ∧
     Forall2 (λ i x, ∃ v, vs !! Z.to_nat i = Some v ∧
                x = SqliteList.Value
                      (SqliteList._decoder self (SqliteList._coder self v)))
             irange xs).
Proof.
  intros Hh n s0. unfold SqliteList.__getitem__. unfold_m.
  rewrite (holds_len self s vs Hh). fold n. fold s0. split.
  - intros ->. unfold range_getslice, slice_indices. cbn. done.
  - intros Hstep.
    destruct (range_getslice n start stop step) as [irange|e] eqn:E.
    + pose proof (range_getslice_bounds n _ _ _ irange ltac:(lia) E) as Hb.
      destruct (iterate_holds self vs irange s0 (holds_record self s vs _ Hh) Hb)
        as (xs & s' & Hrun & Hdb & _ & Hxs).
      exists irange, xs, s'. repeat split; try done.
    + exfalso. unfold range_getslice, slice_indices in E.
      destruct (decide (default 1%Z step = 0%Z)) as [Hz|]; [|done].
      destruct step as [st|]; [|done]. cbn in Hz. by subst st.
Qed.

Lemma slice_as_list_slice_witness :
  holds text_list wxy ["w"; "x"; "y"] ∧
  ∃ irange xs s',
    range_getslice 3 None None (Some (-2)%Z) = Ok irange ∧
    SqliteList.list_of text_list (SqliteList.Generator 3 irange)
      (record (Exec (SqliteList.SelectCount "list")) wxy) = (Ok xs, s') ∧
    Forall2 (λ i x, ∃ v, ["w"; "x"; "y"] !! Z.to_nat i = Some v ∧
                         x = SqliteList.Value v) irange xs.
Proof.
  split; [exact wxy_holds|].
  destruct (slice_as_list_slice text_list wxy ["w"; "x"; "y"] None None (Some (-2)%Z)
              wxy_holds) as [_ Hs].
  destruct Hs as (irange & xs & s' & Hr & _ & _ & Hl & _ & Hxs); [discriminate|].
  exists irange, xs, s'. split; [exact Hr|]. split; [exact Hl|exact Hxs].
Defined.

(** X11.  On the container without a name (table ["list"]) with the
    contents [vs], of length [n], and rowids in the 64-bit range:
    [set(i, v)] for [0 <= i < n] returns and leaves the contents [vs] with
    [vs[i]] replaced by [v]; for [-n <= i < 0] it does so for [vs[n + i]]. *)
Theorem setitem_as_list_assignment {V} (self : SqliteList.self_t V)
    (s : conn (gmap string (gmap Z string)) SqliteList.stmt) (t : gmap Z string)
    (vs : list V) (i : Z) (v : V) :
  SqliteList.table_name self = "list" →
  holds self s vs →
  db s !! "list" = Some t →
  (∀ p, is_Some (t !! p) → (SqliteList.MIN_ROWID ≤ p ≤ SqliteList.MAX_ROWID)%Z) →
  let n := Z.of_nat (length vs) in
  ((0 ≤ i < n)%Z →
   ∃ s', SqliteList.__setitem__ self (Int i) v s = (Ok tt, s') ∧
         holds self s' (<[Z.to_nat i := v]> vs)) ∧
  ((- n ≤ i < 0)%Z →
   ∃ s', SqliteList.__setitem__ self (Int i) v s = (Ok tt, s') ∧
         holds self s' (<[Z.to_nat (n + i) := v]> vs)).
Proof.
  intros Hname Hh Ht Hrange n. split; intros Hi.
  - by apply (setitem_holds_nonneg self s t).
  - pose proof Hh as (t0 & H & _ & Hs & _).
    assert (t0 = t) as -> by (rewrite Hname in H; congruence).
    rewrite (setitem_negative self s t i v H) by lia. rewrite Hs. fold n.
    apply (setitem_holds_nonneg self _ t); [done|by apply holds_record|done|done|lia].
Qed.

Lemma setitem_as_list_assignment_witness :
  SqliteList.table_name text_list = "list" ∧
  holds text_list wxy ["w"; "x"; "y"] ∧
  db wxy !! "list" = Some wxy_table ∧
  ∃ s', SqliteList.__setitem__ text_list (Int (-1)) "z" wxy = (Ok tt, s') ∧
        holds text_list s' ["w"; "x"; "z"].
Proof.
  assert (db wxy !! "list" = Some wxy_table) as Ht by (vm_compute; reflexivity).
  assert (∀ p, is_Some (wxy_table !! p) →
               (SqliteList.MIN_ROWID ≤ p ≤ SqliteList.MAX_ROWID)%Z) as Hr.
  { intros p Hp. assert (dense wxy_table) as D by (vm_compute; reflexivity).
    rewrite dense_alt in D.
    assert (SqliteList.sql_min wxy_table = Some 1%Z) as E by (vm_compute; reflexivity).
    apply (D 1%Z E) in Hp. assert (size wxy_table = 3) as Hs by (vm_compute; reflexivity).
    rewrite Hs in Hp. unfold SqliteList.MIN_ROWID, SqliteList.MAX_ROWID. lia. }
  split; [reflexivity|]. split; [exact wxy_holds|]. split; [exact Ht|].
  destruct (setitem_as_list_assignment text_list wxy wxy_table ["w"; "x"; "y"]
              (-1) "z" eq_refl wxy_holds Ht Hr) as [_ Hneg].
  destruct Hneg as (s' & Hset & Hh); [cbn; lia|].
  exists s'. split; [exact Hset|exact Hh].
Defined.

(** X12.  On every container, named or not, whose table has [n] rows:
    [set(i, v)] with [i >= n] or [i < -n] raises IndexError, and with a
    slice or another object that is not an int it raises TypeError; no row
    is written and [_do_write] is not called. *)
Theorem setitem_rejects {V} (self : SqliteList.self_t V)
    (s : conn (gmap string (gmap Z string)) SqliteList.stmt) (t : gmap Z string)
    (v : V) :
  db s !! SqliteList.table_name self = Some t →
  let n := Z.of_nat (size t) in
  (∀ i, (i < - n ∨ n ≤ i)%Z →
     fails_with (SqliteList.__setitem__ self (Int i) v s).1 IndexOutOfRange ∧
     db (SqliteList.__setitem__ self (Int i) v s).2 = db s ∧
     do_writes (SqliteList.__setitem__ self (Int i) v s).2 = do_writes s) ∧
  (∀ start stop step,
     SqliteList.__setitem__ self (Slice start stop step) v s
       = (Raise (TypeError "Key should be int, got <class 'slice'>"), s)) ∧
  (∀ type_name,
     SqliteList.__setitem__ self (Other type_name) v s
       = (Raise (TypeError ("Key should be int, got " ++ type_name)), s)).
Proof.
  intros H n. split; [|done].
  intros i Hi. destruct (setitem_out_of_range self s t i v H Hi) as (Hr & Hdb & Hw).
  split; [|done]. rewrite Hr. by eexists.
Qed.

Lemma setitem_rejects_witness :
  db named_wxy !! SqliteList.table_name named_list = Some wxy_table ∧
  fails_with (SqliteList.__setitem__ named_list (Int 3) "z" named_wxy).1 IndexOutOfRange ∧
  fails_with (SqliteList.__setitem__ named_list (Int (-4)) "z" named_wxy).1 IndexOutOfRange.
Proof.
  assert (db named_wxy !! SqliteList.table_name named_list = Some wxy_table) as H
    by (vm_compute; reflexivity).
  pose proof (setitem_rejects named_list named_wxy wxy_table "z" H) as [Hi _].
  split; [exact H|]. split.
  - apply (Hi 3%Z). right. vm_compute. discriminate.
  - apply (Hi (-4)%Z). left. vm_compute. reflexivity.
Defined.

(** ** The key/value adapter: storing, reading and removing *)

Section DictOps.
Import SqliteDict.
Context {V : Type} (self : self_t V).

Implicit Types (s : conn (gmap string string) stmt).

Lemma dict_setitem_result s k v :
  (__setitem__ self (Key k) v s).1 = Ok tt ∧
  db (__setitem__ self (Key k) v s).2 = <[_coder self k := _coder self v]> (db s) ∧
  do_writes (__setitem__ self (Key k) v s).2 = S (do_writes s).
Proof.
  rewrite dict_setitem_run.
  match goal with |- context [_do_write ?s0] =>
    destruct (do_write_run s0) as (Hr & Hdb & Hn & _) end.
  repeat split; try done. rewrite Hn. count_writes.
Qed.

Lemma dict_len_run s : __len__ s = (Ok (Z.of_nat (size (db s))), record (Exec SelectCount) s).
Proof. unfold __len__, execute. by destruct s. Qed.

Lemma dict_contains_run s k :
  (__contains__ self (Key k) s).1 = Ok (bool_decide (is_Some (db s !! _coder self k))) ∧
  db (__contains__ self (Key k) s).2 = db s ∧
  do_writes (__contains__ self (Key k) s).2 = do_writes s.
Proof.
  unfold __contains__, try_except_KeyError. unfold_m. rewrite dict_getitem_run.
  destruct (db s !! _coder self k) as [text|] eqn:E; cbn -[bool_decide].
  - split; [|split; [done|count_writes]].
    rewrite bool_decide_eq_true_2 by (by eexists). done.
  - split; [|split; [done|count_writes]].
    rewrite bool_decide_eq_false_2 by (by intros [? ?]). done.
Qed.

Lemma dict_get_run s key default :
  (get self key default s).1 =
    Ok (match key with
        | ASlice => default
        | Key k => from_option (_decoder self) default (db s !! _coder self k)
        end) ∧
  db (get self key default s).2 = db s ∧
  do_writes (get self key default s).2 = do_writes s.
Proof.
  unfold get, try_except_KeyError. destruct key as [|k]; [done|].
  rewrite dict_getitem_run.
  destruct (db s !! _coder self k); cbn; (split; [done|split; [done|count_writes]]).
Qed.
End DictOps.

(** X13.  For every map, key [k] and value [v]: [set(k, v)] returns; after
    it [get(k)] returns [decoder(coder(v))] and [k in self] is true; the
    keys with another encoding read as before; the length is one more when
    [k] was absent and the same when it was present (the row is replaced);
    [_do_write] is called once. *)
Theorem dict_set_then_get {V} (self : SqliteDict.self_t V)
    (s : conn (gmap string string) SqliteDict.stmt) (k v : V) :
  let s' := (SqliteDict.__setitem__ self (SqliteDict.Key k) v s).2 in
  (SqliteDict.__setitem__ self (SqliteDict.Key k) v s).1 = Ok tt ∧
  (SqliteDict.__getitem__ self (SqliteDict.Key k) s').1
    = Ok (SqliteDict._decoder self (SqliteDict._coder self v)) ∧
  (SqliteDict.__contains__ self (SqliteDict.Key k) s').1 = Ok true ∧
  (∀ k', SqliteDict._coder self k' ≠ SqliteDict._coder self k →
         (SqliteDict.__getitem__ self (SqliteDict.Key k') s').1
           = (SqliteDict.__getitem__ self (SqliteDict.Key k') s).1) ∧
  (SqliteDict.__len__ s').1 =
    Ok (match db s !! SqliteDict._coder self k with
        | Some _ => Z.of_nat (size (db s))
        | None => Z.of_nat (size (db s)) + 1
        end)%Z ∧
  do_writes s' = S (do_writes s).
Proof.
  intros s'. destruct (dict_setitem_result self s k v) as (Hr & Hdb & Hw).
  fold s' in Hdb, Hw. split; [done|]. split; [|split; [|split; [|split]]].
  - rewrite dict_getitem_run, Hdb, lookup_insert_eq. done.
  - destruct (dict_contains_run self s' k) as (-> & _). f_equal.
    apply bool_decide_eq_true. rewrite Hdb, lookup_insert_eq. by eexists.
  - intros k' Hne. rewrite !dict_getitem_run, Hdb. cbn.
    by rewrite lookup_insert_ne.
  - rewrite dict_len_run, Hdb. cbn. f_equal. rewrite map_size_insert.
    destruct (db s !! SqliteDict._coder self k); cbn; lia.
  - done.
Qed.

(** X14.  [get(key, default)] never raises and stores nothing: for a key
    that is present it returns the decoded value, for an absent key and for
    a slice it returns [default]. *)
Theorem dict_get_default {V} (self : SqliteDict.self_t V)
    (s : conn (gmap string string) SqliteDict.stmt) (default : V) :
  (∀ k text, db s !! SqliteDict._coder self k = Some text →
     (SqliteDict.get self (SqliteDict.Key k) default s).1
       = Ok (SqliteDict._decoder self text)) ∧
  (∀ k, db s !! SqliteDict._coder self k = None →
     (SqliteDict.get self (SqliteDict.Key k) default s).1 = Ok default) ∧
  (SqliteDict.get self SqliteDict.ASlice default s).1 = Ok default ∧
  (∀ key, db (SqliteDict.get self key default s).2 = db s ∧
          do_writes (SqliteDict.get self key default s).2 = do_writes s).
Proof.
  split; [|split; [|split]].
  - intros k text H. destruct (dict_get_run self s (SqliteDict.Key k) default) as (-> & _).
    by rewrite H.
  - intros k H. destruct (dict_get_run self s (SqliteDict.Key k) default) as (-> & _).
    by rewrite H.
  - by destruct (dict_get_run self s SqliteDict.ASlice default) as (-> & _).
  - intros key. by destruct (dict_get_run self s key default) as (_ & ? & ?).
Qed.

(** X15.  [setdefault(k, default)]: for an absent key it stores [default]
    under [k], calls [_do_write] once and returns [default] itself; for a
    present key it returns the decoded value and stores nothing; for a slice
    it raises KeyError and stores nothing. *)
Theorem dict_setdefault {V} (self : SqliteDict.self_t V)
    (s : conn (gmap string string) SqliteDict.stmt) (default : V) :
  (∀ k, db s !! SqliteDict._coder self k = None →
     (SqliteDict.setdefault self (SqliteDict.Key k) default s).1 = Ok default ∧
     db (SqliteDict.setdefault self (SqliteDict.Key k) default s).2
       = <[SqliteDict._coder self k := SqliteDict._coder self default]> (db s) ∧
     do_writes (SqliteDict.setdefault self (SqliteDict.Key k) default s).2
       = S (do_writes s)) ∧
  (∀ k text, db s !! SqliteDict._coder self k = Some text →
     (SqliteDict.setdefault self (SqliteDict.Key k) default s).1
       = Ok (SqliteDict._decoder self text) ∧
     db (SqliteDict.setdefault self (SqliteDict.Key k) default s).2 = db s ∧
     do_writes (SqliteDict.setdefault self (SqliteDict.Key k) default s).2
       = do_writes s) ∧
  (fails_with (SqliteDict.setdefault self SqliteDict.ASlice default s).1 InvalidKeyType ∧
   db (SqliteDict.setdefault self SqliteDict.ASlice default s).2 = db s).
Proof.
  split; [|split].
  - intros k H. unfold SqliteDict.setdefault, try_except_KeyError.
    rewrite dict_getitem_run, H. unfold_m.
    destruct (dict_setitem_result self
                (record (Exec (SqliteDict.SelectValueByKey (SqliteDict._coder self k))) s)
                k default) as (Hr & Hdb & Hw).
    destruct (SqliteDict.__setitem__ _ _ _ _) as [r s1]. cbn [fst snd] in Hr, Hdb, Hw.
    subst r. cbn -[do_writes].
    split; [done|]. split; [done|]. rewrite Hw. count_writes.
  - intros k text H. unfold SqliteDict.setdefault, try_except_KeyError.
    rewrite dict_getitem_run, H. cbn. split; [done|]. split; [done|]. count_writes.
  - split; [|done]. eexists. split; [reflexivity|done].
Qed.

(** X16.  For a key [k] present in the map with the stored text [text],
    [pop(k, d)] returns [decoder(text)]; afterwards [k] is no member, the
    keys with another encoding read as before, the length is one less and
    [_do_write] was called once. *)
Theorem dict_pop_present {V} (self : SqliteDict.self_t V)
    (s : conn (gmap string string) SqliteDict.stmt) (k d : V) (text : string) :
  db s !! SqliteDict._coder self k = Some text →
  let s' := (SqliteDict.pop self (SqliteDict.Key k) d s).2 in
  (SqliteDict.pop self (SqliteDict.Key k) d s).1 = Ok (SqliteDict._decoder self text) ∧
  (SqliteDict.__contains__ self (SqliteDict.Key k) s').1 = Ok false ∧
  (∀ k', SqliteDict._coder self k' ≠ SqliteDict._coder self k →
         (SqliteDict.__getitem__ self (SqliteDict.Key k') s').1
           = (SqliteDict.__getitem__ self (SqliteDict.Key k') s).1) ∧
  (SqliteDict.__len__ s').1 = Ok (Z.of_nat (size (db s)) - 1)%Z ∧
  do_writes s' = S (do_writes s).
Proof.
  intros H s'.
  assert ((SqliteDict.pop self (SqliteDict.Key k) d s).1
            = Ok (SqliteDict._decoder self text) ∧
          db s' = delete (SqliteDict._coder self k) (db s) ∧
          do_writes s' = S (do_writes s)) as (Hr & Hdb & Hw).
  { unfold s', SqliteDict.pop. unfold_m. rewrite dict_getitem_run, H.
    destruct (dict_delitem_result self
                (record (Exec (SqliteDict.SelectValueByKey (SqliteDict._coder self k))) s)
                k) as (Hr & Hdb & Hw).
    destruct (SqliteDict.__delitem__ _ _ _) as [r s1]. cbn [fst snd] in Hr, Hdb, Hw.
    subst r. cbn -[do_writes].
    split; [done|]. split; [done|]. rewrite Hw. count_writes. }
  split; [done|]. split; [|split; [|split]].
  - destruct (dict_contains_run self s' k) as (-> & _). f_equal.
    apply bool_decide_eq_false. rewrite Hdb, lookup_delete_eq. by intros [? ?].
  - intros k' Hne. rewrite !dict_getitem_run, Hdb. cbn. by rewrite lookup_delete_ne.
  - rewrite dict_len_run, Hdb. cbn. f_equal.
    rewrite map_size_delete_Some by by eexists.
    assert (size (db s) ≠ 0); [|lia].
    intros H0. apply map_size_empty_inv in H0. by rewrite H0, lookup_empty in H.
  - done.
Qed.

Lemma dict_pop_present_witness :
  let s := (SqliteDict.__setitem__ text_dict (SqliteDict.Key "a") "1" empty_dict).2 in
  db s !! SqliteDict._coder text_dict "a" = Some "1" ∧
  (SqliteDict.pop text_dict (SqliteDict.Key "a") "d" s).1 = Ok "1" ∧
  (SqliteDict.__len__ (SqliteDict.pop text_dict (SqliteDict.Key "a") "d" s).2).1 = Ok 0%Z.
Proof.
  intros s.
  assert (db s !! SqliteDict._coder text_dict "a" = Some "1") as H by reflexivity.
  pose proof (dict_pop_present text_dict s "a" "d" "1" H) as (Hr & _ & _ & Hl & _).
  split; [exact H|]. split; [exact Hr|]. rewrite Hl. reflexivity.
Defined.

(** X17.  Whatever row the engine's scan yields first (the scan lists the
    rows of the table), and provided [coder(decoder(key)) = key] for every
    stored key: on a map with rows [popitem()] returns the decoded key and
    value of one row, removes that row, leaves the length one less and calls
    [_do_write] once; on a map without rows it raises the KeyError that
    stands for EmptyContainer, stores nothing and does not call
    [_do_write]. *)
Theorem dict_popitem {V} (scan : gmap string string → list (string * string))
    (self : SqliteDict.self_t V) (s : conn (gmap string string) SqliteDict.stmt) :
  (∀ t k v, (k, v) ∈ scan t ↔ t !! k = Some v) →
  (∀ k, is_Some (db s !! k) →
        SqliteDict._coder self (SqliteDict._decoder self k) = k) →
  (db s = ∅ →
   fails_with (SqliteDict.popitem scan self s).1 EmptyContainer ∧
   db (SqliteDict.popitem scan self s).2 = db s ∧
   do_writes (SqliteDict.popitem scan self s).2 = do_writes s) ∧
  (db s ≠ ∅ →
   ∃ k v s',
     SqliteDict.popitem scan self s
       = (Ok (SqliteDict._decoder self k, SqliteDict._decoder self v), s') ∧
     db s !! k = Some v ∧
     db s' = delete k (db s) ∧
     (SqliteDict.__len__ s').1 = Ok (Z.of_nat (size (db s)) - 1)%Z ∧
     do_writes s' = S (do_writes s)).
Proof.
  intros Hscan Hrt. split.
  - intros He. unfold SqliteDict.popitem, execute. unfold_m.
    assert (scan (db s) = []) as ->.
    { destruct (scan (db s)) as [|[k v] rest] eqn:Es; [done|].
      assert ((k, v) ∈ scan (db s)) as Hin by (rewrite Es; apply list_elem_of_here).
      apply Hscan in Hin. by rewrite He, lookup_empty in Hin. }
    cbn. split; [by eexists|]. split; [done|count_writes].
  - intros Hne. destruct (scan (db s)) as [|[k v] rest] eqn:Es.
    { exfalso. apply Hne. apply map_eq. intros k. rewrite lookup_empty.
      destruct (db s !! k) as [v|] eqn:E; [|done].
      apply Hscan in E. rewrite Es in E. by apply elem_of_nil in E. }
    assert (db s !! k = Some v) as Hk.
    { apply Hscan. rewrite Es. apply list_elem_of_here. }
    unfold SqliteDict.popitem, execute. unfold_m. rewrite Es.
    cbn -[SqliteDict.__delitem__ SqliteDict.__len__ do_writes].
    match goal with |- context [SqliteDict.__delitem__ self (SqliteDict.Key ?k0) ?s0] =>
      destruct (dict_delitem_result self s0 k0) as (Hr & Hdb & Hn);
      destruct (SqliteDict.__delitem__ self (SqliteDict.Key k0) s0) as [r s1] end.
    cbn [fst snd] in Hr, Hdb, Hn. subst r.
    rewrite (Hrt k) in Hdb by by eexists.
    exists k, v, s1. split; [done|]. split; [done|]. split; [done|]. split.
    + rewrite dict_len_run, Hdb. cbn. f_equal.
      rewrite map_size_delete_Some by by eexists.
      assert (size (db s) ≠ 0); [|lia].
      intros H0. by apply map_size_empty_inv in H0.
    + rewrite Hn. count_writes.
Qed.

Lemma dict_popitem_witness :
  let s := (SqliteDict.__setitem__ text_dict (SqliteDict.Key "a") "1" empty_dict).2 in
  (∀ (t : gmap string string) k v, (k, v) ∈ map_to_list t ↔ t !! k = Some v) ∧
  (∀ k, is_Some (db s !! k) → SqliteDict._coder text_dict (SqliteDict._decoder text_dict k) = k) ∧
  ∃ k v s', SqliteDict.popitem map_to_list text_dict s = (Ok (k, v), s') ∧
            (SqliteDict.__len__ s').1 = Ok (1 - 1)%Z.
Proof.
  intros s.
  assert (∀ (t : gmap string string) k v, (k, v) ∈ map_to_list t ↔ t !! k = Some v) as H1
    by (intros; apply elem_of_map_to_list).
  assert (∀ k, is_Some (db s !! k) →
               SqliteDict._coder text_dict (SqliteDict._decoder text_dict k) = k) as H2
    by reflexivity.
  split; [exact H1|]. split; [exact H2|].
  destruct (dict_popitem map_to_list text_dict s H1 H2) as [_ Hp].
  destruct Hp as (k & v & s' & Hpop & _ & _ & Hlen & _).
  { intros He. assert (db s !! "a" = Some "1") as Ha by reflexivity.
    by rewrite He, lookup_empty in Ha. }
  exists k, v, s'. split; [exact Hpop|exact Hlen].
Defined.

(** ** The key/value adapter: [update] *)

Section DictUpdate.
Import SqliteDict.
Context {V : Type} (self : self_t V).

Implicit Types (s : conn (gmap string string) stmt) (pairs : list (V * V)).

Lemma update_app o1 o2 s :
  update self (o1 ++ o2) s =
    match update self o1 s with
    | (Ok _, s1) => update self o2 s1
    | (Raise e, s1) => (Raise e, s1)
    end.
Proof.
  revert s. induction o1 as [|[key value] o1 IH]; intros s; cbn [app update]; [done|].
  unfold_m. destruct (__setitem__ self key value s) as [[[]|e] s1]; [|done].
  apply IH.
Qed.

Lemma update_keys_run pairs : ∀ s,
  ∃ s', update self (prod_map Key id <$> pairs) s = (Ok tt, s') ∧
        db s' = foldl (λ t p, <[_coder self p.1 := _coder self p.2]> t) (db s) pairs ∧
        do_writes s' = do_writes s + length pairs.
Proof.
  induction pairs as [|[k v] pairs IH]; intros s.
  - exists s. repeat split; cbn; (done || lia).
  - cbn [fmap list_fmap prod_map update fst snd id]. unfold_m.
    destruct (dict_setitem_result self s k v) as (Hr & Hdb & Hw).
    destruct (__setitem__ self (Key k) v s) as [r s1]. cbn [fst snd] in Hr, Hdb, Hw.
    subst r. destruct (IH s1) as (s' & Hu & Hdb' & Hw').
    exists s'. split; [done|]. split.
    + rewrite Hdb', Hdb. done.
    + rewrite Hw', Hw. cbn. lia.
Qed.

Lemma foldl_insert_other pairs : ∀ (t : gmap string string) c,
  c ∉ (λ p, _coder self p.1) <$> pairs →
  foldl (λ t p, <[_coder self p.1 := _coder self p.2]> t) t pairs !! c = t !! c.
Proof.
  induction pairs as [|[k v] pairs IH]; intros t c Hc; [done|].
  cbn in *. apply not_elem_of_cons in Hc as [Hne Hc].
  rewrite IH by done. by rewrite lookup_insert_ne.
Qed.

Lemma foldl_insert_last l1 k v l2 (t : gmap string string) :
  (∀ p, p ∈ l2 → _coder self p.1 ≠ _coder self k) →
  foldl (λ t p, <[_coder self p.1 := _coder self p.2]> t) t (l1 ++ (k, v) :: l2)
    !! _coder self k = Some (_coder self v).
Proof.
  intros Hl2. rewrite foldl_app. cbn. rewrite foldl_insert_other.
  - apply lookup_insert_eq.
  - intros (p & Hp & Hin)%list_elem_of_fmap. by apply (Hl2 p).
Qed.
End DictUpdate.

(** X18.  [update(other)] for the pairs [pairs] of a mapping or a list,
    called without keyword arguments: it returns and calls [_do_write] once
    per pair; afterwards a key given in [pairs] reads as the value of its
    last pair (the last writer wins), and a key whose encoding is not among
    those of [pairs] reads as before.  If a pair with a slice as key follows
    the pairs [l1], [update] raises KeyError there, and the pairs of [l1]
    stay stored. *)
Theorem dict_update {V} (self : SqliteDict.self_t V)
    (s : conn (gmap string string) SqliteDict.stmt) (pairs : list (V * V)) :
  let after := SqliteDict.update self (prod_map SqliteDict.Key id <$> pairs) s in
  after.1 = Ok tt ∧
  do_writes after.2 = do_writes s + length pairs ∧
  (∀ l1 k v l2, pairs = l1 ++ (k, v) :: l2 →
     (∀ p, p ∈ l2 → SqliteDict._coder self p.1 ≠ SqliteDict._coder self k) →
     (SqliteDict.__getitem__ self (SqliteDict.Key k) after.2).1
       = Ok (SqliteDict._decoder self (SqliteDict._coder self v))) ∧
  (∀ k, (∀ p, p ∈ pairs → SqliteDict._coder self p.1 ≠ SqliteDict._coder self k) →
     (SqliteDict.__getitem__ self (SqliteDict.Key k) after.2).1
       = (SqliteDict.__getitem__ self (SqliteDict.Key k) s).1) ∧
  (∀ w rest,
     let stopped :=
       SqliteDict.update self
         ((prod_map SqliteDict.Key id <$> pairs) ++ (SqliteDict.ASlice, w) :: rest) s in
     fails_with stopped.1 InvalidKeyType ∧ db stopped.2 = db after.2).
Proof.
  intros after. destruct (update_keys_run self pairs s) as (s' & Hu & Hdb & Hw).
  unfold after. rewrite Hu. cbn [fst snd]. split; [done|]. split; [done|].
  split; [|split].
  - intros l1 k v l2 -> Hl2. rewrite dict_getitem_run, Hdb. cbn.
    by rewrite foldl_insert_last.
  - intros k Hk. rewrite !dict_getitem_run, Hdb. cbn.
    rewrite foldl_insert_other; [done|].
    intros (p & Hp & Hin)%list_elem_of_fmap. by apply (Hk p).
  - intros w rest. rewrite update_app, Hu. cbn.
    split; [|done]. by eexists.
Qed.

(** ** The key/value adapter: the views *)

Section RelabelRun.
Context {DB Q Q' A : Type} (f : Q → Q') (m : M DB Q A).

(** The connection a relabelled method runs on. *)
Lemma relabel_run (s : conn DB Q') :
  let s0 := Conn (db s) (in_txn s) (commit_every s) (pending s) (commits s) [] in
  (relabel f m s).1 = (m s0).1 ∧ db (relabel f m s).2 = db (m s0).2.
Proof. intros s0. unfold relabel. fold s0. by destruct (m s0). Qed.
End RelabelRun.

Section DictViews.
Import SqliteDict.
Context {V : Type} (self : self_t V).

Implicit Types (s : conn (gmap string string) query).

Lemma value_in_table (t : gmap string string) c :
  c ∈ (map_to_list t).*2 ↔ ∃ k, t !! k = Some c.
Proof.
  rewrite list_elem_of_fmap. split.
  - intros ([k c'] & -> & Hin). exists k. by apply elem_of_map_to_list.
  - intros (k & Hk). exists (k, c). split; [done|]. by apply elem_of_map_to_list.
Qed.

Lemma views_after_setitem s k v :
  let s1 := (relabel Stmt (__setitem__ self (Key k) v) s).2 in
  (KeyView__contains__ self k s1).1 = Ok true ∧
  (ItemView__contains__ self (k, v) s1).1 = Ok true ∧
  (ValueView__contains__ self v s1).1 = Ok true.
Proof.
  intros s1.
  assert (db s1 !! _coder self k = Some (_coder self v)) as Hk.
  { unfold s1. destruct (relabel_run Stmt (__setitem__ self (Key k) v) s) as [_ ->].
    match goal with |- context [__setitem__ self (Key k) v ?s0] =>
      destruct (dict_setitem_result self s0 k v) as (_ & -> & _) end.
    apply lookup_insert_eq. }
  unfold KeyView__contains__, ItemView__contains__, ValueView__contains__, execute.
  cbn -[bool_decide]. split; [|split]; f_equal; apply bool_decide_eq_true_2.
  - by eexists.
  - done.
  - apply value_in_table. by eexists.
Qed.

Lemma views_after_delitem s k :
  let s2 := (relabel Stmt (__delitem__ self (Key k)) s).2 in
  (KeyView__contains__ self k s2).1 = Ok false ∧
  ∀ w, (ItemView__contains__ self (k, w) s2).1 = Ok false.
Proof.
  intros s2.
  assert (db s2 !! _coder self k = None) as Hk.
  { unfold s2. destruct (relabel_run Stmt (__delitem__ self (Key k)) s) as [_ ->].
    match goal with |- context [__delitem__ self (Key k) ?s0] =>
      destruct (dict_delitem_result self s0 k) as (_ & -> & _) end.
    apply lookup_delete_eq. }
  unfold KeyView__contains__, ItemView__contains__, execute.
  cbn -[bool_decide]. split; [|intros w]; f_equal; apply bool_decide_eq_false_2.
  - rewrite Hk. by intros [? ?].
  - by rewrite Hk.
Qed.

Lemma views_agree s k v :
  (KeyView__contains__ self k s).1 = (relabel Stmt (__contains__ self (Key k)) s).1 ∧
  ((ItemView__contains__ self (k, v) s).1 = Ok true →
   (KeyView__contains__ self k s).1 = Ok true ∧
   (ValueView__contains__ self v s).1 = Ok true ∧
   (relabel Stmt (__getitem__ self (Key k)) s).1
     = Ok (_decoder self (_coder self v))).
Proof.
  split.
  - destruct (relabel_run Stmt (__contains__ self (Key k)) s) as [-> _].
    match goal with |- context [__contains__ self (Key k) ?s0] =>
      destruct (dict_contains_run self s0 k) as (-> & _) end.
    done.
  - destruct (relabel_run Stmt (__getitem__ self (Key k)) s) as [-> _].
    rewrite dict_getitem_run.
    unfold KeyView__contains__, ItemView__contains__, ValueView__contains__, execute.
    cbn -[bool_decide]. intros [= Hi%bool_decide_eq_true_1]. rewrite Hi.
    split; [|split; [|done]]; f_equal; apply bool_decide_eq_true_2;
      try (by eexists).
    apply value_in_table. by eexists.
Qed.
End DictViews.

(** X19.  Membership in the three views.  [k in d.keys()] answers as
    [k in d]; if [(k, v) in d.items()] holds then so do [k in d.keys()] and
    [v in d.values()], and [d[k]] is the stored form of [v].  After
    [d[k] = v] the three tests on [k], [(k, v)] and [v] are true; after
    [del d[k]] the key and every item of that key are gone.  The three tests
    store nothing. *)
Theorem dict_views_membership {V} (self : SqliteDict.self_t V)
    (s : conn (gmap string string) SqliteDict.query) (k v : V) :
  (SqliteDict.KeyView__contains__ self k s).1
    = (relabel SqliteDict.Stmt (SqliteDict.__contains__ self (SqliteDict.Key k)) s).1 ∧
  ((SqliteDict.ItemView__contains__ self (k, v) s).1 = Ok true →
   (SqliteDict.KeyView__contains__ self k s).1 = Ok true ∧
   (SqliteDict.ValueView__contains__ self v s).1 = Ok true ∧
   (relabel SqliteDict.Stmt (SqliteDict.__getitem__ self (SqliteDict.Key k)) s).1
     = Ok (SqliteDict._decoder self (SqliteDict._coder self v))) ∧
  (let s1 := (relabel SqliteDict.Stmt
                (SqliteDict.__setitem__ self (SqliteDict.Key k) v) s).2 in
   (SqliteDict.KeyView__contains__ self k s1).1 = Ok true ∧
   (SqliteDict.ItemView__contains__ self (k, v) s1).1 = Ok true ∧
   (SqliteDict.ValueView__contains__ self v s1).1 = Ok true) ∧
  (let s2 := (relabel SqliteDict.Stmt
                (SqliteDict.__delitem__ self (SqliteDict.Key k)) s).2 in
   (SqliteDict.KeyView__contains__ self k s2).1 = Ok false ∧
   ∀ w, (SqliteDict.ItemView__contains__ self (k, w) s2).1 = Ok false) ∧
  db (SqliteDict.KeyView__contains__ self k s).2 = db s ∧
  db (SqliteDict.ItemView__contains__ self (k, v) s).2 = db s ∧
  db (SqliteDict.ValueView__contains__ self v s).2 = db s.
Proof.
  destruct (views_agree self s k v) as [H1 H2].
  split; [exact H1|]. split; [exact H2|].
  split; [apply views_after_setitem|]. split; [apply views_after_delitem|].
  done.
Qed.

(** ** The key/value adapter: iteration *)

Section DictIterate.
Import SqliteDict.
Context {V : Type} (self : self_t V).
Context (scan_keys scan_values : gmap string string → list string).
Context (scan_items : gmap string string → list (string * string)).

Implicit Types (s : conn (gmap string string) query).

Lemma dict_iterate_run s :
  (∀ t, scan_keys t ≡ₚ (map_to_list t).*1) →
  (∀ t, scan_items t ≡ₚ map_to_list t) →
  (∀ t, scan_values t ≡ₚ (map_to_list t).*2) →
  (∀ c, is_Some (db s !! c) → _coder self (_decoder self c) = c) →
  ∃ ks its vs,
    (__iter__ scan_keys self s).1 = Ok ks ∧
    (KeyView__iter__ scan_keys self s).1 = Ok ks ∧
    (ItemView__iter__ scan_items self s).1 = Ok its ∧
    (ValueView__iter__ scan_values self s).1 = Ok vs ∧
    (relabel Stmt __len__ s).1 = Ok (Z.of_nat (length ks)) ∧
    its.*1 ≡ₚ ks ∧ its.*2 ≡ₚ vs ∧
    (∀ k v, (k, v) ∈ its → (relabel Stmt (__getitem__ self (Key k)) s).1 = Ok v) ∧
    (∀ k, k ∈ ks → (KeyView__contains__ self k s).1 = Ok true) ∧
    (∀ k, (KeyView__contains__ self k s).1 = Ok true →
          _decoder self (_coder self k) ∈ ks).
Proof.
  intros Hk Hi Hv Hrt.
  exists (_decoder self <$> scan_keys (db s)),
         ((λ row, (_decoder self row.1, _decoder self row.2)) <$> scan_items (db s)),
         (_decoder self <$> scan_values (db s)).
  split; [done|]. split; [done|]. split; [done|]. split; [done|]. split.
  { destruct (relabel_run Stmt __len__ s) as [-> _]. rewrite dict_len_run. cbn.
    by rewrite length_fmap, Hk, length_fmap, length_map_to_list. }
  split.
  { rewrite <- list_fmap_compose, Hk, Hi, <- list_fmap_compose. done. }
  split.
  { rewrite <- list_fmap_compose, Hv, Hi, <- list_fmap_compose. done. }
  split; [|split].
  - intros k v ([c cv] & [= -> ->] & Hin)%list_elem_of_fmap.
    rewrite Hi in Hin. apply elem_of_map_to_list in Hin. cbn [fst snd].
    destruct (relabel_run Stmt (__getitem__ self (Key (_decoder self c))) s) as [-> _].
    rewrite dict_getitem_run. cbn [fst db].
    rewrite (Hrt c) by (by eexists). by rewrite Hin.
  - intros k (c & -> & Hin)%list_elem_of_fmap.
    rewrite Hk in Hin. apply list_elem_of_fmap in Hin as ([c' cv] & -> & Hin).
    apply elem_of_map_to_list in Hin. cbn [fst] in *.
    unfold KeyView__contains__, execute. cbn -[bool_decide]. f_equal.
    apply bool_decide_eq_true_2. rewrite (Hrt c') by (by eexists). by eexists.
  - unfold KeyView__contains__, execute. cbn -[bool_decide].
    intros k [= [cv Hc]%bool_decide_eq_true_1].
    apply list_elem_of_fmap. exists (_coder self k). split; [done|].
    rewrite Hk. apply list_elem_of_fmap. exists (_coder self k, cv).
    split; [done|]. by apply elem_of_map_to_list.
Qed.
End DictIterate.

(** X20.  Iterating a dict and its views, in whatever order the engine
    lists the rows for each of the three statements (each a listing of the
    rows of the table), and provided [coder(decoder(key)) = key] for every
    stored key: [list(d)] and [list(d.keys())] are the same list, with
    [len(d)] keys; the keys of [list(d.items())] are those of
    [list(d.keys())] and its values those of [list(d.values())], up to the
    order; every pair [(k, v)] of [d.items()] has [d[k] == v]; every key
    listed is [in d.keys()], and a key that is [in d.keys()] is listed in
    its decoded stored form. *)
Theorem dict_views_iterate {V} (self : SqliteDict.self_t V)
    (scan_keys scan_values : gmap string string → list string)
    (scan_items : gmap string string → list (string * string))
    (s : conn (gmap string string) SqliteDict.query) :
  (∀ t, scan_keys t ≡ₚ (map_to_list t).*1) →
  (∀ t, scan_items t ≡ₚ map_to_list t) →
  (∀ t, scan_values t ≡ₚ (map_to_list t).*2) →
  (∀ c, is_Some (db s !! c) →
        SqliteDict._coder self (SqliteDict._decoder self c) = c) →
  ∃ ks its vs,
    (SqliteDict.__iter__ scan_keys self s).1 = Ok ks ∧
    (SqliteDict.KeyView__iter__ scan_keys self s).1 = Ok ks ∧
    (SqliteDict.ItemView__iter__ scan_items self s).1 = Ok its ∧
    (SqliteDict.ValueView__iter__ scan_values self s).1 = Ok vs ∧
    (relabel SqliteDict.Stmt SqliteDict.__len__ s).1 = Ok (Z.of_nat (length ks)) ∧
    its.*1 ≡ₚ ks ∧ its.*2 ≡ₚ vs ∧
    (∀ k v, (k, v) ∈ its →
       (relabel SqliteDict.Stmt (SqliteDict.__getitem__ self (SqliteDict.Key k)) s).1
         = Ok v) ∧
    (∀ k, k ∈ ks → (SqliteDict.KeyView__contains__ self k s).1 = Ok true) ∧
    (∀ k, (SqliteDict.KeyView__contains__ self k s).1 = Ok true →
          SqliteDict._decoder self (SqliteDict._coder self k) ∈ ks).
Proof. apply dict_iterate_run. Qed.

Lemma dict_views_iterate_witness :
  let s := (relabel SqliteDict.Stmt
              (SqliteDict.__setitem__ text_dict (SqliteDict.Key "a") "1")
              (fresh ∅ 0)).2 in
  (∀ t : gmap string string, (map_to_list t).*1 ≡ₚ (map_to_list t).*1) ∧
  (∀ t : gmap string string, map_to_list t ≡ₚ map_to_list t) ∧
  (∀ t : gmap string string, (map_to_list t).*2 ≡ₚ (map_to_list t).*2) ∧
  (∀ c, is_Some (db s !! c) →
        SqliteDict._coder text_dict (SqliteDict._decoder text_dict c) = c) ∧
  ∃ ks its vs,
    (SqliteDict.KeyView__iter__ (λ t, (map_to_list t).*1) text_dict s).1 = Ok ks ∧
    (SqliteDict.ItemView__iter__ map_to_list text_dict s).1 = Ok its ∧
    (SqliteDict.ValueView__iter__ (λ t, (map_to_list t).*2) text_dict s).1 = Ok vs ∧
    its.*1 ≡ₚ ks ∧ its.*2 ≡ₚ vs.
Proof.
  intros s.
  assert (∀ t : gmap string string, (map_to_list t).*1 ≡ₚ (map_to_list t).*1) as H1
    by reflexivity.
  assert (∀ t : gmap string string, map_to_list t ≡ₚ map_to_list t) as H2 by reflexivity.
  assert (∀ t : gmap string string, (map_to_list t).*2 ≡ₚ (map_to_list t).*2) as H3
    by reflexivity.
  assert (∀ c, is_Some (db s !! c) →
               SqliteDict._coder text_dict (SqliteDict._decoder text_dict c) = c) as H4
    by reflexivity.
  split; [exact H1|]. split; [exact H2|]. split; [exact H3|]. split; [exact H4|].
  destruct (dict_views_iterate text_dict (λ t, (map_to_list t).*1)
              (λ t, (map_to_list t).*2) map_to_list s H1 H2 H3 H4)
    as (ks & its & vs & _ & Hks & Hits & Hvs & _ & Hp1 & Hp2 & _).
  exists ks, its, vs.
  split; [exact Hks|]. split; [exact Hits|]. split; [exact Hvs|].
  split; [exact Hp1|exact Hp2].
Defined.

(** ** The set adapter: adding and removing *)

Section SetOps.
Import SqliteSet.
Context {V : Type} (self : self_t V).

Implicit Types (s : conn (gset string) stmt).

Lemma set_add_result s x :
  (add self x s).1 = Ok tt ∧
  db (add self x s).2 = {[_coder self x]} ∪ db s ∧
  do_writes (add self x s).2 = S (do_writes s).
Proof.
  unfold add, _add, execute. unfold_m. cbn.
  match goal with |- context [_do_write ?s0] =>
    destruct (do_write_run s0) as (Hr & Hdb & Hn & _) end.
  split; [done|]. split; [done|]. rewrite Hn. count_writes.
Qed.

Lemma set_contains_run s x :
  (__contains__ self x s).1 = Ok (bool_decide (_coder self x ∈ db s)).
Proof. unfold __contains__. by rewrite set_has_run. Qed.

Lemma set_remove_present s x :
  _coder self x ∈ db s →
  (remove self x s).1 = Ok tt ∧
  db (remove self x s).2 = db s ∖ {[_coder self x]} ∧
  do_writes (remove self x s).2 = S (do_writes s).
Proof.
  intros Hin. unfold remove, _remove. unfold_m. rewrite set_has_run.
  rewrite bool_decide_eq_true_2 by done.
  unfold _discard, execute. cbn.
  match goal with |- context [_do_write ?s0] =>
    destruct (do_write_run s0) as (Hr & Hdb & Hn & _) end.
  split; [done|]. split; [done|]. rewrite Hn. count_writes.
Qed.

Lemma set_remove_absent s x :
  _coder self x ∉ db s →
  fails_with (remove self x s).1 KeyNotFound ∧
  db (remove self x s).2 = db s ∧
  do_writes (remove self x s).2 = do_writes s.
Proof.
  intros Hin. unfold remove, _remove. unfold_m. rewrite set_has_run.
  rewrite bool_decide_eq_false_2 by done. cbn.
  split; [by eexists|]. split; [done|count_writes].
Qed.

Lemma set_update_run items : ∀ s,
  ∃ s', update self items s = (Ok tt, s') ∧
        db s' = list_to_set (_coder self <$> items) ∪ db s ∧
        do_writes s' = do_writes s + length items.
Proof.
  induction items as [|x items IH]; intros s.
  - exists s. split; [done|]. split; [|cbn; lia]. cbn. by rewrite (left_id_L ∅ (∪)).
  - cbn [update]. unfold_m.
    destruct (set_add_result s x) as (Hr & Hdb & Hw).
    destruct (add self x s) as [r s1]. cbn [fst snd] in Hr, Hdb, Hw. subst r.
    destruct (IH s1) as (s' & Hu & Hdb' & Hw').
    exists s'. split; [done|]. split.
    + rewrite Hdb', Hdb. cbn. apply set_eq. intros y. rewrite !elem_of_union. tauto.
    + rewrite Hw', Hw. cbn. lia.
Qed.

Lemma size_list_to_set_le (l : list string) :
  size (list_to_set (C := gset string) l) ≤ length l.
Proof.
  induction l as [|c l IH]; cbn; [by rewrite size_empty|].
  rewrite size_union_alt, size_singleton.
  assert (size (list_to_set (C := gset string) l ∖ {[c]}) ≤ size (list_to_set (C := gset string) l));
    [|lia].
  apply subseteq_size. intros y [Hy _]%elem_of_difference. exact Hy.
Qed.

Lemma size_union_bounds (X Y : gset string) :
  size Y ≤ size (X ∪ Y) ≤ size X + size Y.
Proof.
  split.
  - apply subseteq_size. intros y Hy. by apply elem_of_union_r.
  - rewrite size_union_alt.
    assert (size (Y ∖ X) ≤ size Y); [|lia].
    apply subseteq_size. intros y [Hy _]%elem_of_difference. exact Hy.
Qed.
End SetOps.

(** X21.  [add(x)] returns and calls [_do_write] once; afterwards [x] is a
    member, the membership of every element with another encoding is as
    before, and the length has grown by one if [x] was no member and is the
    same if it was one.  A second [add(x)] leaves the rows as the first one
    left them. *)
Theorem set_add {V} (self : SqliteSet.self_t V)
    (s : conn (gset string) SqliteSet.stmt) (x : V) :
  let once := (SqliteSet.add self x s).2 in
  (SqliteSet.add self x s).1 = Ok tt ∧
  do_writes once = S (do_writes s) ∧
  (SqliteSet.__contains__ self x once).1 = Ok true ∧
  (∀ y, SqliteSet._coder self y ≠ SqliteSet._coder self x →
        (SqliteSet.__contains__ self y once).1 = (SqliteSet.__contains__ self y s).1) ∧
  (SqliteSet.__len__ once).1 =
    Ok (if bool_decide (SqliteSet._coder self x ∈ db s)
        then Z.of_nat (size (db s)) else Z.of_nat (size (db s)) + 1)%Z ∧
  db (SqliteSet.add self x once).2 = db once.
Proof.
  intros once.
  destruct (set_add_result self s x) as (Hr & Hdb & Hw). fold once in Hdb, Hw.
  destruct (set_add_result self once x) as (_ & Hdb2 & _).
  split; [done|]. split; [done|]. split; [|split; [|split]].
  - rewrite set_contains_run, Hdb. f_equal. apply bool_decide_eq_true_2.
    by apply elem_of_union_l, elem_of_singleton.
  - intros y Hne. rewrite !set_contains_run, Hdb. f_equal. apply bool_decide_ext.
    rewrite elem_of_union, elem_of_singleton. tauto.
  - rewrite set_len_run, Hdb. cbn -[bool_decide]. f_equal. case_bool_decide as Hin.
    + replace ({[SqliteSet._coder self x]} ∪ db s) with (db s); [done|].
      symmetry. apply subseteq_union_1_L. by apply singleton_subseteq_l.
    + rewrite size_union by (by apply disjoint_singleton_l).
      rewrite size_singleton. lia.
  - rewrite Hdb2, Hdb. apply set_eq. intros y. rewrite !elem_of_union. tauto.
Qed.

(** X22.  [remove(x)] of a member returns, calls [_do_write] once, leaves
    [x] no member, the other memberships as they were and the length one
    less.  [remove(x)] of a value that is no member raises the KeyError that
    stands for KeyNotFound, removes nothing and does not call [_do_write]. *)
Theorem set_remove {V} (self : SqliteSet.self_t V)
    (s : conn (gset string) SqliteSet.stmt) (x : V) :
  let after := (SqliteSet.remove self x s).2 in
  ((SqliteSet.__contains__ self x s).1 = Ok true →
   (SqliteSet.remove self x s).1 = Ok tt ∧
   do_writes after = S (do_writes s) ∧
   (SqliteSet.__contains__ self x after).1 = Ok false ∧
   (∀ y, SqliteSet._coder self y ≠ SqliteSet._coder self x →
         (SqliteSet.__contains__ self y after).1 = (SqliteSet.__contains__ self y s).1) ∧
   (SqliteSet.__len__ after).1 = Ok (Z.of_nat (size (db s)) - 1)%Z) ∧
  ((SqliteSet.__contains__ self x s).1 = Ok false →
   fails_with (SqliteSet.remove self x s).1 KeyNotFound ∧
   db after = db s ∧
   do_writes after = do_writes s).
Proof.
  intros after. rewrite set_contains_run. split.
  - intros [= Hin%bool_decide_eq_true_1].
    destruct (set_remove_present self s x Hin) as (Hr & Hdb & Hw). fold after in Hdb, Hw.
    split; [done|]. split; [done|]. split; [|split].
    + rewrite set_contains_run, Hdb. f_equal. apply bool_decide_eq_false_2.
      rewrite elem_of_difference, elem_of_singleton. tauto.
    + intros y Hne. rewrite !set_contains_run, Hdb. f_equal. apply bool_decide_ext.
      rewrite elem_of_difference, elem_of_singleton. tauto.
    + rewrite set_len_run, Hdb. cbn. f_equal.
      rewrite size_difference by (by apply singleton_subseteq_l).
      rewrite size_singleton.
      assert (size (db s) ≠ 0); [|lia].
      intros H0. apply size_empty_inv in H0.
      apply (not_elem_of_empty (C := gset string) (SqliteSet._coder self x)).
      by rewrite <- H0.
  - intros [= Hin%bool_decide_eq_false_1].
    apply (set_remove_absent self s x Hin).
Qed.

(** X23.  [update(other)] for the items [items] of a collection: it
    returns and calls [_do_write] once per item; afterwards every item given
    is a member, a value whose encoding is none of theirs is a member
    exactly if it was one, and the length has grown by at most the number of
    items. *)
Theorem set_update {V} (self : SqliteSet.self_t V)
    (s : conn (gset string) SqliteSet.stmt) (items : list V) :
  let after := (SqliteSet.update self items s).2 in
  (SqliteSet.update self items s).1 = Ok tt ∧
  do_writes after = do_writes s + length items ∧
  (∀ x, x ∈ items → (SqliteSet.__contains__ self x after).1 = Ok true) ∧
  (∀ y, (∀ x, x ∈ items → SqliteSet._coder self x ≠ SqliteSet._coder self y) →
        (SqliteSet.__contains__ self y after).1 = (SqliteSet.__contains__ self y s).1) ∧
  ∃ n m, (SqliteSet.__len__ s).1 = Ok n ∧ (SqliteSet.__len__ after).1 = Ok m ∧
         (n ≤ m ≤ n + Z.of_nat (length items))%Z.
Proof.
  intros after. destruct (set_update_run self items s) as (s' & Hu & Hdb & Hw).
  unfold after. rewrite Hu. cbn [fst snd].
  split; [done|]. split; [done|]. split; [|split].
  - intros x Hx. rewrite set_contains_run, Hdb. f_equal. apply bool_decide_eq_true_2.
    apply elem_of_union_l, elem_of_list_to_set, list_elem_of_fmap. by exists x.
  - intros y Hy. rewrite !set_contains_run, Hdb. f_equal. apply bool_decide_ext.
    rewrite elem_of_union, elem_of_list_to_set, list_elem_of_fmap. split; [|tauto].
    intros [(x & Hc & Hx)|H]; [|done]. by destruct (Hy x Hx).
  - exists (Z.of_nat (size (db s))), (Z.of_nat (size (db s'))).
    rewrite !set_len_run. cbn. split; [done|]. split; [done|]. rewrite Hdb.
    pose proof (size_union_bounds
                  (list_to_set (SqliteSet._coder self <$> items)) (db s)) as [Hlo Hhi].
    pose proof (size_list_to_set_le (SqliteSet._coder self <$> items)) as Hle.
    rewrite length_fmap in Hle. lia.
Qed.

(** ** The set adapter: iteration and the comparisons *)

Lemma forallb_elem_of {A} (f : A → bool) (l : list A) :
  forallb f l = true ↔ ∀ x, x ∈ l → f x = true.
Proof.
  induction l as [|a l IH]; cbn.
  - split; [by intros _ x ?%elem_of_nil|done].
  - rewrite andb_true_iff, IH. split.
    + intros [Ha Hl] x [->|Hx]%elem_of_cons; [done|by apply Hl].
    + intros H. split; [apply H, list_elem_of_here|].
      intros x Hx. by apply H, list_elem_of_further.
Qed.

Section SetCompare.
Import SqliteSet.
Context {V : Type} (scan_keys : gset string → list string) (self : self_t V).

Implicit Types (s : conn (gset string) query) (other : operand V).

Lemma set_iter_run s :
  __iter__ scan_keys self s
    = (Ok (_decoder self <$> scan_keys (db s)), record (Exec SelectKeys) s).
Proof. unfold __iter__, execute. unfold_m. by destruct s. Qed.

Lemma set_len_relabel s :
  relabel Stmt __len__ s
    = (Ok (Z.of_nat (size (db s))), record (Exec (Stmt SelectCount)) s).
Proof. unfold relabel, __len__, _getlen, execute. by destruct s. Qed.

Lemma set_contains_relabel s x :
  relabel Stmt (__contains__ self x) s
    = (Ok (bool_decide (_coder self x ∈ db s)),
       record (Exec (Stmt (SelectKeyByKey (_coder self x)))) s).
Proof. unfold relabel, __contains__, _has, execute. by destruct s. Qed.

Lemma all_pure (f : V → bool) items s :
  all_ ((λ item, mret (f item)) <$> items) s = (Ok (forallb f items), s).
Proof.
  induction items as [|x items IH]; [done|].
  cbn [fmap list_fmap all_ forallb]. unfold_m. destruct (f x); [exact IH|done].
Qed.

Lemma all_has items : ∀ s,
  ∃ s', all_ ((λ item, relabel Stmt (__contains__ self item)) <$> items) s
          = (Ok (forallb (λ item, bool_decide (_coder self item ∈ db s)) items), s') ∧
        db s' = db s ∧ do_writes s' = do_writes s.
Proof.
  induction items as [|x items IH]; intros s.
  - exists s. by cbn.
  - cbn [fmap list_fmap all_ forallb]. unfold_m. rewrite set_contains_relabel.
    destruct (bool_decide (_coder self x ∈ db s)).
    + destruct (IH (record (Exec (Stmt (SelectKeyByKey (_coder self x)))) s))
        as (s' & Hr & Hdb & Hw).
      exists s'. split; [exact Hr|]. split; [exact Hdb|]. rewrite Hw. count_writes.
    + eexists. split; [reflexivity|]. split; [done|count_writes].
Qed.

Lemma scan_keys_elem_of s :
  (∀ t, scan_keys t ≡ₚ elements t) →
  ∀ c, c ∈ scan_keys (db s) ↔ c ∈ db s.
Proof. intros Hscan c. by rewrite Hscan, elem_of_elements. Qed.

Lemma set_iterate_run s :
  (∀ t, scan_keys t ≡ₚ elements t) →
  (∀ c, c ∈ db s → _coder self (_decoder self c) = c) →
  ∃ items,
    (__iter__ scan_keys self s).1 = Ok items ∧
    (relabel Stmt __len__ s).1 = Ok (Z.of_nat (length items)) ∧
    NoDup items ∧
    (∀ x, x ∈ items → (relabel Stmt (__contains__ self x) s).1 = Ok true) ∧
    (∀ x, (relabel Stmt (__contains__ self x) s).1 = Ok true →
          _decoder self (_coder self x) ∈ items) ∧
    db (__iter__ scan_keys self s).2 = db s ∧
    do_writes (__iter__ scan_keys self s).2 = do_writes s.
Proof.
  intros Hscan Hrt. exists (_decoder self <$> scan_keys (db s)).
  rewrite set_iter_run, set_len_relabel. cbn [fst snd].
  split; [done|]. split.
  { rewrite length_fmap, Hscan. done. }
  split.
  { apply NoDup_fmap_2_strong.
    - intros c1 c2 H1%scan_keys_elem_of H2%scan_keys_elem_of Heq; [|done..].
      rewrite <- (Hrt c1), <- (Hrt c2) by done. by rewrite Heq.
    - rewrite Hscan. apply NoDup_elements. }
  split; [|split; [|split; [done|count_writes]]].
  - intros x (c & -> & Hc%scan_keys_elem_of)%list_elem_of_fmap; [|done].
    rewrite set_contains_relabel. cbn [fst]. f_equal. apply bool_decide_eq_true_2.
    by rewrite Hrt.
  - intros x. rewrite set_contains_relabel. cbn [fst].
    intros [= Hin%bool_decide_eq_true_1].
    apply list_elem_of_fmap. exists (_coder self x). split; [done|].
    by apply scan_keys_elem_of.
Qed.
End SetCompare.

(** X24.  Iterating a set, in whatever order the engine lists the rows
    (a listing of the rows of the table), and provided
    [coder(decoder(text)) = text] for every stored text: [list(s)] has
    [len(s)] items and no item twice; every item listed is a member, and a
    member is listed in its decoded stored form.  Iterating stores nothing
    and does not call [_do_write]. *)
Theorem set_iterate {V} (scan_keys : gset string → list string)
    (self : SqliteSet.self_t V) (s : conn (gset string) SqliteSet.query) :
  (∀ t, scan_keys t ≡ₚ elements t) →
  (∀ c, c ∈ db s → SqliteSet._coder self (SqliteSet._decoder self c) = c) →
  ∃ items,
    (SqliteSet.__iter__ scan_keys self s).1 = Ok items ∧
    (relabel SqliteSet.Stmt SqliteSet.__len__ s).1 = Ok (Z.of_nat (length items)) ∧
    NoDup items ∧
    (∀ x, x ∈ items →
          (relabel SqliteSet.Stmt (SqliteSet.__contains__ self x) s).1 = Ok true) ∧
    (∀ x, (relabel SqliteSet.Stmt (SqliteSet.__contains__ self x) s).1 = Ok true →
          SqliteSet._decoder self (SqliteSet._coder self x) ∈ items) ∧
    db (SqliteSet.__iter__ scan_keys self s).2 = db s ∧
    do_writes (SqliteSet.__iter__ scan_keys self s).2 = do_writes s.
Proof. apply set_iterate_run. Qed.

Lemma set_iterate_witness :
  let s := (relabel SqliteSet.Stmt (SqliteSet.update text_set ["a"; "b"]) (fresh ∅ 0)).2 in
  (∀ t : gset string, elements t ≡ₚ elements t) ∧
  (∀ c, c ∈ db s → SqliteSet._coder text_set (SqliteSet._decoder text_set c) = c) ∧
  ∃ items, (SqliteSet.__iter__ elements text_set s).1 = Ok items ∧
           (relabel SqliteSet.Stmt SqliteSet.__len__ s).1 = Ok (Z.of_nat (length items)) ∧
           NoDup items.
Proof.
  intros s.
  assert (∀ t : gset string, elements t ≡ₚ elements t) as H1 by reflexivity.
  assert (∀ c, c ∈ db s →
               SqliteSet._coder text_set (SqliteSet._decoder text_set c) = c) as H2
    by reflexivity.
  split; [exact H1|]. split; [exact H2|].
  destruct (set_iterate elements text_set s H1 H2) as (items & Hi & Hl & Hn & _).
  exists items. split; [exact Hi|]. split; [exact Hl|exact Hn].
Defined.

Section SetPredicates.
Import SqliteSet.
Context {V : Type} (scan_keys : gset string → list string) (self : self_t V).

Implicit Types (s : conn (gset string) query) (other : operand V).

Lemma issubset_run s other :
  issubset scan_keys self other s
    = (Ok (forallb (contains_of other) (_decoder self <$> scan_keys (db s))),
       record (Exec SelectKeys) s).
Proof.
  unfold issubset. unfold mbind, M_bind, bind. rewrite set_iter_run. apply all_pure.
Qed.

Lemma isdisjoint_run s other :
  isdisjoint scan_keys self other s
    = (Ok (forallb (λ item, negb (contains_of other item))
                   (_decoder self <$> scan_keys (db s))),
       record (Exec SelectKeys) s).
Proof.
  unfold isdisjoint. unfold mbind, M_bind, bind. rewrite set_iter_run.
  apply (all_pure (λ item, negb (contains_of other item))).
Qed.

Lemma lt_run s other :
  (__lt__ scan_keys self other s).1
    = Ok (forallb (contains_of other) (_decoder self <$> scan_keys (db s))
          && bool_decide (Z.of_nat (size (db s)) < len_of other)%Z) ∧
  db (__lt__ scan_keys self other s).2 = db s ∧
  do_writes (__lt__ scan_keys self other s).2 = do_writes s.
Proof.
  unfold __lt__. unfold mbind, M_bind, bind. rewrite issubset_run.
  destruct (forallb _ _).
  - rewrite set_len_relabel. cbn -[bool_decide]. split; [done|]. split; [done|count_writes].
  - cbn. split; [done|]. split; [done|count_writes].
Qed.

Lemma gt_run s other :
  (__gt__ self other s).1
    = Ok (forallb (λ item, bool_decide (_coder self item ∈ db s)) (iter_of other)
          && bool_decide (Z.of_nat (size (db s)) > len_of other)%Z) ∧
  db (__gt__ self other s).2 = db s ∧
  do_writes (__gt__ self other s).2 = do_writes s.
Proof.
  unfold __gt__, issuperset. unfold mbind, M_bind, bind.
  destruct (all_has self (iter_of other) s) as (s' & -> & Hdb & Hw).
  destruct (forallb _ _).
  - rewrite set_len_relabel, Hdb. cbn -[bool_decide]. split; [done|]. split; [done|].
    rewrite <- Hw. count_writes.
  - cbn. done.
Qed.

Lemma set_comparisons_run s other :
  (∀ t, scan_keys t ≡ₚ elements t) →
  ∃ sub dis sup,
    (issubset scan_keys self other s).1 = Ok sub ∧
    (sub = true ↔ ∀ c, c ∈ db s → contains_of other (_decoder self c) = true) ∧
    (isdisjoint scan_keys self other s).1 = Ok dis ∧
    (dis = true ↔ ∀ c, c ∈ db s → contains_of other (_decoder self c) = false) ∧
    (issuperset self other s).1 = Ok sup ∧
    (sup = true ↔ ∀ x, x ∈ iter_of other → _coder self x ∈ db s) ∧
    (__le__ scan_keys self other s).1 = Ok sub ∧
    (__ge__ self other s).1 = Ok sup ∧
    (__lt__ scan_keys self other s).1
      = Ok (sub && bool_decide (Z.of_nat (size (db s)) < len_of other)%Z) ∧
    (__gt__ self other s).1
      = Ok (sup && bool_decide (Z.of_nat (size (db s)) > len_of other)%Z) ∧
    Forall (λ m : Mq bool, db (m s).2 = db s ∧ do_writes (m s).2 = do_writes s)
           [issubset scan_keys self other; isdisjoint scan_keys self other;
            issuperset self other; __le__ scan_keys self other; __ge__ self other;
            __lt__ scan_keys self other; __gt__ self other].
Proof.
  intros Hscan.
  destruct (all_has self (iter_of other) s) as (s' & Hsup & Hdb & Hw).
  destruct (lt_run s other) as (Hlt & Hltdb & Hltw).
  destruct (gt_run s other) as (Hgt & Hgtdb & Hgtw).
  exists (forallb (contains_of other) (_decoder self <$> scan_keys (db s))),
         (forallb (λ item, negb (contains_of other item))
                  (_decoder self <$> scan_keys (db s))),
         (forallb (λ item, bool_decide (_coder self item ∈ db s)) (iter_of other)).
  unfold __le__, __ge__. unfold issuperset at 1 2. rewrite Hsup.
  rewrite issubset_run, isdisjoint_run. cbn [fst snd].
  split; [done|]. split.
  { rewrite forallb_elem_of. split.
    - intros H c Hc. apply H, list_elem_of_fmap. exists c. split; [done|].
      by apply scan_keys_elem_of.
    - intros H x (c & -> & Hc%scan_keys_elem_of)%list_elem_of_fmap; [|done].
      by apply H. }
  split; [done|]. split.
  { rewrite forallb_elem_of. split.
    - intros H c Hc. apply negb_true_iff, H, list_elem_of_fmap. exists c.
      split; [done|]. by apply scan_keys_elem_of.
    - intros H x (c & -> & Hc%scan_keys_elem_of)%list_elem_of_fmap; [|done].
      by apply negb_true_iff, H. }
  split; [done|]. split.
  { rewrite forallb_elem_of. split.
    - intros H x Hx. specialize (H x Hx). by apply bool_decide_eq_true_1 in H.
    - intros H x Hx. by apply bool_decide_eq_true_2, H. }
  split; [done|]. split; [done|]. split; [exact Hlt|]. split; [exact Hgt|].
  repeat apply Forall_cons_2; try apply Forall_nil_2;
    rewrite ?issubset_run, ?isdisjoint_run; unfold issuperset; rewrite ?Hsup;
    cbn [fst snd]; try done; split; try done; count_writes.
Qed.
End SetPredicates.

(** X25.  The comparisons of a set with a Python collection [other],
    in whatever order the engine lists the rows.  [issubset] and [<=] are
    true exactly if every stored item, decoded, is [in other]; [isdisjoint]
    exactly if none is; [issuperset] and [>=] exactly if every item of
    [other] is stored; [<] and [>] ask in addition that [len(self)] is
    smaller, or greater, than [len(other)].  None of the seven stores
    anything or calls [_do_write]. *)
Theorem set_comparisons {V} (scan_keys : gset string → list string)
    (self : SqliteSet.self_t V) (s : conn (gset string) SqliteSet.query)
    (other : SqliteSet.operand V) :
  (∀ t, scan_keys t ≡ₚ elements t) →
  ∃ sub dis sup,
    (SqliteSet.issubset scan_keys self other s).1 = Ok sub ∧
    (sub = true ↔
     ∀ c, c ∈ db s → SqliteSet.contains_of other (SqliteSet._decoder self c) = true) ∧
    (SqliteSet.isdisjoint scan_keys self other s).1 = Ok dis ∧
    (dis = true ↔
     ∀ c, c ∈ db s → SqliteSet.contains_of other (SqliteSet._decoder self c) = false) ∧
    (SqliteSet.issuperset self other s).1 = Ok sup ∧
    (sup = true ↔
     ∀ x, x ∈ SqliteSet.iter_of other → SqliteSet._coder self x ∈ db s) ∧
    (SqliteSet.__le__ scan_keys self other s).1 = Ok sub ∧
    (SqliteSet.__ge__ self other s).1 = Ok sup ∧
    (SqliteSet.__lt__ scan_keys self other s).1
      = Ok (sub && bool_decide (Z.of_nat (size (db s)) < SqliteSet.len_of other)%Z) ∧
    (SqliteSet.__gt__ self other s).1
      = Ok (sup && bool_decide (Z.of_nat (size (db s)) > SqliteSet.len_of other)%Z) ∧
    Forall (λ m : SqliteSet.Mq bool,
              db (m s).2 = db s ∧ do_writes (m s).2 = do_writes s)
           [SqliteSet.issubset scan_keys self other;
            SqliteSet.isdisjoint scan_keys self other;
            SqliteSet.issuperset self other;
            SqliteSet.__le__ scan_keys self other;
            SqliteSet.__ge__ self other;
            SqliteSet.__lt__ scan_keys self other;
            SqliteSet.__gt__ self other].
Proof. apply set_comparisons_run. Qed.

Lemma set_comparisons_witness :
  let s := (relabel SqliteSet.Stmt (SqliteSet.update text_set ["a"; "b"]) (fresh ∅ 0)).2 in
  (∀ t : gset string, elements t ≡ₚ elements t) ∧
  ∃ sub dis sup,
    (SqliteSet.issubset elements text_set (SqliteSet.py_list ["a"; "b"; "c"]) s).1 = Ok sub ∧
    (SqliteSet.isdisjoint elements text_set (SqliteSet.py_list ["a"; "b"; "c"]) s).1
      = Ok dis ∧
    (SqliteSet.issuperset text_set (SqliteSet.py_list ["a"; "b"; "c"]) s).1 = Ok sup.
Proof.
  intros s.
  assert (∀ t : gset string, elements t ≡ₚ elements t) as H1 by reflexivity.
  split; [exact H1|].
  destruct (set_comparisons elements text_set s (SqliteSet.py_list ["a"; "b"; "c"]) H1)
    as (sub & dis & sup & Hsub & _ & Hdis & _ & Hsup & _).
  exists sub, dis, sup. split; [exact Hsub|]. split; [exact Hdis|exact Hsup].
Defined.

Section SetEquality.
Import SqliteSet.
Context {V : Type} `{EqDecision V}.
Context (scan_keys : gset string → list string) (self : self_t V).

Implicit Types (s : conn (gset string) query).

Lemma set_eq_run s (items : list V) :
  (∀ t, scan_keys t ≡ₚ elements t) →
  (∀ c1 c2, c1 ∈ db s → c2 ∈ db s → _decoder self c1 = _decoder self c2 → c1 = c2) →
  ∃ b, (__eq__ scan_keys self (py_list items) s).1 = Ok b ∧
       (b = true ↔ items ≡ₚ _decoder self <$> elements (db s)) ∧
       db (__eq__ scan_keys self (py_list items) s).2 = db s ∧
       do_writes (__eq__ scan_keys self (py_list items) s).2 = do_writes s.
Proof.
  intros Hscan Hinj. unfold __eq__. unfold mbind, M_bind, bind.
  rewrite set_len_relabel. cbn [len_of py_list].
  assert (length (_decoder self <$> elements (db s)) = size (db s)) as Hlen
    by (by rewrite length_fmap).
  case_decide as Hn.
  - exists false. cbn. split; [done|]. split; [|split; [done|count_writes]].
    split; [done|]. intros Hp. exfalso. apply Hn. f_equal.
    by rewrite Hp, Hlen.
  - assert (size (db s) = length items) as Hsize.
    { destruct (decide (size (db s) = length items)) as [|Hne]; [done|].
      exfalso. lia. }
    rewrite set_iter_run. cbn [contains_of py_list].
    rewrite (all_pure (λ item, bool_decide (item ∈ items))). cbn [fst snd].
    eexists. split; [reflexivity|]. split; [|split; [done|count_writes]].
    rewrite forallb_elem_of. split.
    + intros H. symmetry. apply submseteq_length_Permutation; [|lia].
      apply NoDup_submseteq.
      * apply NoDup_fmap_2_strong; [|apply NoDup_elements].
        intros c1 c2 H1%elem_of_elements H2%elem_of_elements. by apply Hinj.
      * intros x Hx. rewrite <- Hscan in Hx. specialize (H x Hx).
        by apply bool_decide_eq_true_1 in H.
    + intros Hp x Hx. apply bool_decide_eq_true_2. by rewrite Hp, <- Hscan.
Qed.
End SetEquality.

(** X26.  [s == other] for a Python list [other], in whatever order the
    engine lists the rows, and provided no two stored texts decode to the
    same value: the comparison is true exactly if [other] lists the decoded
    stored items, each once, in any order; so a list that repeats an item
    never compares equal.  The comparison stores nothing and does not call
    [_do_write]. *)
Theorem set_equality {V} `{EqDecision V} (scan_keys : gset string → list string)
    (self : SqliteSet.self_t V) (s : conn (gset string) SqliteSet.query)
    (items : list V) :
  (∀ t, scan_keys t ≡ₚ elements t) →
  (∀ c1 c2, c1 ∈ db s → c2 ∈ db s →
            SqliteSet._decoder self c1 = SqliteSet._decoder self c2 → c1 = c2) →
  ∃ b, (SqliteSet.__eq__ scan_keys self (SqliteSet.py_list items) s).1 = Ok b ∧
       (b = true ↔ items ≡ₚ SqliteSet._decoder self <$> elements (db s)) ∧
       db (SqliteSet.__eq__ scan_keys self (SqliteSet.py_list items) s).2 = db s ∧
       do_writes (SqliteSet.__eq__ scan_keys self (SqliteSet.py_list items) s).2
         = do_writes s.
Proof. apply set_eq_run. Qed.

Lemma set_equality_witness :
  let s := (relabel SqliteSet.Stmt (SqliteSet.update text_set ["a"; "b"]) (fresh ∅ 0)).2 in
  (∀ t : gset string, elements t ≡ₚ elements t) ∧
  (∀ c1 c2, c1 ∈ db s → c2 ∈ db s →
            SqliteSet._decoder text_set c1 = SqliteSet._decoder text_set c2 → c1 = c2) ∧
  ∃ b, (SqliteSet.__eq__ elements text_set (SqliteSet.py_list ["b"; "a"]) s).1 = Ok b ∧
       (b = true ↔ ["b"; "a"] ≡ₚ SqliteSet._decoder text_set <$> elements (db s)).
Proof.
  intros s.
  assert (∀ t : gset string, elements t ≡ₚ elements t) as H1 by reflexivity.
  assert (∀ c1 c2, c1 ∈ db s → c2 ∈ db s →
            SqliteSet._decoder text_set c1 = SqliteSet._decoder text_set c2 → c1 = c2) as H2
    by (intros c1 c2 _ _ H; exact H).
  split; [exact H1|]. split; [exact H2|].
  destruct (set_equality elements text_set s ["b"; "a"] H1 H2) as (b & Hb & Hiff & _).
  exists b. split; [exact Hb|exact Hiff].
Defined.

(** ** Writing the containers out *)

Section OutputText.
Context {V : Type}.

Local Open Scope string_scope.

Lemma string_app_assoc (a b c : string) : (a ++ b) ++ c = a ++ (b ++ c).
Proof.
  induction a as [|ch a IH]; [done|].
  change (String ch ((a ++ b) ++ c) = String ch (a ++ (b ++ c))). by rewrite IH.
Qed.

Lemma string_app_nil_r (a : string) : a ++ "" = a.
Proof.
  induction a as [|ch a IH]; [done|].
  change (String ch (a ++ "") = String ch a). by rewrite IH.
Qed.

Lemma concat_cons sep (x : string) (l : list string) :
  l ≠ [] → String.concat sep (x :: l) = x ++ sep ++ String.concat sep l.
Proof. by destruct l. Qed.

Lemma write_loop_text (json_dumps : V → string) rest : ∀ this outfile,
  write_loop json_dumps this rest outfile
    = outfile ++ String.concat "," (json_dumps <$> this :: rest) ++ "]".
Proof.
  induction rest as [|next rest IH]; intros this outfile.
  - cbn. apply string_app_assoc.
  - cbn [write_loop]. rewrite IH. cbn [fmap list_fmap].
    rewrite (concat_cons "," (json_dumps this)) by done.
    by rewrite !string_app_assoc.
Qed.

Lemma write_lines_loop_text (coder : V → string) separator rest : ∀ this outfile,
  write_lines_loop coder separator this rest outfile
    = outfile ++ String.concat "" ((λ item, coder item ++ separator) <$> this :: rest).
Proof.
  induction rest as [|next rest IH]; intros this outfile.
  - cbn. apply string_app_assoc.
  - cbn [write_lines_loop]. rewrite IH. cbn [fmap list_fmap].
    rewrite (concat_cons "" (coder this ++ separator)) by done.
    change ("" ++ ?x) with x. by rewrite !string_app_assoc.
Qed.

(** The text of a JSON array of the items, and the lines of the items. *)
Lemma write_text (json_dumps : V → string) items outfile :
  match items with
  | [] => (outfile ++ "[") ++ "]"
  | this :: rest => write_loop json_dumps this rest (outfile ++ "[")
  end = outfile ++ "[" ++ String.concat "," (json_dumps <$> items) ++ "]".
Proof.
  destruct items as [|this rest]; [apply string_app_assoc|].
  rewrite write_loop_text. apply string_app_assoc.
Qed.

Lemma write_lines_text (coder : V → string) separator items outfile :
  match items with
  | [] => outfile
  | this :: rest => write_lines_loop coder separator this rest outfile
  end = outfile ++ String.concat "" ((λ item, coder item ++ separator) <$> items).
Proof.
  destruct items as [|this rest]; [by rewrite string_app_nil_r|].
  apply write_lines_loop_text.
Qed.
End OutputText.

Section ListOutput.
Import SqliteList.
Context {V : Type} (self : self_t V).

Local Open Scope string_scope.

Lemma list_write_run (json_dumps : V → string) outfile (s : conn database stmt) :
  write self json_dumps outfile s =
    match __iter__ self s with
    | (Ok items, s') =>
        (Ok tt, outfile ++ "[" ++ String.concat "," (json_dumps <$> items) ++ "]", s')
    | (Raise e, s') => (Raise e, outfile ++ "[", s')
    end.
Proof.
  unfold write. destruct (__iter__ self s) as [[items|e] s']; [|done].
  rewrite <- write_text. by destruct items.
Qed.

Lemma list_write_lines_run (coder : V → string) separator outfile
    (s : conn database stmt) :
  write_lines self outfile coder separator s =
    match __iter__ self s with
    | (Ok items, s') =>
        (Ok tt,
         outfile ++ String.concat "" ((λ item, coder item ++ separator) <$> items), s')
    | (Raise e, s') => (Raise e, outfile, s')
    end.
Proof.
  unfold write_lines. destruct (__iter__ self s) as [[items|e] s']; [|done].
  rewrite <- write_lines_text. by destruct items.
Qed.

Lemma iter_missing (s : conn database stmt) :
  db s !! table_name self = None →
  __iter__ self s =
    (Raise (OperationalError ("no such table: " ++ table_name self)),
     record (Exec (SelectValuesAsc (table_name self))) s).
Proof.
  intros H. unfold __iter__, execute, sql_values_asc, with_table. unfold_m.
  by rewrite H.
Qed.
End ListOutput.

Section ListOutputFrame.
Import SqliteList.
Context {V : Type} (self : self_t V).

Lemma iter_frame (s : conn database stmt) :
  db (__iter__ self s).2 = db s ∧ do_writes (__iter__ self s).2 = do_writes s.
Proof.
  unfold __iter__, execute, sql_values_asc, with_table. unfold_m.
  destruct (db s !! table_name self); cbn; (split; [done|count_writes]).
Qed.
End ListOutputFrame.

(** X27.  Writing a sequence out.  On a sequence with the contents [vs],
    whose items read back as [decoder(coder(v))]: [write(outfile)] appends
    to the file the text of a JSON array, an opening bracket, the
    [json.dumps] of the items in their order joined by commas, and a closing
    bracket (["[]"] for no items); [write_lines(outfile, coder, separator)]
    appends [coder(item)] followed by [separator] for each item in order, so
    the last line ends with the separator too, and nothing for no items.
    Where the table is missing both raise; [write] has written the opening
    bracket by then, [write_lines] nothing.  Neither stores anything or
    calls [_do_write]. *)
Theorem list_write {V} (self : SqliteList.self_t V) (json_dumps coder : V → string)
    (separator outfile : string) (s : conn (gmap string (gmap Z string)) SqliteList.stmt) :
  (∀ vs, holds self s vs →
     let items := (λ v, SqliteList._decoder self (SqliteList._coder self v)) <$> vs in
     (SqliteList.write self json_dumps outfile s).1
       = (Ok tt, (outfile ++ "[" ++ String.concat "," (json_dumps <$> items) ++ "]")%string) ∧
     (SqliteList.write_lines self outfile coder separator s).1
       = (Ok tt,
          (outfile ++
           String.concat "" ((λ item, (coder item ++ separator)%string) <$> items))%string)) ∧
  (db s !! SqliteList.table_name self = None →
     (SqliteList.write self json_dumps outfile s).1
       = (Raise (OperationalError ("no such table: " ++ SqliteList.table_name self)),
          (outfile ++ "[")%string) ∧
     (SqliteList.write_lines self outfile coder separator s).1
       = (Raise (OperationalError ("no such table: " ++ SqliteList.table_name self)),
          outfile)) ∧
  db (SqliteList.write self json_dumps outfile s).2 = db s ∧
  do_writes (SqliteList.write self json_dumps outfile s).2 = do_writes s ∧
  db (SqliteList.write_lines self outfile coder separator s).2 = db s ∧
  do_writes (SqliteList.write_lines self outfile coder separator s).2 = do_writes s.
Proof.
  rewrite list_write_run, list_write_lines_run. split; [|split].
  - intros vs Hvs items. by rewrite (iter_holds self s vs Hvs).
  - intros Hnone. by rewrite (iter_missing self s Hnone).
  - destruct (iter_frame self s) as [Hdb Hw].
    by destruct (SqliteList.__iter__ self s) as [[items|e] s'].
Qed.

Lemma list_write_witness :
  holds text_list wxy ["w"; "x"; "y"] ∧
  (SqliteList.write text_list id "" wxy).1 = (Ok tt, "[w,x,y]") ∧
  (SqliteList.write_lines text_list "" id ";" wxy).1 = (Ok tt, "w;x;y;").
Proof.
  split; [exact wxy_holds|].
  destruct (list_write text_list id id ";" "" wxy) as [H _].
  exact (H ["w"; "x"; "y"] wxy_holds).
Defined.

(** ** Writing the dict out *)

Section DictOutput.
Import SqliteDict.
Context {V : Type} (scan_items : gmap string string → list (string * string)).
Context (self : self_t V) (str : V → string) (json_dumps_str : string → string).
Context (json_dumps : V → string).

Local Open Scope string_scope.

Lemma dict_write_loop_text rest : ∀ this outfile,
  write_loop str json_dumps_str json_dumps this rest outfile
    = outfile ++
      String.concat ","
        ((λ item, json_dumps_str (str item.1) ++ ":" ++ json_dumps item.2)
           <$> this :: rest) ++ "}".
Proof.
  induction rest as [|next rest IH]; intros this outfile.
  - cbn. by rewrite !string_app_assoc.
  - cbn [write_loop]. rewrite IH. cbn [fmap list_fmap].
    rewrite (concat_cons "," (json_dumps_str (str this.1) ++ ":" ++ json_dumps this.2))
      by done.
    by rewrite !string_app_assoc.
Qed.

Lemma dict_write_lines_loop_text (key_coder value_coder : V → string)
    separator key_val_separator rest : ∀ this outfile,
  write_lines_loop key_coder value_coder separator key_val_separator this rest outfile
    = outfile ++
      String.concat ""
        ((λ item, key_coder item.1 ++ key_val_separator ++ value_coder item.2 ++ separator)
           <$> this :: rest).
Proof.
  induction rest as [|next rest IH]; intros this outfile.
  - cbn. by rewrite !string_app_assoc.
  - cbn [write_lines_loop]. rewrite IH. cbn [fmap list_fmap].
    rewrite (concat_cons ""
               (key_coder this.1 ++ key_val_separator ++ value_coder this.2 ++ separator))
      by done.
    change ("" ++ ?x) with x. by rewrite !string_app_assoc.
Qed.

Lemma dict_items_run (s : conn (gmap string string) query) :
  ItemView__iter__ scan_items self s
    = (Ok ((λ row, (_decoder self row.1, _decoder self row.2)) <$> scan_items (db s)),
       record (Exec SelectItems) s).
Proof. unfold ItemView__iter__, execute. unfold_m. by destruct s. Qed.

Lemma dict_write_run outfile (s : conn (gmap string string) query) :
  write scan_items self str json_dumps_str json_dumps outfile s =
    (Ok tt,
     outfile ++ "{" ++
     String.concat ","
       ((λ item, json_dumps_str (str item.1) ++ ":" ++ json_dumps item.2)
          <$> ((λ row, (_decoder self row.1, _decoder self row.2)) <$> scan_items (db s)))
     ++ "}",
     record (Exec SelectItems) s).
Proof.
  unfold write. rewrite dict_items_run.
  destruct (scan_items (db s)) as [|row rows]; cbn [fmap list_fmap].
  - by rewrite string_app_assoc.
  - rewrite dict_write_loop_text. by rewrite string_app_assoc.
Qed.

Lemma dict_write_lines_run (key_coder value_coder : V → string)
    separator key_val_separator outfile (s : conn (gmap string string) query) :
  write_lines scan_items self outfile key_coder value_coder separator key_val_separator s =
    (Ok tt,
     outfile ++
     String.concat ""
       ((λ item, key_coder item.1 ++ key_val_separator ++ value_coder item.2 ++ separator)
          <$> ((λ row, (_decoder self row.1, _decoder self row.2)) <$> scan_items (db s))),
     record (Exec SelectItems) s).
Proof.
  unfold write_lines. rewrite dict_items_run.
  destruct (scan_items (db s)) as [|row rows]; cbn [fmap list_fmap].
  - by rewrite string_app_nil_r.
  - by rewrite dict_write_lines_loop_text.
Qed.
End DictOutput.

(** X28.  Writing a dict out, in whatever order the engine lists the rows
    for [SELECT key, value] (a listing of the rows of the table).  With
    [items] what [list(d.items())] yields, one pair per row:
    [write(outfile)] returns and appends the text of a JSON object, an
    opening brace, for each pair [json.dumps(str(key))], a colon and
    [json.dumps(value)], the pairs joined by commas, and a closing brace;
    [write_lines] returns and appends for each pair the coded key, the
    key/value separator, the coded value and the separator, so the last line
    ends with the separator too.  On a dict without rows they append ["{}"]
    and nothing.  Neither stores anything or calls [_do_write]. *)
Theorem dict_write {V} (scan_items : gmap string string → list (string * string))
    (self : SqliteDict.self_t V) (str : V → string) (json_dumps_str : string → string)
    (json_dumps key_coder value_coder : V → string)
    (separator key_val_separator outfile : string)
    (s : conn (gmap string string) SqliteDict.query) :
  (∀ t, scan_items t ≡ₚ map_to_list t) →
  let written := SqliteDict.write scan_items self str json_dumps_str json_dumps outfile s in
  let lines := SqliteDict.write_lines scan_items self outfile key_coder value_coder
                 separator key_val_separator s in
  ∃ items,
    (SqliteDict.ItemView__iter__ scan_items self s).1 = Ok items ∧
    length items = size (db s) ∧
    written.1
      = (Ok tt,
         (outfile ++ "{" ++
          String.concat ","
            ((λ item, (json_dumps_str (str item.1) ++ ":" ++ json_dumps item.2)%string)
               <$> items) ++ "}")%string) ∧
    lines.1
      = (Ok tt,
         (outfile ++
          String.concat ""
            ((λ item, (key_coder item.1 ++ key_val_separator ++
                       value_coder item.2 ++ separator)%string) <$> items))%string) ∧
    (db s = ∅ → written.1 = (Ok tt, (outfile ++ "{}")%string) ∧ lines.1 = (Ok tt, outfile)) ∧
    db written.2 = db s ∧ do_writes written.2 = do_writes s ∧
    db lines.2 = db s ∧ do_writes lines.2 = do_writes s.
Proof.
  intros Hscan written lines. unfold written, lines.
  rewrite dict_write_run, dict_write_lines_run, dict_items_run. cbn [fst snd].
  eexists. split; [reflexivity|]. split.
  { by rewrite length_fmap, Hscan, length_map_to_list. }
  split; [done|]. split; [done|]. split.
  { intros He. assert (scan_items (db s) = []) as ->.
    { apply Permutation_nil_r. by rewrite Hscan, He, map_to_list_empty. }
    cbn [fmap list_fmap String.concat]. by rewrite string_app_nil_r. }
  split; [done|]. split; [count_writes|]. split; [done|count_writes].
Qed.

Lemma dict_write_witness :
  let s := (relabel SqliteDict.Stmt
              (SqliteDict.__setitem__ text_dict (SqliteDict.Key "a") "1")
              (fresh ∅ 0)).2 in
  (∀ t : gmap string string, map_to_list t ≡ₚ map_to_list t) ∧
  (SqliteDict.write map_to_list text_dict id id id "" s).1 = (Ok tt, "{a:1}") ∧
  (SqliteDict.write_lines map_to_list text_dict "" id id ";" "=" s).1 = (Ok tt, "a=1;").
Proof.
  intros s.
  assert (∀ t : gmap string string, map_to_list t ≡ₚ map_to_list t) as H1 by reflexivity.
  split; [exact H1|].
  destruct (dict_write map_to_list text_dict id id id id id ";" "=" "" s H1)
    as (items & Hi & _ & Hw & Hl & _).
  assert (items = [("a", "1")]) as ->.
  { assert ((SqliteDict.ItemView__iter__ map_to_list text_dict s).1 = Ok [("a", "1")]) as E
      by (vm_compute; reflexivity).
    rewrite E in Hi. by injection Hi. }
  split; [exact Hw|exact Hl].
Defined.

(** ** Writing the set out *)

Section SetOutput.
Import SqliteSet.
Context {V : Type} (scan_keys : gset string → list string) (self : self_t V).

Local Open Scope string_scope.

Lemma set_write_run (json_dumps : V → string) outfile (s : conn (gset string) query) :
  write scan_keys self json_dumps outfile s =
    (Ok tt,
     outfile ++ "[" ++
     String.concat "," (json_dumps <$> (_decoder self <$> scan_keys (db s))) ++ "]",
     record (Exec SelectKeys) s).
Proof.
  unfold write. rewrite set_iter_run, <- write_text.
  by destruct (scan_keys (db s)).
Qed.

Lemma set_write_lines_run (coder : V → string) separator outfile
    (s : conn (gset string) query) :
  write_lines scan_keys self outfile coder separator s =
    (Ok tt,
     outfile ++
     String.concat "" ((λ item, coder item ++ separator)
                         <$> (_decoder self <$> scan_keys (db s))),
     record (Exec SelectKeys) s).
Proof.
  unfold write_lines. rewrite set_iter_run, <- write_lines_text.
  by destruct (scan_keys (db s)).
Qed.
End SetOutput.

(** X29.  Writing a set out, in whatever order the engine lists the rows
    (a listing of the rows of the table).  With [items] what [list(s)]
    yields, the decoded stored texts in some order: [write(outfile)] returns
    and appends the text of a JSON array, an opening bracket, the
    [json.dumps] of the items joined by commas, and a closing bracket;
    [write_lines(outfile, coder, separator)] returns and appends
    [coder(item)] followed by [separator] for each item.  On a set without
    rows they append ["[]"] and nothing.  Neither stores anything or calls
    [_do_write]. *)
Theorem set_write {V} (scan_keys : gset string → list string)
    (self : SqliteSet.self_t V) (json_dumps coder : V → string)
    (separator outfile : string) (s : conn (gset string) SqliteSet.query) :
  (∀ t, scan_keys t ≡ₚ elements t) →
  let written := SqliteSet.write scan_keys self json_dumps outfile s in
  let lines := SqliteSet.write_lines scan_keys self outfile coder separator s in
  ∃ items,
    (SqliteSet.__iter__ scan_keys self s).1 = Ok items ∧
    items ≡ₚ SqliteSet._decoder self <$> elements (db s) ∧
    written.1
      = (Ok tt, (outfile ++ "[" ++ String.concat "," (json_dumps <$> items) ++ "]")%string) ∧
    lines.1
      = (Ok tt,
         (outfile ++
          String.concat "" ((λ item, (coder item ++ separator)%string) <$> items))%string) ∧
    (db s = ∅ → written.1 = (Ok tt, (outfile ++ "[]")%string) ∧ lines.1 = (Ok tt, outfile)) ∧
    db written.2 = db s ∧ do_writes written.2 = do_writes s ∧
    db lines.2 = db s ∧ do_writes lines.2 = do_writes s.
Proof.
  intros Hscan written lines. unfold written, lines.
  rewrite set_write_run, set_write_lines_run, set_iter_run. cbn [fst snd].
  eexists. split; [reflexivity|]. split; [by rewrite Hscan|].
  split; [done|]. split; [done|]. split.
  { intros He. assert (scan_keys (db s) = []) as ->.
    { apply Permutation_nil_r. by rewrite Hscan, He, elements_empty. }
    cbn [fmap list_fmap String.concat]. by rewrite string_app_nil_r. }
  split; [done|]. split; [count_writes|]. split; [done|count_writes].
Qed.

Lemma set_write_witness :
  let s := (relabel SqliteSet.Stmt (SqliteSet.add text_set "a") (fresh ∅ 0)).2 in
  (∀ t : gset string, elements t ≡ₚ elements t) ∧
  (SqliteSet.write elements text_set id "" s).1 = (Ok tt, "[a]") ∧
  (SqliteSet.write_lines elements text_set "" id ";" s).1 = (Ok tt, "a;").
Proof.
  intros s.
  assert (∀ t : gset string, elements t ≡ₚ elements t) as H1 by reflexivity.
  split; [exact H1|].
  destruct (set_write elements text_set id id ";" "" s H1)
    as (items & Hi & _ & Hw & Hl & _).
  assert (items = ["a"]) as ->.
  { assert ((SqliteSet.__iter__ elements text_set s).1 = Ok ["a"]) as E
      by (vm_compute; reflexivity).
    rewrite E in Hi. by injection Hi. }
  split; [exact Hw|exact Hl].
Defined.
